(** * LocalCertService: get-or-create / remove of a local self-signed certificate

    Shallow embedding of [toolkit/devtools/security/LocalCertService.cpp].

    The C++ talks to three collaborators that are not part of the file:
    the NSS certificate store, the NSS / XPCOM calls that can fail for reasons
    of their own, and the clock.  They are modelled as follows.

    - The store is a list of certificates, each carrying the nickname it was
      imported under.  Nickname lookups return the first entry with that
      nickname; the list may hold several entries for one nickname, which is
      why [RemoveExisting] is a loop.
    - Everything the environment decides (whether a call fails, which error it
      leaves behind, what the clock reads, which bytes the random generator
      returns) is read from an [Env] oracle, indexed by the call site and by
      the number of events logged so far.
    - Every call to a collaborator is appended to an event log, together with
      the callback invocations, so that "no store interaction" and "called at
      most n times" are statements about the log.

    A task is a state transformer that may be undefined ([None]): a null
    dereference, or the purge loop running out of the fuel the embedding gives
    it.  The theorems show that the entry points are always defined. *)

From Stdlib Require Import ZArith List String Bool Arith Lia.
Import ListNotations.

Local Open Scope Z_scope.

(** ** XPCOM result codes *)

Inductive nsresult : Type :=
| NS_OK
| NS_ERROR_FAILURE
| NS_ERROR_UNEXPECTED
| NS_ERROR_INVALID_ARG
| NS_ERROR_INVALID_POINTER
| NS_ERROR_NSS (prErr : Z).   (* an NSPR / NSS error code carried as an nsresult *)

Definition NS_FAILED (rv : nsresult) : bool :=
  match rv with
  | NS_OK => false
  | _ => true
  end.

(** [mozilla::psm::GetXPCOMFromNSSError]: always a failure code. *)
Definition GetXPCOMFromNSSError (prErr : Z) : nsresult := NS_ERROR_NSS prErr.

(** ** Time

    [PRTime] is a signed 64-bit count of microseconds; arithmetic on it wraps
    around in two's complement. *)

Definition PRTime := Z.

Definition PRTime_wrap (z : Z) : PRTime := (z + 2 ^ 63) mod 2 ^ 64 - 2 ^ 63.

Definition PRTime_MIN : PRTime := - 2 ^ 63.
Definition PRTime_MAX : PRTime := 2 ^ 63 - 1.

Definition PRTime_sub (a b : PRTime) : PRTime := PRTime_wrap (a - b).
Definition PRTime_add (a b : PRTime) : PRTime := PRTime_wrap (a + b).
Definition PRTime_mul (a b : PRTime) : PRTime := PRTime_wrap (a * b).

(** [PR_USEC_PER_SEC] of prtime.h. *)
Definition PR_USEC_PER_SEC : Z := 1000000.

(** [static const PRTime oneDay], the same constant in [Generate] and in
    [Validate]. *)
Definition oneDay : PRTime :=
  PRTime_mul (PRTime_mul (PRTime_mul PR_USEC_PER_SEC 60) 60) 24.

(** ** Certificates *)

Record CERTCertificate : Type := {
  nickname : string;       (* the nickname the store files it under *)
  isRoot : bool;           (* self-signed *)
  subjectName : string;
  issuerName : string;
  notBefore : PRTime;
  notAfter : PRTime;
  serialNumber : Z
}.

Definition CERTCertificate_eqb (a b : CERTCertificate) : bool :=
  String.eqb (nickname a) (nickname b)
  && Bool.eqb (isRoot a) (isRoot b)
  && String.eqb (subjectName a) (subjectName b)
  && String.eqb (issuerName a) (issuerName b)
  && Z.eqb (notBefore a) (notBefore b)
  && Z.eqb (notAfter a) (notAfter b)
  && Z.eqb (serialNumber a) (serialNumber b).

Definition commonNamePrefix : string := "CN=".

Arguments commonNamePrefix : simpl never.
Arguments String.eqb : simpl never.
Arguments String.append : simpl never.

(** ** Call sites of the collaborators *)

Module Site.
Inductive t : Type :=
| PK11_GetInternalKeySlot
| PK11_FindCertFromNickname
| PK11_DeleteTokenCertAndKey
| CERT_AsciiToName
| SECOID_FindOIDByTag
| PK11_GenerateKeyPair
| SECKEY_CreateSubjectPublicKeyInfo
| CERT_CreateCertificateRequest
| PR_Now
| CERT_CreateValidity
| PK11_GenerateRandomOnSlot
| CERT_CreateCertificate
| cert_version_data          (* reading cert->version.data *)
| cert_arena                 (* reading cert->arena *)
| SECOID_SetAlgorithmID
| SEC_ASN1EncodeItem
| SEC_DerSignData
| CERT_NewTempCertificate
| PK11_ImportCert
| do_GetService_X509CertDB
| FindCertByNickname
| GetIsSelfSigned
| PK11_NeedUserInit
| PK11_InitPin
| PK11_NeedLogin
| PK11_IsLoggedIn
| do_GetService_PK11TokenDB
| GetInternalKeyToken
| Login
| Dispatch.
End Site.

(** A callback object is known by an identifier; a null callback is [None]. *)
Definition Callback := nat.

Inductive Event : Type :=
| Ext (s : Site.t)                     (* a call to a collaborator *)
| GenerateBegin                        (* entry of [Generate] *)
| GenerateEnd (rv : nsresult)          (* return of [Generate] *)
| HandleCert (cb : Callback) (cert : option CERTCertificate) (rv : nsresult)
| HandleResult (cb : Callback) (rv : nsresult).

(** ** Environment and state *)

Record Env : Type := {
  fails : Site.t -> nat -> bool;        (* the call returns null / SECFailure *)
  prError : nat -> Z;                   (* what PR_GetError() reads afterwards *)
  xpcom_rv : Site.t -> nat -> nsresult; (* result of an XPCOM method *)
  answer : Site.t -> nat -> bool;       (* answer of a boolean query *)
  clock : nat -> PRTime;                (* what PR_Now() reads *)
  random : nat -> Z                     (* what the random generator returns *)
}.

Record State : Type := {
  store : list CERTCertificate;         (* the certificate store *)
  log : list Event;                     (* newest event first *)
  mCert : option CERTCertificate        (* LocalCertGetTask::mCert *)
}.

Definition tick (st : State) : nat := List.length (log st).

Definition with_event (e : Event) (st : State) : State :=
  {| store := store st; log := e :: log st; mCert := mCert st |}.

Definition with_store (l : list CERTCertificate) (st : State) : State :=
  {| store := l; log := log st; mCert := mCert st |}.

Definition with_mCert (c : option CERTCertificate) (st : State) : State :=
  {| store := store st; log := log st; mCert := c |}.

(** ** The task monad *)

Definition Task (A : Type) : Type := Env -> State -> option (A * State).

Definition ret {A} (a : A) : Task A := fun _ st => Some (a, st).

Definition bind {A B} (m : Task A) (f : A -> Task B) : Task B :=
  fun env st =>
    match m env st with
    | Some (a, st') => f a env st'
    | None => None
    end.

Definition undefined {A} : Task A := fun _ _ => None.

Declare Scope task_scope.
Delimit Scope task_scope with task.
Notation "x <- m ;; k" := (bind m (fun x => k))
  (at level 61, m at next level, right associativity) : task_scope.
Notation "m ;; k" := (bind m (fun _ => k))
  (at level 61, right associativity) : task_scope.
Local Open Scope task_scope.

Definition emit (e : Event) : Task unit :=
  fun _ st => Some (tt, with_event e st).

(** A call that hands back a pointer or a SECStatus: [true] when it
    succeeded. *)
Definition call (s : Site.t) : Task bool :=
  fun env st => Some (negb (fails env s (tick st)), with_event (Ext s) st).

(** An XPCOM method that reports an nsresult. *)
Definition xpcom (s : Site.t) : Task nsresult :=
  fun env st => Some (xpcom_rv env s (tick st), with_event (Ext s) st).

(** A boolean query of the key slot. *)
Definition query (s : Site.t) : Task bool :=
  fun env st => Some (answer env s (tick st), with_event (Ext s) st).

Definition PR_GetError : Task Z :=
  fun env st => Some (prError env (tick st), st).

Definition PR_Now : Task PRTime :=
  fun env st => Some (clock env (tick st), with_event (Ext Site.PR_Now) st).

(** [return mozilla::psm::GetXPCOMFromNSSError(PR_GetError());] *)
Definition NSSError : Task nsresult :=
  e <- PR_GetError ;; ret (GetXPCOMFromNSSError e).

(** [mozilla::MapSECStatus] *)
Definition MapSECStatus (ok : bool) : Task nsresult :=
  if ok then ret NS_OK else NSSError.

(** ** The certificate store *)

Definition has_nickname (n : string) (c : CERTCertificate) : bool :=
  String.eqb (nickname c) n.

Definition find_nickname (n : string) (l : list CERTCertificate)
  : option CERTCertificate :=
  find (has_nickname n) l.

Fixpoint remove_cert (c : CERTCertificate) (l : list CERTCertificate)
  : list CERTCertificate :=
  match l with
  | [] => []
  | x :: l' => if CERTCertificate_eqb c x then l' else x :: remove_cert c l'
  end.

Definition PK11_FindCertFromNickname (n : string)
  : Task (option CERTCertificate) :=
  fun _ st => Some (find_nickname n (store st),
                    with_event (Ext Site.PK11_FindCertFromNickname) st).

(** Deletes the certificate (and its key) unless the call fails. *)
Definition PK11_DeleteTokenCertAndKey (cert : CERTCertificate) : Task bool :=
  fun env st =>
    let st' := with_event (Ext Site.PK11_DeleteTokenCertAndKey) st in
    if fails env Site.PK11_DeleteTokenCertAndKey (tick st)
    then Some (false, st')
    else Some (true, with_store (remove_cert cert (store st)) st').

(** Files the certificate in the store unless the call fails. *)
Definition PK11_ImportCert (cert : CERTCertificate) : Task bool :=
  fun env st =>
    let st' := with_event (Ext Site.PK11_ImportCert) st in
    if fails env Site.PK11_ImportCert (tick st)
    then Some (false, st')
    else Some (true, with_store (cert :: store st) st').

(** [nsIX509CertDB::FindCertByNickname]: fails when nothing is filed under the
    nickname. *)
Definition FindCertByNickname (n : string)
  : Task (nsresult * option CERTCertificate) :=
  fun _ st =>
    let st' := with_event (Ext Site.FindCertByNickname) st in
    match find_nickname n (store st) with
    | Some c => Some ((NS_OK, Some c), st')
    | None => Some ((NS_ERROR_FAILURE, None), st')
    end.

Definition set_mCert (c : option CERTCertificate) : Task unit :=
  fun _ st => Some (tt, with_mCert c st).

(** Dereferencing [mCert]; undefined on a null pointer. *)
Definition deref_mCert : Task CERTCertificate :=
  fun _ st =>
    match mCert st with
    | Some c => Some (c, st)
    | None => None
    end.

Definition get_mCert : Task (option CERTCertificate) :=
  fun _ st => Some (mCert st, st).

Definition get_store_size : Task nat :=
  fun _ st => Some (List.length (store st), st).

Notation "' pat <- m ;; k" :=
  (bind m (fun r => match r with pat => k end))
  (at level 61, pat pattern, m at next level, right associativity) : task_scope.

(** Fills [unsigned long serial] with random bytes unless the call fails. *)
Definition PK11_GenerateRandomOnSlot : Task (bool * Z) :=
  fun env st =>
    Some ((negb (fails env Site.PK11_GenerateRandomOnSlot (tick st)),
           random env (tick st) mod 2 ^ 64),
          with_event (Ext Site.PK11_GenerateRandomOnSlot) st).

(** ** class LocalCertTask *)

Module LocalCertTask.

(** The body of [for (;;)] in [RemoveExisting]; [fuel] bounds the number of
    iterations the embedding follows. *)
Fixpoint RemoveExisting_loop (fuel : nat) (mNickname : string)
  : Task nsresult :=
  match fuel with
  | O => undefined
  | S fuel' =>
    cert <- PK11_FindCertFromNickname mNickname ;;
    match cert with
    | None => ret NS_OK (* All done *)
    | Some cert =>
      (* Found a cert, check if generated by this service *)
      if negb (isRoot cert) then
        ret NS_ERROR_UNEXPECTED (* Should be self-signed *)
      else
      let subjectNameFromNickname := (commonNamePrefix ++ mNickname)%string in
      if negb (String.eqb subjectNameFromNickname (subjectName cert)) then
        ret NS_ERROR_UNEXPECTED (* Subject should match nickname *)
      else
      if negb (String.eqb subjectNameFromNickname (issuerName cert)) then
        ret NS_ERROR_UNEXPECTED (* Issuer should match nickname *)
      else
      ok <- PK11_DeleteTokenCertAndKey cert ;;
      rv <- MapSECStatus ok ;;
      if NS_FAILED rv then
        ret rv (* Some error, abort the loop *)
      else
      RemoveExisting_loop fuel' mNickname
    end
  end.

(** Every completed iteration deletes one certificate, so one more iteration
    than the store has entries is always enough. *)
Definition RemoveExisting (mNickname : string) : Task nsresult :=
  size <- get_store_size ;;
  RemoveExisting_loop (S size) mNickname.

End LocalCertTask.

(** ** class LocalCertGetTask *)

Module LocalCertGetTask.

Definition GetFromDB (mNickname : string) : Task nsresult :=
  certDB <- call Site.do_GetService_X509CertDB ;;
  if negb certDB then ret NS_ERROR_FAILURE else
  '(rv, certFromDB) <- FindCertByNickname mNickname ;;
  if NS_FAILED rv then ret rv else
  set_mCert certFromDB ;;
  ret NS_OK.

Definition Generate (mNickname : string) : Task nsresult :=
  emit GenerateBegin ;;
  result <- (
    (* Get the key slot for generation later *)
    slot <- call Site.PK11_GetInternalKeySlot ;;
    if negb slot then NSSError else
    (* Remove existing certs with this name (if any) *)
    rv <- LocalCertTask.RemoveExisting mNickname ;;
    if NS_FAILED rv then ret rv else
    (* Generate a new cert *)
    let subjectNameStr := (commonNamePrefix ++ mNickname)%string in
    subjectName <- call Site.CERT_AsciiToName ;;
    if negb subjectName then NSSError else
    (* Use the well-known NIST P-256 curve *)
    curveOidData <- call Site.SECOID_FindOIDByTag ;;
    if negb curveOidData then NSSError else
    (* Generate cert key pair *)
    privateKey <- call Site.PK11_GenerateKeyPair ;;
    if negb privateKey then NSSError else
    (* Create subject public key info and cert request *)
    spki <- call Site.SECKEY_CreateSubjectPublicKeyInfo ;;
    if negb spki then NSSError else
    certRequest <- call Site.CERT_CreateCertificateRequest ;;
    if negb certRequest then NSSError else
    (* Valid from one day before to 1 year after *)
    now <- PR_Now ;;
    let notBefore := PRTime_sub now oneDay in
    let notAfter := PRTime_add now (PRTime_mul 365 oneDay) in
    validity <- call Site.CERT_CreateValidity ;;
    if negb validity then NSSError else
    (* Generate random serial *)
    '(ok, serial) <- PK11_GenerateRandomOnSlot ;;
    rv <- MapSECStatus ok ;;
    if NS_FAILED rv then ret rv else
    (* Create the cert from these pieces *)
    cert <- call Site.CERT_CreateCertificate ;;
    if negb cert then NSSError else
    (* Update the cert version to X509v3 *)
    version_data <- call Site.cert_version_data ;;
    if negb version_data then ret NS_ERROR_INVALID_POINTER else
    (* Set cert signature algorithm *)
    arena <- call Site.cert_arena ;;
    if negb arena then ret NS_ERROR_INVALID_POINTER else
    ok <- call Site.SECOID_SetAlgorithmID ;;
    rv <- MapSECStatus ok ;;
    if NS_FAILED rv then ret rv else
    (* Encode and self-sign the cert *)
    certDER <- call Site.SEC_ASN1EncodeItem ;;
    if negb certDER then NSSError else
    ok <- call Site.SEC_DerSignData ;;
    rv <- MapSECStatus ok ;;
    if NS_FAILED rv then ret rv else
    (* Create a CERTCertificate from the signed data *)
    certFromDER <- call Site.CERT_NewTempCertificate ;;
    if negb certFromDER then NSSError else
    (* Save the cert in the DB *)
    ok <- PK11_ImportCert {| nickname := mNickname;
                             isRoot := true;
                             subjectName := subjectNameStr;
                             issuerName := subjectNameStr;
                             notBefore := notBefore;
                             notAfter := notAfter;
                             serialNumber := serial |} ;;
    rv <- MapSECStatus ok ;;
    if NS_FAILED rv then ret rv else
    (* We should now have cert in the DB, read it back in nsIX509Cert form *)
    GetFromDB mNickname
  ) ;;
  emit (GenerateEnd result) ;;
  ret result.

Definition Validate (mNickname : string) : Task nsresult :=
  cert <- deref_mCert ;;
  (* Verify cert is self-signed *)
  rv <- xpcom Site.GetIsSelfSigned ;;
  let selfSigned := isRoot cert in
  if NS_FAILED rv then ret rv else
  if negb selfSigned then ret NS_ERROR_FAILURE else
  (* Check that subject and issuer match nickname *)
  let subjectName := subjectName cert in
  let issuerName := issuerName cert in
  if negb (String.eqb subjectName issuerName) then ret NS_ERROR_FAILURE else
  let subjectNameFromNickname := (commonNamePrefix ++ mNickname)%string in
  if negb (String.eqb subjectName subjectNameFromNickname) then
    ret NS_ERROR_FAILURE
  else
  let notBefore := notBefore cert in
  let notAfter := notAfter cert in
  (* Ensure cert will last at least one more day *)
  now <- PR_Now ;;
  if (notBefore >? now) || (notAfter <? PRTime_sub now oneDay) then
    ret NS_ERROR_FAILURE
  else
  ret NS_OK.

Definition CalculateResult (mNickname : string) : Task nsresult :=
  (* Try to lookup an existing cert in the DB *)
  rv <- GetFromDB mNickname ;;
  (* Make a new one if getting fails *)
  rv <- (if NS_FAILED rv then Generate mNickname else ret rv) ;;
  (* If generation fails, we're out of luck *)
  if NS_FAILED rv then ret rv else
  (* Validate cert, make a new one if it fails *)
  rv <- Validate mNickname ;;
  rv <- (if NS_FAILED rv then Generate mNickname else ret rv) ;;
  (* If generation fails, we're out of luck *)
  if NS_FAILED rv then ret rv else
  ret NS_OK.

Definition CallCallback (mCallback : Callback) (rv : nsresult) : Task unit :=
  cert <- get_mCert ;;
  emit (HandleCert mCallback cert rv).

End LocalCertGetTask.

(** ** class LocalCertRemoveTask *)

Module LocalCertRemoveTask.

Definition CalculateResult (mNickname : string) : Task nsresult :=
  LocalCertTask.RemoveExisting mNickname.

Definition CallCallback (mCallback : Callback) (rv : nsresult) : Task unit :=
  emit (HandleResult mCallback rv).

End LocalCertRemoveTask.

(** ** class CryptoTask *)

Module CryptoTask.

(** Modelled from the spec: [CryptoTask::Dispatch] of CryptoTask.h, which the
    tasks inherit.  The executor "accepts a unit of work and a label,
    guarantees eventual execution and exactly-once callback invocation"; with
    the operations executed one after the other, an accepted task runs
    [CalculateResult] and then hands its result to [CallCallback] before the
    next operation starts.  A task the executor refuses is never run. *)
Definition Dispatch (CalculateResult : Task nsresult)
                    (CallCallback : nsresult -> Task unit) : Task nsresult :=
  rv <- xpcom Site.Dispatch ;;
  if NS_FAILED rv then ret rv else
  mRv <- CalculateResult ;;
  CallCallback mRv ;;
  ret rv.

End CryptoTask.

(** ** class LocalCertService *)

Module LocalCertService.

Definition LoginToKeySlot : Task nsresult :=
  (* Get access to key slot *)
  slot <- call Site.PK11_GetInternalKeySlot ;;
  if negb slot then NSSError else
  (* If no user password yet, set it an empty one *)
  needUserInit <- query Site.PK11_NeedUserInit ;;
  rv <- (if needUserInit
         then ok <- call Site.PK11_InitPin ;; MapSECStatus ok
         else ret NS_OK) ;;
  if NS_FAILED rv then ret rv else
  (* If user has a password set, prompt to login *)
  needLogin <- query Site.PK11_NeedLogin ;;
  isLoggedIn <- (if needLogin then query Site.PK11_IsLoggedIn else ret false) ;;
  if needLogin && negb isLoggedIn then
    (* Switching to XPCOM to get the UI prompt that PSM owns *)
    tokenDB <- call Site.do_GetService_PK11TokenDB ;;
    if negb tokenDB then ret NS_ERROR_FAILURE else
    keyToken <- call Site.GetInternalKeyToken ;;
    if negb keyToken then ret NS_ERROR_FAILURE else
    (* Prompt the user to login *)
    xpcom Site.Login
  else
  ret NS_OK.

Definition IsEmpty (s : string) : bool := String.eqb s EmptyString.

Definition GetOrCreateCert (aNickname : string) (aCallback : option Callback)
  : Task nsresult :=
  if IsEmpty aNickname then ret NS_ERROR_INVALID_ARG else
  match aCallback with
  | None => ret NS_ERROR_INVALID_POINTER
  | Some aCallback =>
    (* Before sending off the task, login to key slot if needed *)
    rv <- LoginToKeySlot ;;
    if NS_FAILED rv then
      emit (HandleCert aCallback None rv) ;;
      ret NS_OK
    else
    (* new LocalCertGetTask(aNickname, aCallback): mCert(nullptr) *)
    set_mCert None ;;
    CryptoTask.Dispatch (LocalCertGetTask.CalculateResult aNickname)
                        (LocalCertGetTask.CallCallback aCallback)
  end.

Definition RemoveCert (aNickname : string) (aCallback : option Callback)
  : Task nsresult :=
  if IsEmpty aNickname then ret NS_ERROR_INVALID_ARG else
  match aCallback with
  | None => ret NS_ERROR_INVALID_POINTER
  | Some aCallback =>
    (* Before sending off the task, login to key slot if needed *)
    rv <- LoginToKeySlot ;;
    if NS_FAILED rv then
      emit (HandleResult aCallback rv) ;;
      ret NS_OK
    else
    CryptoTask.Dispatch (LocalCertRemoveTask.CalculateResult aNickname)
                        (LocalCertRemoveTask.CallCallback aCallback)
  end.

(** [*aRequired] is returned beside the result: [None] when the function
    returns before writing it. *)
Definition GetLoginPromptRequired : Task (nsresult * option bool) :=
  (* Get access to key slot *)
  slot <- call Site.PK11_GetInternalKeySlot ;;
  if negb slot then rv <- NSSError ;; ret (rv, None) else
  (* If no user password yet, set it an empty one *)
  needUserInit <- query Site.PK11_NeedUserInit ;;
  rv <- (if needUserInit
         then ok <- call Site.PK11_InitPin ;; MapSECStatus ok
         else ret NS_OK) ;;
  if NS_FAILED rv then ret (rv, None) else
  needLogin <- query Site.PK11_NeedLogin ;;
  isLoggedIn <- (if needLogin then query Site.PK11_IsLoggedIn else ret false) ;;
  ret (NS_OK, Some (needLogin && negb isLoggedIn)).

End LocalCertService.

(** * Reasoning about tasks *)

(** [returns m env st Q]: the task is defined on [st] and its result and final
    state satisfy [Q]. *)
Definition returns {A} (m : Task A) (env : Env) (st : State)
                   (Q : A -> State -> Prop) : Prop :=
  exists a st', m env st = Some (a, st') /\ Q a st'.

(** ** What the log shows

    The observations the properties are about: how often [Generate] was
    entered, what its calls returned, which callbacks were invoked with what,
    and how many tasks were handed to the executor. *)

Fixpoint generate_calls (l : list Event) : nat :=
  match l with
  | [] => O
  | GenerateBegin :: l' => S (generate_calls l')
  | _ :: l' => generate_calls l'
  end.

(** Results of the completed [Generate] calls, the latest first. *)
Fixpoint generate_results (l : list Event) : list nsresult :=
  match l with
  | [] => []
  | GenerateEnd rv :: l' => rv :: generate_results l'
  | _ :: l' => generate_results l'
  end.

(** Callback invocations, the latest first. *)
Fixpoint callbacks (l : list Event) : list Event :=
  match l with
  | [] => []
  | HandleCert cb c rv :: l' => HandleCert cb c rv :: callbacks l'
  | HandleResult cb rv :: l' => HandleResult cb rv :: callbacks l'
  | _ :: l' => callbacks l'
  end.

Fixpoint dispatches (l : list Event) : nat :=
  match l with
  | [] => O
  | Ext Site.Dispatch :: l' => S (dispatches l')
  | _ :: l' => dispatches l'
  end.

(** Calls that change what the store or the key slot holds. *)
Definition mutating (s : Site.t) : bool :=
  match s with
  | Site.PK11_DeleteTokenCertAndKey
  | Site.PK11_GenerateKeyPair
  | Site.PK11_ImportCert
  | Site.PK11_InitPin => true
  | _ => false
  end.

Fixpoint mutations (l : list Event) : nat :=
  match l with
  | [] => O
  | Ext s :: l' => if mutating s then S (mutations l') else mutations l'
  | _ :: l' => mutations l'
  end.

Definition trace (st : State) : nat * list nsresult * list Event * nat :=
  (generate_calls (log st), generate_results (log st),
   callbacks (log st), dispatches (log st)).

(** ** The store *)

(** The guard of [RemoveExisting]: the certificate looks like one this service
    generated for the nickname. *)
Definition ours (n : string) (c : CERTCertificate) : bool :=
  isRoot c
  && String.eqb (commonNamePrefix ++ n) (subjectName c)
  && String.eqb (commonNamePrefix ++ n) (issuerName c).

(** Number of certificates filed under a nickname. *)
Definition count_nickname (n : string) (l : list CERTCertificate) : nat :=
  List.length (filter (has_nickname n) l).

(** [purged n l l']: [l'] is [l] after deleting, some number of times, the
    certificate a lookup of [n] returns, each of them one of [ours]. *)
Inductive purged (n : string)
  : list CERTCertificate -> list CERTCertificate -> Prop :=
| purged_refl l : purged n l l
| purged_step l c l' :
    find_nickname n l = Some c ->
    ours n c = true ->
    purged n (remove_cert c l) l' ->
    purged n l l'.

(** What a run of [RemoveExisting] leaves behind: the store purged, the
    result telling what the last lookup saw. *)
Definition RemoveExisting_post (n : string) (st : State)
                               (rv : nsresult) (st' : State) : Prop :=
  mCert st' = mCert st /\
  trace st' = trace st /\
  purged n (store st) (store st') /\
  match find_nickname n (store st') with
  | None => rv = NS_OK
  | Some c =>
      if ours n c then exists e, rv = NS_ERROR_NSS e
      else rv = NS_ERROR_UNEXPECTED
  end.

(** What [GetFromDB] does: it reads the store, and on success leaves the
    certificate filed under the nickname in [mCert]. *)
Definition GetFromDB_post (n : string) (st : State)
                          (rv : nsresult) (st' : State) : Prop :=
  store st' = store st /\
  trace st' = trace st /\
  (rv = NS_OK /\
   (exists c, find_nickname n (store st) = Some c /\ mCert st' = Some c)
   \/
   rv = NS_ERROR_FAILURE /\ mCert st' = mCert st).

(** A certificate as [Generate] files it. *)
Definition generated (n : string) (c : CERTCertificate) : Prop :=
  nickname c = n /\
  isRoot c = true /\
  subjectName c = (commonNamePrefix ++ n)%string /\
  issuerName c = (commonNamePrefix ++ n)%string /\
  exists now,
    notBefore c = PRTime_sub now oneDay /\
    notAfter c = PRTime_add now (PRTime_mul 365 oneDay).

(** What a run of [Generate] leaves behind.  The store is purged first; then
    either a step fails and nothing is added, or exactly one certificate is
    filed, on top of a store that holds no other under the nickname. *)
Definition Generate_post (n : string) (st : State)
                         (rv : nsresult) (st' : State) : Prop :=
  generate_calls (log st') = S (generate_calls (log st)) /\
  generate_results (log st') = rv :: generate_results (log st) /\
  callbacks (log st') = callbacks (log st) /\
  dispatches (log st') = dispatches (log st) /\
  exists l1,
    purged n (store st) l1 /\
    (NS_FAILED rv = true /\ store st' = l1 /\ mCert st' = mCert st
     \/
     find_nickname n l1 = None /\
     exists c,
       generated n c /\ store st' = c :: l1 /\
       (rv = NS_OK /\ mCert st' = Some c
        \/ rv = NS_ERROR_FAILURE /\ mCert st' = mCert st)).

(** What [PR_Now()] reads in a run of [Validate] started in [st]: the
    self-signed query is logged before it. *)
Definition Validate_clock (env : Env) (st : State) : PRTime :=
  clock env (S (tick st)).

(** What [Validate] does: it changes nothing, and accepts only a certificate
    that passes the guard of [RemoveExisting]. *)
Definition Validate_post (n : string) (c : CERTCertificate) (st : State)
                         (rv : nsresult) (st' : State) : Prop :=
  store st' = store st /\
  mCert st' = mCert st /\
  trace st' = trace st /\
  (rv = NS_OK -> ours n c = true) /\
  (rv = NS_OK \/ NS_FAILED rv = true).

(** [safe n l l']: going from store [l] to store [l'], no certificate that
    fails the guard for [n] was lost, and the number of certificates under
    [n] is at most one unless it was larger before. *)
Definition safe (n : string) (l l' : list CERTCertificate) : Prop :=
  (forall c, In c l -> ours n c = false -> In c l') /\
  (count_nickname n l' <= Nat.max 1 (count_nickname n l))%nat.

(** How the result of [CalculateResult] relates to the results of the
    [Generate] calls it made (the latest first): none, one, or two of which
    the first succeeded; the result is that of the last call. *)
Definition fallback (new : list nsresult) (rv : nsresult) : Prop :=
  match new with
  | [] => rv = NS_OK
  | [r] => rv = r
  | [r2; r1] => r1 = NS_OK /\ rv = r2
  | _ => False
  end.

(** On success the task holds the certificate that is filed under the
    nickname, and that certificate passes the guard. *)
Definition holds_filed (n : string) (st : State) : Prop :=
  exists c,
    mCert st = Some c /\ find_nickname n (store st) = Some c /\
    ours n c = true.

Definition CalculateResult_post (n : string) (env : Env) (st : State)
                                (rv : nsresult) (st' : State) : Prop :=
  callbacks (log st') = callbacks (log st) /\
  dispatches (log st') = dispatches (log st) /\
  (exists new,
     generate_results (log st') = new ++ generate_results (log st) /\
     generate_calls (log st') = (List.length new + generate_calls (log st))%nat /\
     fallback new rv /\
     (new = [] ->
      store st' = store st /\
      exists st0,
        LocalCertGetTask.GetFromDB n env st = Some (NS_OK, st0) /\
        LocalCertGetTask.Validate n env st0 = Some (NS_OK, st'))) /\
  safe n (store st) (store st') /\
  (rv = NS_OK -> holds_filed n st').

(** The spec's InvalidArgument kind: the two XPCOM codes for a bad argument,
    one for a bad value and one for a null pointer. *)
Definition InvalidArgument (rv : nsresult) : Prop :=
  rv = NS_ERROR_INVALID_ARG \/ rv = NS_ERROR_INVALID_POINTER.

(** [LoginToKeySlot] talks to the key slot only. *)
Definition LoginToKeySlot_post (st : State) (rv : nsresult) (st' : State)
  : Prop :=
  store st' = store st /\
  mCert st' = mCert st /\
  trace st' = trace st /\
  (rv = NS_OK \/ NS_FAILED rv = true).

(** The three ways a call of [GetOrCreateCert] with a nickname and a callback
    can go: the unlock fails, the executor refuses the task, or the task
    runs and reports to the callback. *)
Definition GetOrCreateCert_post (n : string) (cb : Callback) (st : State)
                                (rv : nsresult) (st' : State) : Prop :=
  safe n (store st) (store st') /\
  ((exists r,
      NS_FAILED r = true /\ rv = NS_OK /\
      callbacks (log st') = HandleCert cb None r :: callbacks (log st) /\
      dispatches (log st') = dispatches (log st) /\
      store st' = store st)
   \/
   (NS_FAILED rv = true /\
    callbacks (log st') = callbacks (log st) /\
    dispatches (log st') = S (dispatches (log st)) /\
    store st' = store st)
   \/
   (rv = NS_OK /\
    dispatches (log st') = S (dispatches (log st)) /\
    exists cert r,
      callbacks (log st') = HandleCert cb cert r :: callbacks (log st) /\
      (r = NS_OK ->
       exists c, cert = Some c /\ find_nickname n (store st') = Some c /\
                 ours n c = true))).

Definition RemoveCert_post (n : string) (cb : Callback) (st : State)
                           (rv : nsresult) (st' : State) : Prop :=
  safe n (store st) (store st') /\
  ((exists r,
      NS_FAILED r = true /\ rv = NS_OK /\
      callbacks (log st') = HandleResult cb r :: callbacks (log st) /\
      dispatches (log st') = dispatches (log st) /\
      store st' = store st)
   \/
   (NS_FAILED rv = true /\
    callbacks (log st') = callbacks (log st) /\
    dispatches (log st') = S (dispatches (log st)) /\
    store st' = store st)
   \/
   (rv = NS_OK /\
    dispatches (log st') = S (dispatches (log st)) /\
    exists r,
      callbacks (log st') = HandleResult cb r :: callbacks (log st) /\
      (r = NS_OK -> find_nickname n (store st') = None))).

(** * Concrete settings for the examples *)

(** 2014-10-30 00:00:00 UTC, in microseconds. *)
Definition T0 : PRTime := 1414627200000000.

(** SEC_ERROR_IO *)
Definition SEC_ERROR_IO : Z := -8192.

(** Nothing fails, the slot needs no initialisation and no login, and the
    clock reads [now] throughout. *)
Definition calm (now : PRTime) : Env :=
  {| fails := fun _ _ => false;
     prError := fun _ => SEC_ERROR_IO;
     xpcom_rv := fun _ _ => NS_OK;
     answer := fun _ _ => false;
     clock := fun _ => now;
     random := fun _ => 4242 |}.

(** As [calm], but the certificate does not answer the self-signed query. *)
Definition query_fails (now : PRTime) : Env :=
  {| fails := fun _ _ => false;
     prError := fun _ => SEC_ERROR_IO;
     xpcom_rv := fun s _ =>
                   match s with
                   | Site.GetIsSelfSigned => NS_ERROR_FAILURE
                   | _ => NS_OK
                   end;
     answer := fun _ _ => false;
     clock := fun _ => now;
     random := fun _ => 4242 |}.

(** As [calm], but the key slot cannot be acquired. *)
Definition no_slot (now : PRTime) : Env :=
  {| fails := fun s _ =>
                match s with
                | Site.PK11_GetInternalKeySlot => true
                | _ => false
                end;
     prError := fun _ => SEC_ERROR_IO;
     xpcom_rv := fun _ _ => NS_OK;
     answer := fun _ _ => false;
     clock := fun _ => now;
     random := fun _ => 4242 |}.

(** As [calm], but the slot asks for a login and the user declines. *)
Definition login_declined (now : PRTime) : Env :=
  {| fails := fun _ _ => false;
     prError := fun _ => SEC_ERROR_IO;
     xpcom_rv := fun s _ =>
                   match s with
                   | Site.Login => NS_ERROR_FAILURE
                   | _ => NS_OK
                   end;
     answer := fun s _ =>
                 match s with
                 | Site.PK11_NeedLogin => true
                 | _ => false
                 end;
     clock := fun _ => now;
     random := fun _ => 4242 |}.

Definition with_certs (l : list CERTCertificate) : State :=
  {| store := l; log := []; mCert := None |}.

Definition fresh : State := with_certs [].

(** The certificate [Generate] files for the nickname at time [now]. *)
Definition cert_of (n : string) (now : PRTime) : CERTCertificate :=
  {| nickname := n;
     isRoot := true;
     subjectName := commonNamePrefix ++ n;
     issuerName := commonNamePrefix ++ n;
     notBefore := PRTime_sub now oneDay;
     notAfter := PRTime_add now (PRTime_mul 365 oneDay);
     serialNumber := 4242 |}.

(** A certificate somebody else filed under the nickname: issued by a CA. *)
Definition foreign_cert (n : string) : CERTCertificate :=
  {| nickname := n;
     isRoot := false;
     subjectName := commonNamePrefix ++ n;
     issuerName := "CN=Example CA";
     notBefore := T0;
     notAfter := PRTime_add T0 (PRTime_mul 365 oneDay);
     serialNumber := 7 |}.

(** * Sequences of requests *)

Inductive Request : Type :=
| GetOrCreate (aCallback : option Callback)
| Remove (aCallback : option Callback).

Definition serve (n : string) (r : Request) : Task nsresult :=
  match r with
  | GetOrCreate cb => LocalCertService.GetOrCreateCert n cb
  | Remove cb => LocalCertService.RemoveCert n cb
  end.

(** The requests are served one after the other, each in the environment it
    meets. *)
Fixpoint serve_all (n : string) (rs : list (Request * Env)) (st : State)
  : option State :=
  match rs with
  | [] => Some st
  | (r, env) :: rs' =>
      match serve n r env st with
      | Some (_, st') => serve_all n rs' st'
      | None => None
      end
  end.

(** * The validity predicate in the words of the spec *)

Inductive ValidationError : Type :=
| NotSelfSigned
| SubjectIssuerMismatch
| NicknameMismatch
| OutsideValidityWindow.

(** The first of the four conditions of the Validator a record fails at time
    [now], in the order the spec lists them; [None] when it passes.  The
    window is the spec's: "fails if notBefore > now or if
    notAfter < now - 1 day", in exact arithmetic. *)
Definition failing_condition (n : string) (c : CERTCertificate)
                             (now : PRTime) : option ValidationError :=
  if negb (isRoot c) then Some NotSelfSigned
  else if negb (String.eqb (subjectName c) (issuerName c))
  then Some SubjectIssuerMismatch
  else if negb (String.eqb (subjectName c) (commonNamePrefix ++ n))
  then Some NicknameMismatch
  else if (notBefore c >? now) || (notAfter c <? now - oneDay)
  then Some OutsideValidityWindow
  else None.

(** A task holding [c] in [mCert], about to validate it. *)
Definition holding (c : CERTCertificate) : State :=
  {| store := [c]; log := []; mCert := Some c |}.

(** The state a first request for "devtools" leaves behind when it is served
    at [T0] on an empty store. *)
Definition after_first_call : State :=
  match LocalCertService.GetOrCreateCert "devtools" (Some 1%nat)
          (calm T0) fresh with
  | Some (_, st) => st
  | None => fresh
  end.

(** The state a declined login leaves behind on an empty store. *)
Definition after_declined_login : State :=
  {| store := [];
     log := [Ext Site.Login; Ext Site.GetInternalKeyToken;
             Ext Site.do_GetService_PK11TokenDB; Ext Site.PK11_IsLoggedIn;
             Ext Site.PK11_NeedLogin; Ext Site.PK11_NeedUserInit;
             Ext Site.PK11_GetInternalKeySlot];
     mCert := None |}.

(** A store holding the certificate of the service for "devtools", after the
    task has looked it up, and after it has validated it as well. *)
Definition looked_up : State :=
  {| store := [cert_of "devtools" T0];
     log := [Ext Site.FindCertByNickname; Ext Site.do_GetService_X509CertDB];
     mCert := Some (cert_of "devtools" T0) |}.

Definition accepted : State :=
  {| store := [cert_of "devtools" T0];
     log := [Ext Site.PR_Now; Ext Site.GetIsSelfSigned;
             Ext Site.FindCertByNickname; Ext Site.do_GetService_X509CertDB];
     mCert := Some (cert_of "devtools" T0) |}.

(** * Further properties: definitions *)

(** The certificates filed under other nicknames, in the order of the
    store. *)
Definition others (n : string) (l : list CERTCertificate)
  : list CERTCertificate :=
  filter (fun c => negb (has_nickname n c)) l.

(** Every certificate filed under the nickname passes the guard. *)
Definition all_ours (n : string) (l : list CERTCertificate) : Prop :=
  forall c, In c l -> has_nickname n c = true -> ours n c = true.

(** A certificate as [Generate] files it, with the clock reading and the
    random number it was made from. *)
Definition issued (n : string) (env : Env) (c : CERTCertificate) : Prop :=
  exists k j,
    c = {| nickname := n;
           isRoot := true;
           subjectName := commonNamePrefix ++ n;
           issuerName := commonNamePrefix ++ n;
           notBefore := PRTime_sub (clock env k) oneDay;
           notAfter := PRTime_add (clock env k) (PRTime_mul 365 oneDay);
           serialNumber := random env j mod 2 ^ 64 |}.

(** The ways a run of [Generate] can go, told apart by the key slot and by
    the purge it runs once it has the slot. *)
Definition Generate_steps (n : string) (env : Env) (st : State)
                          (rv : nsresult) (st' : State) : Prop :=
  (fails env Site.PK11_GetInternalKeySlot (S (tick st)) = true /\
   NS_FAILED rv = true /\ store st' = store st /\ mCert st' = mCert st)
  \/
  (fails env Site.PK11_GetInternalKeySlot (S (tick st)) = false /\
   exists rv1 st1,
     LocalCertTask.RemoveExisting n env
       (with_event (Ext Site.PK11_GetInternalKeySlot)
          (with_event GenerateBegin st)) = Some (rv1, st1) /\
     (NS_FAILED rv1 = true /\ rv = rv1 /\
      store st' = store st1 /\ mCert st' = mCert st
      \/
      rv1 = NS_OK /\ NS_FAILED rv = true /\
      store st' = store st1 /\ mCert st' = mCert st
      \/
      rv1 = NS_OK /\
      exists c,
        issued n env c /\ store st' = c :: store st1 /\
        (rv = NS_OK /\ mCert st' = Some c
         \/ rv = NS_ERROR_FAILURE /\ mCert st' = mCert st))).

(** Two nicknames in one store. *)
Definition two_nicknames : State :=
  with_certs [cert_of "devtools" T0; cert_of "webide" T0].

Definition after_purge : State :=
  match LocalCertTask.RemoveExisting "devtools" (calm T0) two_nicknames with
  | Some (_, st) => st
  | None => fresh
  end.

Definition after_generate : State :=
  match LocalCertGetTask.Generate "devtools" (calm T0) two_nicknames with
  | Some (_, st) => st
  | None => fresh
  end.

(** As [calm], but no key pair can be generated. *)
Definition no_key_pair (now : PRTime) : Env :=
  {| fails := fun s _ =>
                match s with
                | Site.PK11_GenerateKeyPair => true
                | _ => false
                end;
     prError := fun _ => SEC_ERROR_IO;
     xpcom_rv := fun _ _ => NS_OK;
     answer := fun _ _ => false;
     clock := fun _ => now;
     random := fun _ => 4242 |}.

Definition after_task : State :=
  match LocalCertGetTask.CalculateResult "devtools" (calm T0) fresh with
  | Some (_, st) => st
  | None => fresh
  end.

(** A store whose certificate for "devtools" has expired, looked up while
    the key slot cannot be acquired, and the state the task ends in. *)
Definition expired_found : State :=
  match LocalCertGetTask.GetFromDB "devtools" (no_slot (T0 + 400 * oneDay))
          (with_certs [cert_of "devtools" T0]) with
  | Some (_, st) => st
  | None => fresh
  end.

Definition expired_failed : State :=
  match LocalCertGetTask.CalculateResult "devtools"
          (no_slot (T0 + 400 * oneDay))
          (with_certs [cert_of "devtools" T0]) with
  | Some (_, st) => st
  | None => fresh
  end.

(** The branch of [LoginToKeySlot] that prompts the user to log in. *)
Definition prompt_login : Task nsresult :=
  tokenDB <- call Site.do_GetService_PK11TokenDB ;;
  if negb tokenDB then ret NS_ERROR_FAILURE else
  keyToken <- call Site.GetInternalKeyToken ;;
  if negb keyToken then ret NS_ERROR_FAILURE else
  xpcom Site.Login.

Definition expired_store : State := with_certs [cert_of "devtools" T0].

(** As [calm], but no certificate can be deleted. *)
Definition no_delete (now : PRTime) : Env :=
  {| fails := fun s _ =>
                match s with
                | Site.PK11_DeleteTokenCertAndKey => true
                | _ => false
                end;
     prError := fun _ => SEC_ERROR_IO;
     xpcom_rv := fun _ _ => NS_OK;
     answer := fun _ _ => false;
     clock := fun _ => now;
     random := fun _ => 4242 |}.

(** A certificate of the service in front of a foreign one, both under
    "devtools". *)
Definition own_then_foreign : State :=
  with_certs [cert_of "devtools" T0; foreign_cert "devtools"].


Lemma returns_ret {A} (a : A) env st (Q : A -> State -> Prop) :
  Q a st -> returns (ret a) env st Q.
Proof. intros H. exists a, st. split; [reflexivity | exact H]. Qed.

Lemma returns_bind {A B} (m : Task A) (f : A -> Task B) env st
      (Q : B -> State -> Prop) :
  returns m env st (fun a st1 => returns (f a) env st1 Q) ->
  returns (bind m f) env st Q.
Proof.
  intros (a & st1 & Hm & b & st2 & Hf & HQ).
  exists b, st2. split; [| exact HQ].
  unfold bind. rewrite Hm. exact Hf.
Qed.

Lemma returns_weaken {A} (m : Task A) env st (Q Q' : A -> State -> Prop) :
  returns m env st Q ->
  (forall a st', Q a st' -> Q' a st') ->
  returns m env st Q'.
Proof.
  intros (a & st' & Hm & HQ) Himp. exists a, st'. auto.
Qed.

Lemma returns_run {A} (m : Task A) env st (Q : A -> State -> Prop) a st' :
  returns m env st Q -> m env st = Some (a, st') -> Q a st'.
Proof.
  intros (a0 & st0 & Hm & HQ) Hrun. rewrite Hrun in Hm.
  inversion Hm; subst. exact HQ.
Qed.

Lemma returns_run_eq {A} (m : Task A) env st (Q : A -> State -> Prop) :
  returns m env st Q ->
  returns m env st (fun a st' => m env st = Some (a, st') /\ Q a st').
Proof. intros (a & st' & Hm & HQ). exists a, st'. auto. Qed.

Lemma returns_intro {A} (m : Task A) env st (Q : A -> State -> Prop) a st' :
  m env st = Some (a, st') -> Q a st' -> returns m env st Q.
Proof. intros Hm HQ. exists a, st'. auto. Qed.

Lemma CERTCertificate_eqb_eq a b : CERTCertificate_eqb a b = true <-> a = b.
Proof.
  unfold CERTCertificate_eqb. split.
  - intros H.
    repeat (apply andb_true_iff in H; destruct H as [H ?]).
    destruct a, b; simpl in *.
    repeat match goal with
           | E : String.eqb _ _ = true |- _ => apply String.eqb_eq in E
           | E : Bool.eqb _ _ = true |- _ => apply Bool.eqb_prop in E
           | E : Z.eqb _ _ = true |- _ => apply Z.eqb_eq in E
           end.
    subst. reflexivity.
  - intros ->.
    rewrite !String.eqb_refl, !Z.eqb_refl, Bool.eqb_reflx. reflexivity.
Qed.

Lemma find_nickname_In n l c :
  find_nickname n l = Some c -> In c l /\ nickname c = n.
Proof.
  unfold find_nickname. intros H. apply find_some in H as [Hin Hn].
  split; [exact Hin |]. apply String.eqb_eq. exact Hn.
Qed.

Lemma remove_cert_length c l :
  In c l -> S (List.length (remove_cert c l)) = List.length l.
Proof.
  induction l as [| x l IH]; simpl; [intros [] |].
  intros Hin. destruct (CERTCertificate_eqb c x) eqn:E; [reflexivity |].
  destruct Hin as [-> | Hin].
  - assert (CERTCertificate_eqb c c = true) as Hcc
        by (apply CERTCertificate_eqb_eq; reflexivity).
    congruence.
  - simpl. rewrite IH by exact Hin. reflexivity.
Qed.

Lemma remove_cert_In c l x : In x (remove_cert c l) -> In x l.
Proof.
  induction l as [| y l IH]; simpl; [auto |].
  destruct (CERTCertificate_eqb c y); simpl; intuition.
Qed.

Lemma remove_cert_keeps c l x : In x l -> x <> c -> In x (remove_cert c l).
Proof.
  induction l as [| y l IH]; simpl; [auto |].
  intros Hin Hne. destruct (CERTCertificate_eqb c y) eqn:E.
  - apply CERTCertificate_eqb_eq in E. subst y.
    destruct Hin as [-> | Hin]; [congruence | exact Hin].
  - destruct Hin as [-> | Hin]; [left; reflexivity | right; auto].
Qed.

Lemma remove_cert_count n c l :
  (count_nickname n (remove_cert c l) <= count_nickname n l)%nat.
Proof.
  unfold count_nickname. induction l as [| y l IH]; simpl; [lia |].
  destruct (CERTCertificate_eqb c y); simpl.
  - destruct (has_nickname n y); simpl; lia.
  - destruct (has_nickname n y); simpl; lia.
Qed.

Lemma find_nickname_None_count n l :
  find_nickname n l = None <-> count_nickname n l = O.
Proof.
  unfold find_nickname, count_nickname.
  induction l as [| y l IH]; simpl; [tauto |].
  destruct (has_nickname n y); simpl.
  - split; discriminate.
  - exact IH.
Qed.

(** Purging only deletes, and never a certificate that fails the guard. *)
Lemma purged_sub n l l' : purged n l l' -> forall c, In c l' -> In c l.
Proof.
  induction 1 as [| l c0 l' Hf Ho Hp IH]; [auto |].
  intros c Hin. eapply remove_cert_In. apply IH. exact Hin.
Qed.

Lemma purged_keeps n l l' :
  purged n l l' -> forall c, In c l -> ours n c = false -> In c l'.
Proof.
  induction 1 as [| l c0 l' Hf Ho Hp IH]; [auto |].
  intros c Hin Hc. apply IH; [| exact Hc].
  apply remove_cert_keeps; [exact Hin | congruence].
Qed.

Lemma purged_count n l l' :
  purged n l l' -> (count_nickname n l' <= count_nickname n l)%nat.
Proof.
  induction 1 as [| l c0 l' Hf Ho Hp IH]; [lia |].
  pose proof (remove_cert_count n c0 l). lia.
Qed.

Lemma purged_trans n l1 l2 l3 :
  purged n l1 l2 -> purged n l2 l3 -> purged n l1 l3.
Proof.
  induction 1 as [| l c0 l' Hf Ho Hp IH]; [auto |].
  intros H3. eapply purged_step; eauto.
Qed.

(** A lookup that returns a certificate failing the guard stops the purge
    before anything is deleted. *)
Lemma purged_foreign n l l' c :
  purged n l l' -> find_nickname n l = Some c -> ours n c = false -> l' = l.
Proof.
  intros [| l0 c0 l0' Hf Ho Hp] Hfind Hc; [reflexivity |].
  congruence.
Qed.


Ltac st_simpl :=
  cbn [store mCert log with_event with_store with_mCert trace tick
       generate_calls generate_results callbacks dispatches NS_FAILED
       negb andb orb fst snd] in *.

(** ** The collaborators *)

Lemma returns_call s env st (Q : bool -> State -> Prop) :
  Q (negb (fails env s (tick st))) (with_event (Ext s) st) ->
  returns (call s) env st Q.
Proof. intros H. eapply returns_intro; [reflexivity | exact H]. Qed.

Lemma returns_xpcom s env st (Q : nsresult -> State -> Prop) :
  Q (xpcom_rv env s (tick st)) (with_event (Ext s) st) ->
  returns (xpcom s) env st Q.
Proof. intros H. eapply returns_intro; [reflexivity | exact H]. Qed.

Lemma returns_query s env st (Q : bool -> State -> Prop) :
  Q (answer env s (tick st)) (with_event (Ext s) st) ->
  returns (query s) env st Q.
Proof. intros H. eapply returns_intro; [reflexivity | exact H]. Qed.

Lemma returns_emit e env st (Q : unit -> State -> Prop) :
  Q tt (with_event e st) -> returns (emit e) env st Q.
Proof. intros H. eapply returns_intro; [reflexivity | exact H]. Qed.

Lemma returns_PR_Now env st (Q : PRTime -> State -> Prop) :
  Q (clock env (tick st)) (with_event (Ext Site.PR_Now) st) ->
  returns PR_Now env st Q.
Proof. intros H. eapply returns_intro; [reflexivity | exact H]. Qed.

Lemma returns_NSSError env st (Q : nsresult -> State -> Prop) :
  Q (NS_ERROR_NSS (prError env (tick st))) st ->
  returns NSSError env st Q.
Proof. intros H. eapply returns_intro; [reflexivity | exact H]. Qed.

Lemma returns_MapSECStatus (ok : bool) env st (Q : nsresult -> State -> Prop) :
  Q (if ok then NS_OK else NS_ERROR_NSS (prError env (tick st))) st ->
  returns (MapSECStatus ok) env st Q.
Proof.
  intros H. destruct ok; (eapply returns_intro; [reflexivity | exact H]).
Qed.

Lemma returns_set_mCert c env st (Q : unit -> State -> Prop) :
  Q tt (with_mCert c st) -> returns (set_mCert c) env st Q.
Proof. intros H. eapply returns_intro; [reflexivity | exact H]. Qed.

Lemma returns_get_mCert env st (Q : option CERTCertificate -> State -> Prop) :
  Q (mCert st) st -> returns get_mCert env st Q.
Proof. intros H. eapply returns_intro; [reflexivity | exact H]. Qed.

Lemma returns_deref_mCert c env st (Q : CERTCertificate -> State -> Prop) :
  mCert st = Some c -> Q c st -> returns deref_mCert env st Q.
Proof.
  intros Hc H. eapply returns_intro; [| exact H].
  unfold deref_mCert. rewrite Hc. reflexivity.
Qed.

Lemma returns_PK11_FindCertFromNickname n env st
      (Q : option CERTCertificate -> State -> Prop) :
  Q (find_nickname n (store st))
    (with_event (Ext Site.PK11_FindCertFromNickname) st) ->
  returns (PK11_FindCertFromNickname n) env st Q.
Proof. intros H. eapply returns_intro; [reflexivity | exact H]. Qed.

Lemma returns_FindCertByNickname n env st
      (Q : nsresult * option CERTCertificate -> State -> Prop) :
  Q (match find_nickname n (store st) with
     | Some c => (NS_OK, Some c)
     | None => (NS_ERROR_FAILURE, None)
     end)
    (with_event (Ext Site.FindCertByNickname) st) ->
  returns (FindCertByNickname n) env st Q.
Proof.
  intros H. eapply returns_intro; [| exact H].
  unfold FindCertByNickname. destruct (find_nickname n (store st)); reflexivity.
Qed.

Lemma returns_PK11_DeleteTokenCertAndKey c env st (Q : bool -> State -> Prop) :
  (fails env Site.PK11_DeleteTokenCertAndKey (tick st) = true ->
   Q false (with_event (Ext Site.PK11_DeleteTokenCertAndKey) st)) ->
  (fails env Site.PK11_DeleteTokenCertAndKey (tick st) = false ->
   Q true (with_store (remove_cert c (store st))
             (with_event (Ext Site.PK11_DeleteTokenCertAndKey) st))) ->
  returns (PK11_DeleteTokenCertAndKey c) env st Q.
Proof.
  intros Hf Hs. unfold returns, PK11_DeleteTokenCertAndKey.
  destruct (fails env Site.PK11_DeleteTokenCertAndKey (tick st)); eauto.
Qed.

Lemma returns_PK11_ImportCert c env st (Q : bool -> State -> Prop) :
  (fails env Site.PK11_ImportCert (tick st) = true ->
   Q false (with_event (Ext Site.PK11_ImportCert) st)) ->
  (fails env Site.PK11_ImportCert (tick st) = false ->
   Q true (with_store (c :: store st)
             (with_event (Ext Site.PK11_ImportCert) st))) ->
  returns (PK11_ImportCert c) env st Q.
Proof.
  intros Hf Hs. unfold returns, PK11_ImportCert.
  destruct (fails env Site.PK11_ImportCert (tick st)); eauto.
Qed.

Lemma returns_PK11_GenerateRandomOnSlot env st (Q : bool * Z -> State -> Prop) :
  Q (negb (fails env Site.PK11_GenerateRandomOnSlot (tick st)),
     random env (tick st) mod 2 ^ 64)
    (with_event (Ext Site.PK11_GenerateRandomOnSlot) st) ->
  returns PK11_GenerateRandomOnSlot env st Q.
Proof. intros H. eapply returns_intro; [reflexivity | exact H]. Qed.

(** ** RemoveExisting *)

Lemma ours_guard n c :
  ours n c = true <->
  negb (isRoot c) = false /\
  negb (String.eqb (commonNamePrefix ++ n) (subjectName c)) = false /\
  negb (String.eqb (commonNamePrefix ++ n) (issuerName c)) = false.
Proof.
  unfold ours. rewrite !andb_true_iff, !negb_false_iff. tauto.
Qed.

Lemma RemoveExisting_loop_returns n env :
  forall fuel st,
    (List.length (store st) < fuel)%nat ->
    returns (LocalCertTask.RemoveExisting_loop fuel n) env st
            (RemoveExisting_post n st).
Proof.
  induction fuel as [| fuel IH]; intros st Hfuel; [lia |].
  cbn [LocalCertTask.RemoveExisting_loop].
  apply returns_bind, returns_PK11_FindCertFromNickname.
  destruct (find_nickname n (store st)) as [c |] eqn:Hfind.
  - destruct (ours n c) eqn:Hours.
    + apply ours_guard in Hours as Hg. destruct Hg as (G1 & G2 & G3).
      rewrite G1, G2, G3.
      apply returns_bind, returns_PK11_DeleteTokenCertAndKey; intros Hdel;
        apply returns_bind, returns_MapSECStatus; cbn [NS_FAILED].
      * (* the deletion fails: the loop is left with the error *)
        apply returns_ret. unfold RemoveExisting_post. st_simpl.
        repeat split; [constructor |].
        rewrite Hfind, Hours. eexists. reflexivity.
      * (* the certificate is gone: next iteration *)
        apply find_nickname_In in Hfind as Hin. destruct Hin as [Hin _].
        pose proof (remove_cert_length c (store st) Hin) as Hlen.
        match goal with
        | |- returns _ _ ?s _ =>
            eapply returns_weaken; [apply (IH s); st_simpl; lia |]
        end.
        intros rv st' (Hm & Ht & Hp & Hres). st_simpl.
        repeat split; auto.
        eapply purged_step; eauto.
    + (* the guard trips *)
      assert (returns (ret NS_ERROR_UNEXPECTED) env
                (with_event (Ext Site.PK11_FindCertFromNickname) st)
                (RemoveExisting_post n st)) as Hret.
      { apply returns_ret. unfold RemoveExisting_post. st_simpl.
        repeat split; [constructor |]. rewrite Hfind, Hours. reflexivity. }
      unfold ours in Hours.
      destruct (isRoot c); cbn [negb andb] in *; [| exact Hret].
      destruct (String.eqb _ (subjectName c)); cbn [negb andb] in *;
        [| exact Hret].
      destruct (String.eqb _ (issuerName c)); cbn [negb andb] in *;
        [discriminate | exact Hret].
  - apply returns_ret. unfold RemoveExisting_post. st_simpl.
    repeat split; [constructor |]. rewrite Hfind. reflexivity.
Qed.

Lemma RemoveExisting_returns n env st :
  returns (LocalCertTask.RemoveExisting n) env st (RemoveExisting_post n st).
Proof.
  unfold LocalCertTask.RemoveExisting. apply returns_bind.
  eexists _, _. split; [reflexivity |].
  apply RemoveExisting_loop_returns. lia.
Qed.

(** ** GetFromDB, Validate, Generate *)

Ltac step :=
  first
    [ apply returns_bind, returns_call
    | apply returns_bind, returns_xpcom
    | apply returns_bind, returns_query
    | apply returns_bind, returns_emit
    | apply returns_bind, returns_PR_Now
    | apply returns_bind, returns_MapSECStatus
    | apply returns_bind, returns_PK11_GenerateRandomOnSlot
    | apply returns_bind, returns_FindCertByNickname
    | apply returns_bind, returns_set_mCert
    | apply returns_bind, returns_get_mCert
    | apply returns_bind, returns_ret
    | apply returns_NSSError
    | apply returns_emit
    | apply returns_xpcom
    | apply returns_MapSECStatus
    | apply returns_ret ];
  cbv beta; st_simpl.

Ltac split_fails :=
  match goal with
  | |- context [fails ?e ?s ?k] =>
      let H := fresh "Hfails" in
      destruct (fails e s k) eqn:H; cbn [negb NS_FAILED]
  end.

Lemma GetFromDB_returns n env st :
  returns (LocalCertGetTask.GetFromDB n) env st (GetFromDB_post n st).
Proof.
  unfold LocalCertGetTask.GetFromDB, GetFromDB_post.
  step. split_fails.
  - step. st_simpl. auto.
  - step. destruct (find_nickname n (store st)) as [c |] eqn:Hfind;
      cbv iota; st_simpl; repeat step; eauto 10.
Qed.

Lemma ours_of_checks n c :
  isRoot c = true ->
  String.eqb (subjectName c) (issuerName c) = true ->
  String.eqb (subjectName c) (commonNamePrefix ++ n) = true ->
  ours n c = true.
Proof.
  intros Hr Hsi Hsn. unfold ours.
  apply String.eqb_eq in Hsi, Hsn.
  rewrite Hr, <- Hsi, Hsn, String.eqb_refl. reflexivity.
Qed.

Lemma Validate_returns n c env st :
  mCert st = Some c ->
  returns (LocalCertGetTask.Validate n) env st (Validate_post n c st).
Proof.
  intros Hc. unfold LocalCertGetTask.Validate, Validate_post.
  apply returns_bind, (returns_deref_mCert c); [exact Hc |].
  step.
  destruct (xpcom_rv env Site.GetIsSelfSigned (tick st)) eqn:Hrv;
    cbn [NS_FAILED];
    try (step; st_simpl; repeat split; auto; discriminate).
  destruct (isRoot c) eqn:Hroot; cbn [negb];
    [| step; st_simpl; repeat split; auto; discriminate].
  destruct (String.eqb (subjectName c) (issuerName c)) eqn:Hsi; cbn [negb];
    [| step; st_simpl; repeat split; auto; discriminate].
  destruct (String.eqb (subjectName c) (commonNamePrefix ++ n)) eqn:Hsn;
    cbn [negb];
    [| step; st_simpl; repeat split; auto; discriminate].
  step.
  match goal with
  | |- context [if ?b then _ else _] => destruct b
  end; step; st_simpl; repeat split; auto; try discriminate.
  intros _. apply ours_of_checks; assumption.
Qed.

(** A step of [Generate] failed before anything was imported. *)
Lemma Generate_post_failed n st rv st' l1 :
  generate_calls (log st') = S (generate_calls (log st)) ->
  generate_results (log st') = rv :: generate_results (log st) ->
  callbacks (log st') = callbacks (log st) ->
  dispatches (log st') = dispatches (log st) ->
  purged n (store st) l1 ->
  NS_FAILED rv = true -> store st' = l1 -> mCert st' = mCert st ->
  Generate_post n st rv st'.
Proof.
  intros. unfold Generate_post. repeat split; auto.
  exists l1. split; auto.
Qed.

Ltac fail_branch :=
  repeat step;
  eapply Generate_post_failed; st_simpl;
  first [ reflexivity | eassumption | congruence | constructor ].

Lemma Generate_returns n env st :
  returns (LocalCertGetTask.Generate n) env st (Generate_post n st).
Proof.
  unfold LocalCertGetTask.Generate.
  step. apply returns_bind.
  step. split_fails; [fail_branch |].
  apply returns_bind.
  eapply returns_weaken; [apply RemoveExisting_returns |].
  intros rv1 st1 (Hm1 & Ht1 & Hp1 & Hres1). st_simpl.
  injection Ht1 as Hgc Hgr Hcb Hdi.
  destruct (NS_FAILED rv1) eqn:Hrv1; [fail_branch |].
  assert (find_nickname n (store st1) = None) as Hnone.
  { destruct (find_nickname n (store st1)) as [c |]; [| reflexivity].
    destruct (ours n c); [destruct Hres1 as [e ->] | subst rv1];
      discriminate. }
  clear Hres1.
  do 5 (step; split_fails; [fail_branch |]).
  step.
  step; split_fails; [fail_branch |].
  step; split_fails; [fail_branch |]. cbv iota. step.
  do 3 (step; split_fails; [fail_branch |]).
  step; split_fails; [fail_branch |]. step.
  step; split_fails; [fail_branch |].
  step; split_fails; [fail_branch |]. step.
  step; split_fails; [fail_branch |].
  apply returns_bind, returns_PK11_ImportCert; intros Himp;
    step; [fail_branch |].
  match goal with
  | |- returns _ _ ?s _ =>
      eapply returns_weaken; [apply (GetFromDB_returns n env s) |]
  end.
  intros rv2 st2 (Hs2 & Ht2 & Hres2). st_simpl.
  injection Ht2 as Hgc2 Hgr2 Hcb2 Hdi2.
  repeat step.
  unfold Generate_post. st_simpl.
  repeat split; try congruence.
  exists (store st1). split; [exact Hp1 |]. right.
  split; [exact Hnone |].
  eexists. split; [| split; [exact Hs2 |]].
  - unfold generated. cbn. repeat split. eexists. split; reflexivity.
  - unfold find_nickname in Hres2. cbn [find] in Hres2.
    unfold has_nickname at 1 in Hres2. cbn [nickname] in Hres2.
    rewrite String.eqb_refl in Hres2.
    destruct Hres2 as [(-> & c & Hc & Hm) | (-> & Hm)].
    + left. split; [reflexivity |]. congruence.
    + right. split; [reflexivity |]. congruence.
Qed.

(** ** CalculateResult *)

Lemma safe_refl n l : safe n l l.
Proof. split; [auto | lia]. Qed.

Lemma safe_trans n l1 l2 l3 : safe n l1 l2 -> safe n l2 l3 -> safe n l1 l3.
Proof.
  intros [K1 C1] [K2 C2]. split; [| lia].
  intros c Hin Hc. auto.
Qed.

Lemma purged_safe n l l' : purged n l l' -> safe n l l'.
Proof.
  intros Hp. split.
  - apply (purged_keeps n l l' Hp).
  - pose proof (purged_count n l l' Hp). lia.
Qed.

Lemma count_nickname_cons n c l :
  nickname c = n ->
  count_nickname n (c :: l) = S (count_nickname n l).
Proof.
  intros Hn. unfold count_nickname. cbn [filter].
  unfold has_nickname at 1. rewrite Hn, String.eqb_refl. reflexivity.
Qed.

Lemma generated_ours n c : generated n c -> ours n c = true.
Proof.
  intros (_ & Hr & Hs & Hi & _). unfold ours.
  rewrite Hr, Hs, Hi, String.eqb_refl. reflexivity.
Qed.

Lemma Generate_post_safe n st rv st' :
  Generate_post n st rv st' -> safe n (store st) (store st').
Proof.
  intros (_ & _ & _ & _ & l1 & Hp & Hcase).
  destruct Hcase as [(_ & Hs & _) | (Hnone & c & Hg & Hs & _)].
  - rewrite Hs. apply purged_safe. exact Hp.
  - rewrite Hs. split.
    + intros x Hin Hx. right. eapply purged_keeps; eauto.
    + destruct Hg as (Hn & _).
      rewrite (count_nickname_cons n c l1 Hn).
      apply find_nickname_None_count in Hnone. lia.
Qed.

Lemma Generate_post_OK n st st' :
  Generate_post n st NS_OK st' -> holds_filed n st'.
Proof.
  intros (_ & _ & _ & _ & l1 & Hp & Hcase).
  destruct Hcase as [(Hf & _) | (Hnone & c & Hg & Hs & Hres)];
    [discriminate |].
  destruct Hres as [(_ & Hm) | (Hrv & _)]; [| discriminate].
  exists c. split; [exact Hm |]. split; [| apply generated_ours; exact Hg].
  rewrite Hs. unfold find_nickname. cbn [find].
  destruct Hg as (Hn & _). unfold has_nickname. rewrite Hn, String.eqb_refl.
  reflexivity.
Qed.

Lemma NS_FAILED_false rv : NS_FAILED rv = false -> rv = NS_OK.
Proof. destruct rv; simpl; congruence. Qed.

(** The second half of [CalculateResult]: validate the certificate in hand,
    generate once if that fails. *)
Lemma validate_or_generate n c env st :
  mCert st = Some c ->
  find_nickname n (store st) = Some c ->
  returns
    (rv <- LocalCertGetTask.Validate n ;;
     rv <- (if NS_FAILED rv then LocalCertGetTask.Generate n else ret rv) ;;
     if NS_FAILED rv then ret rv else ret NS_OK)
    env st
    (fun rv st' =>
       callbacks (log st') = callbacks (log st) /\
       dispatches (log st') = dispatches (log st) /\
       safe n (store st) (store st') /\
       (rv = NS_OK -> holds_filed n st') /\
       (generate_results (log st') = generate_results (log st) /\
        generate_calls (log st') = generate_calls (log st) /\
        store st' = store st /\ rv = NS_OK /\
        LocalCertGetTask.Validate n env st = Some (NS_OK, st')
        \/
        generate_results (log st') = rv :: generate_results (log st) /\
        generate_calls (log st') = S (generate_calls (log st)))).
Proof.
  intros Hm Hfind.
  apply returns_bind.
  eapply returns_weaken;
    [apply returns_run_eq, (Validate_returns n c); exact Hm |].
  intros rv2 st2 (Hrun2 & Hs2 & Hm2 & Ht2 & Hours & Hrv2). st_simpl.
  injection Ht2 as Hgc2 Hgr2 Hcb2 Hdi2.
  destruct Hrv2 as [-> | Hfailed].
  - (* accepted *)
    cbn [NS_FAILED]. repeat step.
    rewrite Hs2, Hcb2, Hdi2, Hgc2, Hgr2.
    split; [reflexivity |]. split; [reflexivity |].
    split; [apply safe_refl |]. split; [| left; auto].
    intros _. exists c. rewrite Hm2, Hs2. auto.
  - (* rejected: generate *)
    rewrite Hfailed. apply returns_bind.
    eapply returns_weaken; [apply Generate_returns |].
    intros rv3 st3 Hpost.
    pose proof (Generate_post_safe _ _ _ _ Hpost) as Hsafe.
    assert (rv3 = NS_OK -> holds_filed n st3) as Hok
        by (intros ->; eapply Generate_post_OK; eauto).
    destruct Hpost as (Hgc3 & Hgr3 & Hcb3 & Hdi3 & _).
    rewrite Hs2 in Hsafe.
    assert (returns (ret rv3) env st3
              (fun rv st' =>
                 callbacks (log st') = callbacks (log st) /\
                 dispatches (log st') = dispatches (log st) /\
                 safe n (store st) (store st') /\
                 (rv = NS_OK -> holds_filed n st') /\
                 (generate_results (log st') = generate_results (log st) /\
                  generate_calls (log st') = generate_calls (log st) /\
                  store st' = store st /\ rv = NS_OK /\
                  LocalCertGetTask.Validate n env st = Some (NS_OK, st')
                  \/
                  generate_results (log st') = rv :: generate_results (log st) /\
                  generate_calls (log st') = S (generate_calls (log st)))))
      as Hret.
    { apply returns_ret.
      split; [congruence |]. split; [congruence |].
      split; [exact Hsafe |]. split; [exact Hok |].
      right. split; congruence. }
    destruct (NS_FAILED rv3) eqn:Hrv3; [exact Hret |].
    apply NS_FAILED_false in Hrv3. subst rv3. exact Hret.
Qed.

Lemma CalculateResult_returns n env st :
  returns (LocalCertGetTask.CalculateResult n) env st
          (CalculateResult_post n env st).
Proof.
  unfold LocalCertGetTask.CalculateResult.
  apply returns_bind.
  eapply returns_weaken; [apply returns_run_eq, GetFromDB_returns |].
  intros rv0 st0 (Hrun0 & Hs0 & Ht0 & Hres0). st_simpl.
  injection Ht0 as Hgc0 Hgr0 Hcb0 Hdi0.
  destruct Hres0 as [(-> & c & Hfind & Hm) | (-> & Hm)]; cbn [NS_FAILED].
  - (* found *)
    step.
    eapply returns_weaken;
      [apply (validate_or_generate n c); [exact Hm | congruence] |].
    intros rv st' (Hcb & Hdi & Hsafe & Hok & Hgen).
    rewrite Hs0 in Hsafe.
    unfold CalculateResult_post.
    split; [congruence |]. split; [congruence |].
    split; [| split; [exact Hsafe | exact Hok]].
    destruct Hgen as [(Hgr & Hgc & Hs & -> & Hrun) | (Hgr & Hgc)].
    + exists []. cbn. repeat split; try congruence. eauto.
    + exists [rv]. cbn. repeat split; try congruence; try discriminate.
  - (* not found: generate *)
    apply returns_bind.
    eapply returns_weaken; [apply Generate_returns |].
    intros rv1 st1 Hpost.
    pose proof (Generate_post_safe _ _ _ _ Hpost) as Hsafe1.
    assert (rv1 = NS_OK -> holds_filed n st1) as Hok1
        by (intros ->; eapply Generate_post_OK; eauto).
    destruct Hpost as (Hgc1 & Hgr1 & Hcb1 & Hdi1 & _).
    rewrite Hs0 in Hsafe1.
    destruct (NS_FAILED rv1) eqn:Hrv1.
    + apply returns_ret. unfold CalculateResult_post.
      split; [congruence |]. split; [congruence |].
      split; [| split; [exact Hsafe1 | exact Hok1]].
      exists [rv1]. cbn. repeat split; try congruence; try discriminate.
    + apply NS_FAILED_false in Hrv1. subst rv1.
      destruct (Hok1 eq_refl) as (c & Hm1 & Hfind1 & Hours1).
      eapply returns_weaken;
        [apply (validate_or_generate n c); assumption |].
      intros rv st' (Hcb & Hdi & Hsafe & Hok & Hgen).
      unfold CalculateResult_post.
      split; [congruence |]. split; [congruence |].
      split; [| split; [eapply safe_trans; eauto | exact Hok]].
      destruct Hgen as [(Hgr & Hgc & Hs & -> & Hrun) | (Hgr & Hgc)].
      * exists [NS_OK]. cbn. repeat split; try congruence; try discriminate.
      * exists [rv; NS_OK]. cbn. repeat split; try congruence; try discriminate.
Qed.

(** ** LocalCertService *)

Ltac split_answer :=
  match goal with
  | |- context [answer ?e ?s ?k] =>
      let H := fresh "Hanswer" in
      destruct (answer e s k) eqn:H; cbn [negb andb]
  end.

Lemma NS_FAILED_cases rv : rv = NS_OK \/ NS_FAILED rv = true.
Proof. destruct rv; simpl; auto. Qed.

Lemma LoginToKeySlot_returns env st :
  returns LocalCertService.LoginToKeySlot env st (LoginToKeySlot_post st).
Proof.
  unfold LocalCertService.LoginToKeySlot, LoginToKeySlot_post.
  step. split_fails; [repeat step; auto |].
  step. apply returns_bind.
  assert (forall st1 : State,
             store st1 = store st -> mCert st1 = mCert st ->
             trace st1 = trace st ->
             returns
               (needLogin <- query Site.PK11_NeedLogin ;;
                isLoggedIn <- (if needLogin then query Site.PK11_IsLoggedIn
                               else ret false) ;;
                if needLogin && negb isLoggedIn then
                  tokenDB <- call Site.do_GetService_PK11TokenDB ;;
                  if negb tokenDB then ret NS_ERROR_FAILURE else
                  keyToken <- call Site.GetInternalKeyToken ;;
                  if negb keyToken then ret NS_ERROR_FAILURE else
                  xpcom Site.Login
                else ret NS_OK)
               env st1
               (fun rv st' =>
                  store st' = store st /\ mCert st' = mCert st /\
                  trace st' = trace st /\
                  (rv = NS_OK \/ NS_FAILED rv = true))) as Hlogin.
  { intros st1 Hs1 Hm1 Ht1. unfold trace in Ht1.
    step. split_answer; [| repeat step; auto].
    step. split_answer; [repeat step; auto |].
    step. split_fails; [repeat step; auto |].
    step. split_fails; [repeat step; auto |].
    step. repeat split; auto. apply NS_FAILED_cases. }
  split_answer.
  - step. split_fails; step.
    + step. auto.
    + apply Hlogin; reflexivity.
  - step. apply Hlogin; reflexivity.
Qed.

Lemma list_neq_cons {A} (x : A) (l : list A) : l <> x :: l.
Proof.
  intros H. apply (f_equal (@List.length A)) in H. simpl in H. lia.
Qed.

Lemma GetOrCreateCert_returns n cb env st :
  LocalCertService.IsEmpty n = false ->
  returns (LocalCertService.GetOrCreateCert n (Some cb)) env st
          (GetOrCreateCert_post n cb st).
Proof.
  intros Hn. unfold LocalCertService.GetOrCreateCert. rewrite Hn.
  apply returns_bind.
  eapply returns_weaken; [apply LoginToKeySlot_returns |].
  intros rv0 st0 (Hs0 & Hm0 & Ht0 & Hrv0). st_simpl.
  injection Ht0 as Hgc0 Hgr0 Hcb0 Hdi0.
  unfold GetOrCreateCert_post.
  destruct Hrv0 as [-> | Hfailed].
  - cbn [NS_FAILED]. step. unfold CryptoTask.Dispatch. step.
    destruct (NS_FAILED (xpcom_rv env Site.Dispatch _)) eqn:Hd.
    + (* the executor refuses the task *)
      step. rewrite Hs0. split; [apply safe_refl |].
      right. left. repeat split; congruence.
    + (* the task runs *)
      apply NS_FAILED_false in Hd. rewrite Hd.
      apply returns_bind.
      eapply returns_weaken; [apply CalculateResult_returns |].
      intros rv1 st1 (Hcb1 & Hdi1 & _ & Hsafe1 & Hok1). st_simpl.
      unfold LocalCertGetTask.CallCallback. repeat step.
      rewrite Hs0 in Hsafe1. split; [exact Hsafe1 |].
      right. right. split; [reflexivity |]. split; [congruence |].
      exists (mCert st1), rv1. split; [congruence |].
      intros E. destruct (Hok1 E) as (c & ? & ? & ?). eauto.
  - rewrite Hfailed. repeat step.
    rewrite Hs0. split; [apply safe_refl |].
    left. exists rv0. repeat split; congruence.
Qed.

Lemma RemoveCert_returns n cb env st :
  LocalCertService.IsEmpty n = false ->
  returns (LocalCertService.RemoveCert n (Some cb)) env st
          (RemoveCert_post n cb st).
Proof.
  intros Hn. unfold LocalCertService.RemoveCert. rewrite Hn.
  apply returns_bind.
  eapply returns_weaken; [apply LoginToKeySlot_returns |].
  intros rv0 st0 (Hs0 & Hm0 & Ht0 & Hrv0). st_simpl.
  injection Ht0 as Hgc0 Hgr0 Hcb0 Hdi0.
  unfold RemoveCert_post.
  destruct Hrv0 as [-> | Hfailed].
  - cbn [NS_FAILED]. unfold CryptoTask.Dispatch. step.
    destruct (NS_FAILED (xpcom_rv env Site.Dispatch _)) eqn:Hd.
    + step. rewrite Hs0. split; [apply safe_refl |].
      right. left. repeat split; congruence.
    + apply NS_FAILED_false in Hd. rewrite Hd.
      apply returns_bind. unfold LocalCertRemoveTask.CalculateResult.
      eapply returns_weaken; [apply RemoveExisting_returns |].
      intros rv1 st1 (Hm1 & Ht1 & Hp1 & Hres1). st_simpl.
      injection Ht1 as Hgc1 Hgr1 Hcb1 Hdi1.
      unfold LocalCertRemoveTask.CallCallback. repeat step.
      rewrite Hs0 in Hp1. split; [apply purged_safe; exact Hp1 |].
      right. right. split; [reflexivity |]. split; [congruence |].
      exists rv1. split; [congruence |].
      intros ->. destruct (find_nickname n (store st1)) as [c |];
        [| reflexivity].
      destruct (ours n c); [destruct Hres1 as [e He] |]; discriminate.
  - rewrite Hfailed. repeat step.
    rewrite Hs0. split; [apply safe_refl |].
    left. exists rv0. repeat split; congruence.
Qed.

(** * Properties *)

Lemma app_same_nil {A} (new l : list A) : new ++ l = l -> new = [].
Proof.
  intros H. apply (f_equal (@List.length A)) in H.
  rewrite length_app in H. destruct new; [reflexivity | simpl in H; lia].
Qed.

Lemma fallback_length new rv : fallback new rv -> (List.length new <= 2)%nat.
Proof.
  destruct new as [| r1 [| r2 [| r3 new]]]; simpl; intros H;
    [lia | lia | lia | contradiction].
Qed.

Lemma fallback_failed new rv r :
  fallback new rv -> In r new -> NS_FAILED r = true -> rv = r.
Proof.
  destruct new as [| r1 [| r2 [| r3 new]]]; simpl; intros H Hin Hr.
  - contradiction.
  - destruct Hin as [-> | []]. exact H.
  - destruct H as [-> ->].
    destruct Hin as [-> | [<- | []]]; [reflexivity | discriminate].
  - contradiction.
Qed.

Lemma bind_run {A B} (m : Task A) (f : A -> Task B) env st a st1 :
  m env st = Some (a, st1) -> bind m f env st = f a env st1.
Proof. intros H. unfold bind. rewrite H. reflexivity. Qed.

(** C1 (amended).  Every run of [CalculateResult] returns, and calls
    [Generate] at most twice: once when the lookup fails, and once when the
    validation of the certificate in hand, found or just generated, fails;
    there is no loop.  [Generate] is skipped exactly when the lookup and the
    validation both succeed.  The result of the run is the result of the last
    [Generate] call, an earlier call has succeeded, and so a [Generate] call
    that fails makes the whole operation fail with its error.

    The last part of the statement says which calls are made and on what:
    the first [Generate] runs in the state the failed lookup leaves; the
    validation runs on the certificate in hand, in the state the lookup or
    that first [Generate] leaves; and a [Generate] after a validation runs in
    the state the failed validation leaves, and only then. *)
Theorem C1_fallback_to_generate n env st :
  exists rv st' new,
    LocalCertGetTask.CalculateResult n env st = Some (rv, st') /\
    generate_results (log st') = new ++ generate_results (log st) /\
    generate_calls (log st') = (List.length new + generate_calls (log st))%nat /\
    (List.length new <= 2)%nat /\
    fallback new rv /\
    (forall r, In r new -> NS_FAILED r = true -> rv = r) /\
    (new = [] <->
     exists st0 st1,
       LocalCertGetTask.GetFromDB n env st = Some (NS_OK, st0) /\
       LocalCertGetTask.Validate n env st0 = Some (NS_OK, st1)) /\
    exists rv0 st0,
      LocalCertGetTask.GetFromDB n env st = Some (rv0, st0) /\
      ((* found and accepted: no call *)
       (NS_FAILED rv0 = false /\
        LocalCertGetTask.Validate n env st0 = Some (NS_OK, st') /\
        new = [] /\ rv = NS_OK)
       \/
       (* found and rejected: one call, after the failed validation *)
       (NS_FAILED rv0 = false /\
        (exists rv2 st2,
            LocalCertGetTask.Validate n env st0 = Some (rv2, st2) /\
            NS_FAILED rv2 = true /\
            LocalCertGetTask.Generate n env st2 = Some (rv, st')) /\
        new = [rv])
       \/
       (* absent, and the generation fails: one call *)
       (NS_FAILED rv0 = true /\
        LocalCertGetTask.Generate n env st0 = Some (rv, st') /\
        NS_FAILED rv = true /\
        new = [rv])
       \/
       (* absent, generated and accepted: one call *)
       (NS_FAILED rv0 = true /\
        (exists st1,
            LocalCertGetTask.Generate n env st0 = Some (NS_OK, st1) /\
            LocalCertGetTask.Validate n env st1 = Some (NS_OK, st')) /\
        new = [NS_OK] /\ rv = NS_OK)
       \/
       (* absent, generated and rejected: a second call, after the failed
          validation of the generated certificate *)
       (NS_FAILED rv0 = true /\
        (exists st1 rv2 st2,
            LocalCertGetTask.Generate n env st0 = Some (NS_OK, st1) /\
            LocalCertGetTask.Validate n env st1 = Some (rv2, st2) /\
            NS_FAILED rv2 = true /\
            LocalCertGetTask.Generate n env st2 = Some (rv, st')) /\
        new = [rv; NS_OK])).
Proof.
  destruct (CalculateResult_returns n env st)
    as (rv & st' & Hrun & _ & _ & (new & Hgr & Hgc & Hfb & Hnil) & _ & _).
  exists rv, st', new.
  split; [exact Hrun |]. split; [exact Hgr |]. split; [exact Hgc |].
  split; [eapply fallback_length; eauto |]. split; [exact Hfb |].
  split; [intros r; apply fallback_failed; exact Hfb |].
  split.
  { split.
    - intros E. destruct (Hnil E) as (_ & st0 & H0 & H1). eauto.
    - intros (st0 & st1 & H0 & H1).
      assert (LocalCertGetTask.CalculateResult n env st = Some (NS_OK, st1))
        as Hrun'.
      { unfold LocalCertGetTask.CalculateResult, bind at 1. rewrite H0.
        unfold bind at 1. unfold ret at 1. cbn [NS_FAILED].
        unfold bind at 1. rewrite H1. reflexivity. }
      rewrite Hrun in Hrun'. injection Hrun' as -> ->.
      destruct (GetFromDB_returns n env st)
        as (? & ? & H0' & _ & Ht0 & Hres0).
      rewrite H0 in H0'. injection H0' as <- <-.
      destruct Hres0 as [(_ & c & _ & Hm) | (? & _)]; [| discriminate].
      destruct (Validate_returns n c env st0 Hm)
        as (? & ? & H1' & _ & _ & Ht1 & _).
      rewrite H1 in H1'. injection H1' as <- <-.
      unfold trace in Ht0, Ht1.
      injection Ht0 as _ Hgr0 _ _. injection Ht1 as _ Hgr1 _ _.
      apply (app_same_nil new (generate_results (log st))). congruence. }
  (* the calls, one after the other *)
  assert (forall (sv : State) (c : CERTCertificate),
             mCert sv = Some c ->
             (exists stv,
                 LocalCertGetTask.Validate n env sv = Some (NS_OK, stv) /\
                 generate_results (log stv) = generate_results (log sv) /\
                 (rv <- LocalCertGetTask.Validate n ;;
                  rv <- (if NS_FAILED rv then LocalCertGetTask.Generate n
                         else ret rv) ;;
                  if NS_FAILED rv then ret rv else ret NS_OK) env sv
                 = Some (NS_OK, stv))
             \/
             (exists rv2 st2 rv3 st3,
                 LocalCertGetTask.Validate n env sv = Some (rv2, st2) /\
                 NS_FAILED rv2 = true /\
                 LocalCertGetTask.Generate n env st2 = Some (rv3, st3) /\
                 generate_results (log st3)
                 = rv3 :: generate_results (log sv) /\
                 (rv <- LocalCertGetTask.Validate n ;;
                  rv <- (if NS_FAILED rv then LocalCertGetTask.Generate n
                         else ret rv) ;;
                  if NS_FAILED rv then ret rv else ret NS_OK) env sv
                 = Some (rv3, st3))) as Hsecond.
  { intros sv c Hm.
    destruct (Validate_returns n c env sv Hm)
      as (rv2 & st2 & H2 & _ & _ & Ht2 & _ & Hrv2).
    unfold trace in Ht2. injection Ht2 as _ Hgr2 _ _.
    destruct Hrv2 as [-> | Hf2].
    - left. exists st2. split; [exact H2 |]. split; [exact Hgr2 |].
      rewrite (bind_run _ _ _ _ _ _ H2). reflexivity.
    - right.
      destruct (Generate_returns n env st2)
        as (rv3 & st3 & H3 & _ & Hgr3 & _).
      exists rv2, st2, rv3, st3.
      split; [exact H2 |]. split; [exact Hf2 |]. split; [exact H3 |].
      split; [congruence |].
      rewrite (bind_run _ _ _ _ _ _ H2). rewrite Hf2.
      rewrite (bind_run _ _ _ _ _ _ H3).
      destruct (NS_FAILED rv3) eqn:Hf3; [reflexivity |].
      apply NS_FAILED_false in Hf3. subst rv3. reflexivity. }
  destruct (GetFromDB_returns n env st)
    as (rv0 & st0 & H0 & _ & Ht0 & Hres0).
  unfold trace in Ht0. injection Ht0 as _ Hgr0 _ _.
  exists rv0, st0. split; [exact H0 |].
  unfold LocalCertGetTask.CalculateResult in Hrun.
  rewrite (bind_run _ _ _ _ _ _ H0) in Hrun.
  destruct Hres0 as [(-> & c & _ & Hm0) | (-> & _)]; cbn [NS_FAILED] in Hrun.
  - (* found *)
    rewrite (bind_run (ret NS_OK) _ env st0 NS_OK st0 eq_refl) in Hrun.
    cbn [NS_FAILED] in Hrun.
    destruct (Hsecond st0 c Hm0)
      as [(stv & Hv & Hgrv & Hrest)
         | (rv2 & st2 & rv3 & st3 & Hv & Hf2 & Hg & Hgr3 & Hrest)];
      rewrite Hrest in Hrun; injection Hrun as <- <-.
    + left. split; [reflexivity |]. split; [exact Hv |].
      split; [| reflexivity].
      apply (app_same_nil new (generate_results (log st))). congruence.
    + right. left. split; [reflexivity |].
      split; [exists rv2, st2; auto |].
      apply (app_inv_tail (generate_results (log st))).
      cbn [app]. congruence.
  - (* absent *)
    destruct (Generate_returns n env st0) as (rv1 & st1 & H1 & Hpost1).
    assert (rv1 = NS_OK -> holds_filed n st1) as Hok1
        by (intros ->; eapply Generate_post_OK; eauto).
    destruct Hpost1 as (_ & Hgr1 & _).
    rewrite (bind_run _ _ _ _ _ _ H1) in Hrun.
    destruct (NS_FAILED rv1) eqn:Hf1.
    + injection Hrun as <- <-. right. right. left.
      split; [reflexivity |]. split; [exact H1 |]. split; [exact Hf1 |].
      apply (app_inv_tail (generate_results (log st))).
      cbn [app]. congruence.
    + apply NS_FAILED_false in Hf1. subst rv1.
      destruct (Hok1 eq_refl) as (c & Hm1 & _).
      destruct (Hsecond st1 c Hm1)
        as [(stv & Hv & Hgrv & Hrest)
           | (rv2 & st2 & rv3 & st3 & Hv & Hf2 & Hg & Hgr3 & Hrest)];
        rewrite Hrest in Hrun; injection Hrun as <- <-.
      * right. right. right. left. split; [reflexivity |].
        split; [exists st1; auto |]. split; [| reflexivity].
        apply (app_inv_tail (generate_results (log st))).
        cbn [app]. congruence.
      * right. right. right. right. split; [reflexivity |].
        split; [exists st1, rv2, st2; auto |].
        apply (app_inv_tail (generate_results (log st))).
        cbn [app]. congruence.
Qed.

(** C1, as stated, fails: with an empty store the lookup fails and [Generate]
    runs; the certificate it files does not answer the self-signed query, so
    the validation fails and [Generate] runs a second time. *)
Lemma C1_generate_twice :
  exists st',
    LocalCertGetTask.CalculateResult "devtools" (query_fails T0) fresh
    = Some (NS_OK, st') /\
    generate_calls (log st') = 2%nat /\
    generate_results (log st') = [NS_OK; NS_OK] /\
    ~ (generate_calls (log st') <= 1 + generate_calls (log fresh))%nat.
Proof.
  eexists. split; [vm_compute; reflexivity |].
  vm_compute. repeat split. intros H.
  repeat match goal with
         | H : le _ _ |- _ => inversion H; clear H; subst
         end.
Qed.

Lemma not_ours n c :
  isRoot c = false \/
  subjectName c <> (commonNamePrefix ++ n)%string \/
  issuerName c <> (commonNamePrefix ++ n)%string ->
  ours n c = false.
Proof.
  unfold ours. intros [Hr | [Hs | Hi]].
  - rewrite Hr. reflexivity.
  - apply String.eqb_neq in Hs. rewrite String.eqb_sym in Hs. rewrite Hs.
    apply andb_false_iff. left. apply andb_false_r.
  - apply String.eqb_neq in Hi. rewrite String.eqb_sym in Hi. rewrite Hi.
    apply andb_false_r.
Qed.

(** When the lookup returns a certificate that fails the guard, the purge
    stops at once. *)
Lemma RemoveExisting_foreign n c env st :
  find_nickname n (store st) = Some c ->
  ours n c = false ->
  returns (LocalCertTask.RemoveExisting n) env st
          (fun rv st' => rv = NS_ERROR_UNEXPECTED /\ store st' = store st /\
                         mCert st' = mCert st /\ trace st' = trace st).
Proof.
  intros Hfind Hc.
  eapply returns_weaken; [apply RemoveExisting_returns |].
  intros rv st' (Hm & Ht & Hp & Hres).
  pose proof (purged_foreign n _ _ c Hp Hfind Hc) as Hs.
  rewrite Hs, Hfind, Hc in Hres. auto.
Qed.

Lemma Generate_foreign n c env st :
  find_nickname n (store st) = Some c ->
  ours n c = false ->
  returns (LocalCertGetTask.Generate n) env st
          (fun rv st' =>
             NS_FAILED rv = true /\ store st' = store st /\
             ((forall k, fails env Site.PK11_GetInternalKeySlot k = false) ->
              rv = NS_ERROR_UNEXPECTED)).
Proof.
  intros Hfind Hc. unfold LocalCertGetTask.Generate.
  step. apply returns_bind. step. split_fails.
  - repeat step. repeat split. intros Hslot. rewrite Hslot in Hfails.
    discriminate.
  - apply returns_bind.
    eapply returns_weaken;
      [apply (RemoveExisting_foreign n c); st_simpl; assumption |].
    intros rv1 st1 (-> & Hs1 & _). st_simpl. repeat step. auto.
Qed.

(** When the lookup returns a certificate that fails the guard, the
    get-or-create task fails and leaves the store as it was. *)
Lemma CalculateResult_foreign_first n c env st :
  find_nickname n (store st) = Some c ->
  ours n c = false ->
  returns (LocalCertGetTask.CalculateResult n) env st
          (fun rv st' =>
             NS_FAILED rv = true /\ store st' = store st /\
             ((forall k, fails env Site.PK11_GetInternalKeySlot k = false) ->
              rv = NS_ERROR_UNEXPECTED)).
Proof.
  intros Hfind Hc.
  (* either way the task ends in the one call of Generate that fails *)
  assert (forall st0 : State,
             store st0 = store st ->
             returns
               (rv <- LocalCertGetTask.Generate n ;;
                if NS_FAILED rv then ret rv else ret NS_OK)
               env st0
               (fun rv st' =>
                  NS_FAILED rv = true /\ store st' = store st /\
                  ((forall k,
                       fails env Site.PK11_GetInternalKeySlot k = false) ->
                   rv = NS_ERROR_UNEXPECTED))) as Hgen.
  { intros st0 Hs0. apply returns_bind.
    eapply returns_weaken;
      [apply (Generate_foreign n c); [rewrite Hs0 |]; assumption |].
    intros rv1 st1 (Hf1 & Hs1 & Hu1). rewrite Hf1. step.
    split; [exact Hf1 |]. split; [congruence | exact Hu1]. }
  unfold LocalCertGetTask.CalculateResult.
  apply returns_bind.
  eapply returns_weaken; [apply GetFromDB_returns |].
  intros rv0 st0 (Hs0 & _ & Hres0).
  destruct Hres0 as [(-> & c0 & Hfind0 & Hm0) | (-> & Hm0)];
    cbn [NS_FAILED].
  + step. apply returns_bind.
    assert (c0 = c) by congruence. subst c0.
    eapply returns_weaken; [apply (Validate_returns n c); exact Hm0 |].
    intros rv1 st1 (Hs1 & _ & _ & Hours1 & Hrv1).
    destruct Hrv1 as [-> | Hf1];
      [rewrite (Hours1 eq_refl) in Hc; discriminate |].
    rewrite Hf1. apply Hgen. congruence.
  + apply returns_bind.
    eapply returns_weaken;
      [apply (Generate_foreign n c); [rewrite Hs0 |]; assumption |].
    intros rv1 st1 (Hf1 & Hs1 & Hu1). rewrite Hf1. step.
    split; [exact Hf1 |]. split; [congruence | exact Hu1].
Qed.

(** ** At most one certificate per nickname *)

Lemma serve_safe n r env st :
  returns (serve n r) env st (fun _ st' => safe n (store st) (store st')).
Proof.
  destruct r as [[cb |] | [cb |]]; cbn [serve].
  - destruct (LocalCertService.IsEmpty n) eqn:Hn.
    + unfold LocalCertService.GetOrCreateCert. rewrite Hn.
      apply returns_ret, safe_refl.
    + eapply returns_weaken; [apply GetOrCreateCert_returns; exact Hn |].
      intros rv st' [Hsafe _]. exact Hsafe.
  - unfold LocalCertService.GetOrCreateCert.
    destruct (LocalCertService.IsEmpty n); apply returns_ret, safe_refl.
  - destruct (LocalCertService.IsEmpty n) eqn:Hn.
    + unfold LocalCertService.RemoveCert. rewrite Hn.
      apply returns_ret, safe_refl.
    + eapply returns_weaken; [apply RemoveCert_returns; exact Hn |].
      intros rv st' [Hsafe _]. exact Hsafe.
  - unfold LocalCertService.RemoveCert.
    destruct (LocalCertService.IsEmpty n); apply returns_ret, safe_refl.
Qed.

(** C3.  Starting from a store that holds at most one certificate under the
    nickname, every finite sequence of GetOrCreate and Remove requests for
    that nickname, served one after the other, runs to its end and leaves at
    most one certificate under the nickname, whatever the callbacks are and
    whatever fails on the way. *)
Theorem C3_at_most_one n rs :
  forall st,
    (count_nickname n (store st) <= 1)%nat ->
    exists st',
      serve_all n rs st = Some st' /\
      (count_nickname n (store st') <= 1)%nat.
Proof.
  induction rs as [| [r env] rs IH]; intros st Hst.
  - exists st. split; [reflexivity | exact Hst].
  - destruct (serve_safe n r env st) as (rv & st1 & Hrun & _ & Hcount).
    destruct (IH st1) as (st' & Hall & Hst'); [lia |].
    exists st'. split; [| exact Hst'].
    cbn [serve_all]. rewrite Hrun. exact Hall.
Qed.

Lemma C3_at_most_one_witness :
  (count_nickname "devtools" (store fresh) <= 1)%nat /\
  exists st',
    serve_all "devtools"
      [(GetOrCreate (Some 1%nat), calm T0);
       (GetOrCreate (Some 2%nat), query_fails T0);
       (Remove (Some 3%nat), no_slot T0);
       (Remove (Some 4%nat), calm T0);
       (GetOrCreate (Some 5%nat), calm T0)] fresh = Some st' /\
    (count_nickname "devtools" (store st') <= 1)%nat.
Proof.
  split; [vm_compute; lia |].
  apply (C3_at_most_one "devtools"
           [(GetOrCreate (Some 1%nat), calm T0);
            (GetOrCreate (Some 2%nat), query_fails T0);
            (Remove (Some 3%nat), no_slot T0);
            (Remove (Some 4%nat), calm T0);
            (GetOrCreate (Some 5%nat), calm T0)] fresh).
  vm_compute. lia.
Defined.

(** ** The validity window *)

Lemma oneDay_value : oneDay = 24 * 60 * 60 * PR_USEC_PER_SEC.
Proof. reflexivity. Qed.

Lemma PRTime_sub_oneDay now :
  PRTime_MIN + oneDay <= now <= PRTime_MAX ->
  PRTime_sub now oneDay = now - oneDay.
Proof.
  change oneDay with 86400000000.
  unfold PRTime_MIN, PRTime_MAX, PRTime_sub, PRTime_wrap. intros H.
  rewrite Z.mod_small; lia.
Qed.

(** What [Validate] answers, in terms of the spec's conditions: the error of
    the self-signed query when that fails; otherwise NS_ERROR_FAILURE when a
    condition fails, whichever it is, and NS_OK when none does. *)
Lemma Validate_result n c env st :
  mCert st = Some c ->
  PRTime_MIN + oneDay <= Validate_clock env st <= PRTime_MAX ->
  returns (LocalCertGetTask.Validate n) env st
    (fun rv st' =>
       store st' = store st /\
       rv = if NS_FAILED (xpcom_rv env Site.GetIsSelfSigned (tick st))
            then xpcom_rv env Site.GetIsSelfSigned (tick st)
            else match failing_condition n c (Validate_clock env st) with
                 | Some _ => NS_ERROR_FAILURE
                 | None => NS_OK
                 end).
Proof.
  intros Hc Hnow. unfold LocalCertGetTask.Validate.
  apply returns_bind, (returns_deref_mCert c); [exact Hc |].
  apply returns_bind, returns_xpcom. cbv beta.
  destruct (NS_FAILED (xpcom_rv env Site.GetIsSelfSigned (tick st)));
    [apply returns_ret; auto |].
  unfold failing_condition.
  destruct (negb (isRoot c)); [apply returns_ret; auto |].
  destruct (negb (String.eqb (subjectName c) (issuerName c)));
    [apply returns_ret; auto |].
  destruct (negb (String.eqb (subjectName c) (commonNamePrefix ++ n)));
    [apply returns_ret; auto |].
  apply returns_bind, returns_PR_Now. cbv beta.
  change (clock env (tick (with_event (Ext Site.GetIsSelfSigned) st)))
    with (Validate_clock env st).
  rewrite (PRTime_sub_oneDay _ Hnow).
  destruct ((notBefore c >? Validate_clock env st)
            || (notAfter c <? Validate_clock env st - oneDay));
    apply returns_ret; auto.
Qed.



(** The boundary scenario of the spec: issued at [T0], evaluated at
    [T0 + 365 days + 1 day], and one second later. *)
Example boundary_accepted :
  exists st',
    LocalCertGetTask.Validate "devtools" (calm (T0 + 365 * oneDay + oneDay))
      (holding (cert_of "devtools" T0)) = Some (NS_OK, st').
Proof. eexists. vm_compute. reflexivity. Qed.

Example boundary_rejected :
  exists st',
    LocalCertGetTask.Validate "devtools"
      (calm (T0 + 365 * oneDay + oneDay + PR_USEC_PER_SEC))
      (holding (cert_of "devtools" T0)) = Some (NS_ERROR_FAILURE, st').
Proof. eexists. vm_compute. reflexivity. Qed.

(** ** The failure code of Validate *)

(** C8 (amended).  When [Validate] rejects a record because one of the four
    conditions fails, it returns the one generic code NS_ERROR_FAILURE,
    whichever condition it was; when the self-signed query itself fails it
    returns that query's error; otherwise it returns NS_OK.  The result
    depends only on whether a condition fails, not on which. *)
Theorem C8_one_failure_code n c env st :
  mCert st = Some c ->
  PRTime_MIN + oneDay <= Validate_clock env st <= PRTime_MAX ->
  exists rv st',
    LocalCertGetTask.Validate n env st = Some (rv, st') /\
    store st' = store st /\
    (NS_FAILED (xpcom_rv env Site.GetIsSelfSigned (tick st)) = true ->
     rv = xpcom_rv env Site.GetIsSelfSigned (tick st)) /\
    (NS_FAILED (xpcom_rv env Site.GetIsSelfSigned (tick st)) = false ->
     (forall kind,
         failing_condition n c (Validate_clock env st) = Some kind ->
         rv = NS_ERROR_FAILURE) /\
     (failing_condition n c (Validate_clock env st) = None -> rv = NS_OK)).
Proof.
  intros Hc Hnow.
  destruct (Validate_result n c env st Hc Hnow) as (rv & st' & Hrun & Hs & Hrv).
  exists rv, st'. split; [exact Hrun |]. split; [exact Hs |].
  split; intros Hq; rewrite Hq in Hrv; [exact Hrv |].
  split.
  - intros kind Hk. rewrite Hk in Hrv. exact Hrv.
  - intros Hk. rewrite Hk in Hrv. exact Hrv.
Qed.

Lemma C8_one_failure_code_witness :
  mCert (holding (foreign_cert "devtools")) = Some (foreign_cert "devtools") /\
  PRTime_MIN + oneDay
  <= Validate_clock (calm T0) (holding (foreign_cert "devtools"))
  <= PRTime_MAX /\
  exists rv st',
    LocalCertGetTask.Validate "devtools" (calm T0)
      (holding (foreign_cert "devtools")) = Some (rv, st') /\
    store st' = store (holding (foreign_cert "devtools")) /\
    (NS_FAILED (xpcom_rv (calm T0) Site.GetIsSelfSigned
                  (tick (holding (foreign_cert "devtools")))) = true ->
     rv = xpcom_rv (calm T0) Site.GetIsSelfSigned
            (tick (holding (foreign_cert "devtools")))) /\
    (NS_FAILED (xpcom_rv (calm T0) Site.GetIsSelfSigned
                  (tick (holding (foreign_cert "devtools")))) = false ->
     (forall kind,
         failing_condition "devtools" (foreign_cert "devtools")
           (Validate_clock (calm T0) (holding (foreign_cert "devtools")))
         = Some kind ->
         rv = NS_ERROR_FAILURE) /\
     (failing_condition "devtools" (foreign_cert "devtools")
        (Validate_clock (calm T0) (holding (foreign_cert "devtools")))
      = None -> rv = NS_OK)).
Proof.
  split; [reflexivity |]. split; [vm_compute; split; discriminate |].
  apply (C8_one_failure_code "devtools" (foreign_cert "devtools")
           (calm T0) (holding (foreign_cert "devtools")));
    [reflexivity | vm_compute; split; discriminate].
Defined.

(** C8, as stated, fails: a record that is not self-signed and a record of
    the service that has expired are rejected with the same code, so the
    caller cannot tell the two kinds apart. *)
Lemma C8_kinds_not_distinguished :
  (failing_condition "devtools" (foreign_cert "devtools") T0
   = Some NotSelfSigned /\
   exists st',
     LocalCertGetTask.Validate "devtools" (calm T0)
       (holding (foreign_cert "devtools")) = Some (NS_ERROR_FAILURE, st'))
  /\
  (failing_condition "devtools" (cert_of "devtools" T0) (T0 + 400 * oneDay)
   = Some OutsideValidityWindow /\
   exists st',
     LocalCertGetTask.Validate "devtools" (calm (T0 + 400 * oneDay))
       (holding (cert_of "devtools" T0)) = Some (NS_ERROR_FAILURE, st'))
  /\
  ~ (exists classify : nsresult -> ValidationError,
        forall n c env st rv st' kind,
          mCert st = Some c ->
          LocalCertGetTask.Validate n env st = Some (rv, st') ->
          failing_condition n c (Validate_clock env st) = Some kind ->
          classify rv = kind).
Proof.
  split; [split; [reflexivity | eexists; vm_compute; reflexivity] |].
  split; [split; [reflexivity | eexists; vm_compute; reflexivity] |].
  intros (classify & H).
  assert (classify NS_ERROR_FAILURE = NotSelfSigned) as H1.
  { eapply (H "devtools"%string (foreign_cert "devtools") (calm T0)
              (holding (foreign_cert "devtools")));
      [reflexivity | vm_compute; reflexivity | reflexivity]. }
  assert (classify NS_ERROR_FAILURE = OutsideValidityWindow) as H2.
  { eapply (H "devtools"%string (cert_of "devtools" T0)
              (calm (T0 + 400 * oneDay)) (holding (cert_of "devtools" T0)));
      [reflexivity | vm_compute; reflexivity | reflexivity]. }
  congruence.
Qed.

(** ** A certificate that is found and accepted *)

Lemma GetFromDB_OK n env st st0 :
  LocalCertGetTask.GetFromDB n env st = Some (NS_OK, st0) ->
  exists c,
    find_nickname n (store st) = Some c /\
    st0 = with_mCert (Some c)
            (with_event (Ext Site.FindCertByNickname)
               (with_event (Ext Site.do_GetService_X509CertDB) st)).
Proof.
  intros Hrun.
  assert (returns (LocalCertGetTask.GetFromDB n) env st
            (fun rv st' =>
               rv = NS_OK ->
               exists c,
                 find_nickname n (store st) = Some c /\
                 st' = with_mCert (Some c)
                         (with_event (Ext Site.FindCertByNickname)
                            (with_event (Ext Site.do_GetService_X509CertDB)
                               st)))) as Hspec.
  { unfold LocalCertGetTask.GetFromDB.
    apply returns_bind, returns_call. cbv beta.
    destruct (fails env Site.do_GetService_X509CertDB (tick st)); cbn [negb].
    - apply returns_ret. discriminate.
    - apply returns_bind, returns_FindCertByNickname. cbv beta.
      cbn [store with_event].
      destruct (find_nickname n (store st)) as [c |]; cbn [NS_FAILED].
      + apply returns_bind, returns_set_mCert, returns_ret.
        intros _. exists c. auto.
      + apply returns_ret. discriminate. }
  exact (returns_run _ _ _ _ _ _ Hspec Hrun eq_refl).
Qed.

Lemma Validate_OK n env st st1 :
  LocalCertGetTask.Validate n env st = Some (NS_OK, st1) ->
  st1 = with_event (Ext Site.PR_Now)
          (with_event (Ext Site.GetIsSelfSigned) st).
Proof.
  intros Hrun.
  destruct (mCert st) as [c |] eqn:Hc.
  - assert (returns (LocalCertGetTask.Validate n) env st
              (fun rv st' =>
                 rv = NS_OK ->
                 st' = with_event (Ext Site.PR_Now)
                         (with_event (Ext Site.GetIsSelfSigned) st)))
      as Hspec.
    { unfold LocalCertGetTask.Validate.
      apply returns_bind, (returns_deref_mCert c); [exact Hc |].
      apply returns_bind, returns_xpcom. cbv beta.
      destruct (xpcom_rv env Site.GetIsSelfSigned (tick st)) eqn:Hq;
        cbn [NS_FAILED]; try (apply returns_ret; discriminate).
      repeat match goal with
             | |- returns (if ?b then _ else _) _ _ _ =>
                 destruct b; [apply returns_ret; discriminate |]
             end.
      apply returns_bind, returns_PR_Now. cbv beta.
      match goal with
      | |- returns (if ?b then _ else _) _ _ _ =>
          destruct b; apply returns_ret; [discriminate | reflexivity]
      end. }
    exact (returns_run _ _ _ _ _ _ Hspec Hrun eq_refl).
  - unfold LocalCertGetTask.Validate, bind, deref_mCert in Hrun.
    rewrite Hc in Hrun. discriminate.
Qed.

Lemma CalculateResult_accepts n env st st0 st1 :
  LocalCertGetTask.GetFromDB n env st = Some (NS_OK, st0) ->
  LocalCertGetTask.Validate n env st0 = Some (NS_OK, st1) ->
  LocalCertGetTask.CalculateResult n env st = Some (NS_OK, st1) /\
  exists c,
    find_nickname n (store st) = Some c /\
    st1 = with_event (Ext Site.PR_Now)
            (with_event (Ext Site.GetIsSelfSigned)
               (with_mCert (Some c)
                  (with_event (Ext Site.FindCertByNickname)
                     (with_event (Ext Site.do_GetService_X509CertDB) st)))).
Proof.
  intros H0 H1. split.
  - unfold LocalCertGetTask.CalculateResult, bind at 1. rewrite H0.
    unfold bind at 1. unfold ret at 1. cbn [NS_FAILED].
    unfold bind at 1. rewrite H1. reflexivity.
  - apply GetFromDB_OK in H0 as (c & Hfind & ->).
    apply Validate_OK in H1. exists c. auto.
Qed.

(** C9.  When the lookup finds a certificate under the nickname and that
    certificate passes validation, the get-or-create task succeeds and leaves
    the store as it was: [Generate] is not called, no call that deletes a
    certificate, generates a key pair or imports anything is made, and the
    calls it makes are the service lookup, the nickname lookup, the
    self-signed query and the reading of the clock. *)
Theorem C9_found_and_valid_reads_only n env st st0 st1 :
  LocalCertGetTask.GetFromDB n env st = Some (NS_OK, st0) ->
  LocalCertGetTask.Validate n env st0 = Some (NS_OK, st1) ->
  LocalCertGetTask.CalculateResult n env st = Some (NS_OK, st1) /\
  store st1 = store st /\
  mCert st1 = find_nickname n (store st) /\
  log st1 = [Ext Site.PR_Now; Ext Site.GetIsSelfSigned;
             Ext Site.FindCertByNickname; Ext Site.do_GetService_X509CertDB]
            ++ log st /\
  mutations (log st1) = mutations (log st) /\
  generate_calls (log st1) = generate_calls (log st).
Proof.
  intros H0 H1.
  destruct (CalculateResult_accepts n env st st0 st1 H0 H1)
    as (Hrun & c & Hfind & ->).
  split; [exact Hrun |]. rewrite Hfind. repeat split.
Qed.

Lemma C9_found_and_valid_reads_only_witness :
  LocalCertGetTask.GetFromDB "devtools" (calm T0)
    (with_certs [cert_of "devtools" T0]) = Some (NS_OK, looked_up) /\
  LocalCertGetTask.Validate "devtools" (calm T0) looked_up
  = Some (NS_OK, accepted) /\
  LocalCertGetTask.CalculateResult "devtools" (calm T0)
    (with_certs [cert_of "devtools" T0]) = Some (NS_OK, accepted) /\
  store accepted = store (with_certs [cert_of "devtools" T0]) /\
  mCert accepted
  = find_nickname "devtools" (store (with_certs [cert_of "devtools" T0])) /\
  log accepted
  = [Ext Site.PR_Now; Ext Site.GetIsSelfSigned;
     Ext Site.FindCertByNickname; Ext Site.do_GetService_X509CertDB]
    ++ log (with_certs [cert_of "devtools" T0]) /\
  mutations (log accepted)
  = mutations (log (with_certs [cert_of "devtools" T0])) /\
  generate_calls (log accepted)
  = generate_calls (log (with_certs [cert_of "devtools" T0])).
Proof.
  split; [vm_compute; reflexivity |]. split; [vm_compute; reflexivity |].
  apply (C9_found_and_valid_reads_only "devtools" (calm T0)
           (with_certs [cert_of "devtools" T0]) looked_up accepted);
    vm_compute; reflexivity.
Defined.

(** ** Two calls in a row *)

Lemma LoginToKeySlot_unlocks env st :
  (forall s k, fails env s k = false) ->
  (forall s k, xpcom_rv env s k = NS_OK) ->
  returns LocalCertService.LoginToKeySlot env st
          (fun rv st' => rv = NS_OK /\ LoginToKeySlot_post st rv st').
Proof.
  intros Hfails Hrv.
  eapply returns_weaken; [apply returns_run_eq, LoginToKeySlot_returns |].
  intros rv st' (Hrun & Hpost). split; [| exact Hpost].
  assert (returns LocalCertService.LoginToKeySlot env st
            (fun rv _ => rv = NS_OK)) as Hspec;
    [| exact (returns_run _ _ _ _ _ _ Hspec Hrun)].
  unfold LocalCertService.LoginToKeySlot.
  step. rewrite Hfails. cbn [negb].
  step. split_answer.
  - step. rewrite Hfails. cbn [negb]. repeat step.
    split_answer; [| repeat step; reflexivity].
    step. split_answer; [repeat step; reflexivity |].
    step. rewrite Hfails. cbn [negb]. step. rewrite Hfails. cbn [negb].
    step. apply Hrv.
  - repeat step.
    split_answer; [| repeat step; reflexivity].
    step. split_answer; [repeat step; reflexivity |].
    step. rewrite Hfails. cbn [negb]. step. rewrite Hfails. cbn [negb].
    step. apply Hrv.
Qed.

Lemma ours_checks n c :
  ours n c = true ->
  isRoot c = true /\
  String.eqb (subjectName c) (issuerName c) = true /\
  String.eqb (subjectName c) (commonNamePrefix ++ n) = true.
Proof.
  unfold ours. rewrite !andb_true_iff, !String.eqb_eq.
  intros [[Hr Hs] Hi]. rewrite <- Hs, <- Hi. auto.
Qed.

(** With nothing failing and the clock inside the certificate's window, the
    task finds the certificate filed under the nickname and accepts it. *)
Lemma CalculateResult_keeps n c env st :
  find_nickname n (store st) = Some c ->
  ours n c = true ->
  (forall s k, fails env s k = false) ->
  (forall s k, xpcom_rv env s k = NS_OK) ->
  (forall k, PRTime_MIN + oneDay <= clock env k <= PRTime_MAX /\
             notBefore c <= clock env k /\
             clock env k - oneDay <= notAfter c) ->
  exists st',
    LocalCertGetTask.CalculateResult n env st = Some (NS_OK, st') /\
    store st' = store st /\ mCert st' = Some c /\ trace st' = trace st.
Proof.
  intros Hfind Hours Hfails Hrv Hclock.
  pose (st0 := with_mCert (Some c)
                 (with_event (Ext Site.FindCertByNickname)
                    (with_event (Ext Site.do_GetService_X509CertDB) st))).
  assert (LocalCertGetTask.GetFromDB n env st = Some (NS_OK, st0)) as H0.
  { unfold LocalCertGetTask.GetFromDB, bind, call, FindCertByNickname,
      set_mCert, ret.
    rewrite Hfails. cbn [negb store with_event]. rewrite Hfind.
    reflexivity. }
  assert (exists st1, LocalCertGetTask.Validate n env st0 = Some (NS_OK, st1))
    as (st1 & H1).
  { destruct (Hclock (S (tick st0))) as (Hrange & Hnb & Hna).
    destruct (Validate_result n c env st0 eq_refl Hrange)
      as (rv & st1 & Hrun & _ & Hres).
    exists st1. rewrite Hrun. f_equal. f_equal.
    rewrite Hrv in Hres. cbn [NS_FAILED] in Hres.
    unfold failing_condition, Validate_clock in Hres.
    destruct (ours_checks n c Hours) as (Hr & Hsi & Hsn).
    rewrite Hr, Hsi, Hsn in Hres. cbn [negb] in Hres.
    assert ((notBefore c >? clock env (S (tick st0))) = false) as E1
        by (rewrite Z.gtb_ltb; apply Z.ltb_ge; lia).
    assert ((notAfter c <? clock env (S (tick st0)) - oneDay) = false) as E2
        by (apply Z.ltb_ge; lia).
    rewrite E1, E2 in Hres. exact Hres. }
  destruct (CalculateResult_accepts n env st st0 st1 H0 H1)
    as (Hrun & c' & Hfind' & ->).
  exists (with_event (Ext Site.PR_Now)
            (with_event (Ext Site.GetIsSelfSigned)
               (with_mCert (Some c')
                  (with_event (Ext Site.FindCertByNickname)
                     (with_event (Ext Site.do_GetService_X509CertDB) st))))).
  split; [exact Hrun |].
  assert (c' = c) by congruence. subst c'. repeat split.
Qed.

(** C5 (amended).  When a call of [GetOrCreateCert] for a nickname has handed
    a certificate to its callback with NS_OK, a second call that follows it
    with no removal in between hands the same certificate to its callback and
    regenerates nothing, provided nothing fails during the second call and
    its clock is inside the window in which the certificate is accepted:
    notBefore <= now and now - 1 day <= notAfter. *)
Theorem C5_second_call_same_certificate n cb1 cb2 env1 env2 st rv1 st1 c :
  LocalCertService.GetOrCreateCert n (Some cb1) env1 st = Some (rv1, st1) ->
  callbacks (log st1) = HandleCert cb1 (Some c) NS_OK :: callbacks (log st) ->
  (forall s k, fails env2 s k = false) ->
  (forall s k, xpcom_rv env2 s k = NS_OK) ->
  (forall k, PRTime_MIN + oneDay <= clock env2 k <= PRTime_MAX /\
             notBefore c <= clock env2 k /\
             clock env2 k - oneDay <= notAfter c) ->
  exists st2,
    LocalCertService.GetOrCreateCert n (Some cb2) env2 st1
    = Some (NS_OK, st2) /\
    callbacks (log st2) = HandleCert cb2 (Some c) NS_OK :: callbacks (log st1) /\
    store st2 = store st1 /\
    generate_calls (log st2) = generate_calls (log st1).
Proof.
  intros Hrun1 Hcb1 Hfails Hrv Hclock.
  destruct (LocalCertService.IsEmpty n) eqn:Hn.
  { (* an empty nickname is rejected without any callback *)
    unfold LocalCertService.GetOrCreateCert in Hrun1. rewrite Hn in Hrun1.
    injection Hrun1 as _ <-.
    exfalso. apply (list_neq_cons _ _ Hcb1). }
  (* the first call: the certificate it handed over is the one on file *)
  assert (find_nickname n (store st1) = Some c /\ ours n c = true)
    as [Hfind Hours].
  { pose proof (returns_run _ _ _ _ _ _
                  (GetOrCreateCert_returns n cb1 env1 st Hn) Hrun1)
      as (_ & Hcase).
    destruct Hcase as [(r & Hr & _ & Hcb & _)
                      | [(_ & Hcb & _) | (_ & _ & cert & r & Hcb & Hok)]].
    - rewrite Hcb in Hcb1. discriminate.
    - rewrite Hcb in Hcb1. exfalso. apply (list_neq_cons _ _ Hcb1).
    - rewrite Hcb in Hcb1. injection Hcb1 as -> ->.
      destruct (Hok eq_refl) as (c0 & E & ? & ?).
      injection E as <-. auto. }
  (* the second call *)
  assert (returns (LocalCertService.GetOrCreateCert n (Some cb2)) env2 st1
            (fun rv st2 =>
               rv = NS_OK /\
               callbacks (log st2)
               = HandleCert cb2 (Some c) NS_OK :: callbacks (log st1) /\
               store st2 = store st1 /\
               generate_calls (log st2) = generate_calls (log st1)))
    as (rv2 & st2 & Hrun2 & -> & Hpost).
  { unfold LocalCertService.GetOrCreateCert. rewrite Hn.
    apply returns_bind.
    eapply returns_weaken; [apply LoginToKeySlot_unlocks; assumption |].
    intros rv0 st0 (-> & Hs0 & _ & Ht0 & _). st_simpl.
    injection Ht0 as Hgc0 Hgr0 Hcb0 Hdi0.
    step. unfold CryptoTask.Dispatch. step. rewrite Hrv. st_simpl.
    apply returns_bind.
    match goal with
    | |- returns _ _ ?s _ =>
        destruct (CalculateResult_keeps n c env2 s)
          as (st' & Hrun & Hs' & Hm' & Ht'); try assumption;
          [st_simpl; congruence |]
    end.
    eapply returns_intro; [exact Hrun |].
    unfold LocalCertGetTask.CallCallback. repeat step.
    st_simpl. injection Ht' as Hgc' Hgr' Hcb' Hdi'.
    rewrite Hm'. repeat split; congruence. }
  exists st2. split; [exact Hrun2 | exact Hpost].
Qed.

Lemma C5_second_call_same_certificate_witness :
  LocalCertService.GetOrCreateCert "devtools" (Some 1%nat) (calm T0) fresh
  = Some (NS_OK, after_first_call) /\
  callbacks (log after_first_call)
  = HandleCert 1%nat (Some (cert_of "devtools" T0)) NS_OK
    :: callbacks (log fresh) /\
  (forall s k, fails (calm (T0 + 30 * oneDay)) s k = false) /\
  (forall s k, xpcom_rv (calm (T0 + 30 * oneDay)) s k = NS_OK) /\
  (forall k,
      PRTime_MIN + oneDay <= clock (calm (T0 + 30 * oneDay)) k <= PRTime_MAX /\
      notBefore (cert_of "devtools" T0) <= clock (calm (T0 + 30 * oneDay)) k /\
      clock (calm (T0 + 30 * oneDay)) k - oneDay
      <= notAfter (cert_of "devtools" T0)) /\
  exists st2,
    LocalCertService.GetOrCreateCert "devtools" (Some 2%nat)
      (calm (T0 + 30 * oneDay)) after_first_call = Some (NS_OK, st2) /\
    callbacks (log st2)
    = HandleCert 2%nat (Some (cert_of "devtools" T0)) NS_OK
      :: callbacks (log after_first_call) /\
    store st2 = store after_first_call /\
    generate_calls (log st2) = generate_calls (log after_first_call).
Proof.
  split; [vm_compute; reflexivity |]. split; [vm_compute; reflexivity |].
  split; [intros; reflexivity |]. split; [intros; reflexivity |].
  split; [intros; vm_compute; repeat split; discriminate |].
  apply (C5_second_call_same_certificate "devtools" 1%nat 2%nat
           (calm T0) (calm (T0 + 30 * oneDay)) fresh NS_OK after_first_call
           (cert_of "devtools" T0)).
  - vm_compute; reflexivity.
  - vm_compute; reflexivity.
  - intros; reflexivity.
  - intros; reflexivity.
  - intros; vm_compute; repeat split; discriminate.
Defined.

(** C5, as stated, fails: no removal and no other change of the store lies
    between the two calls, but 400 days do; the second call finds the
    certificate of the first expired and hands a new one to its callback. *)
Lemma C5_expired_between_calls :
  exists st2,
    LocalCertService.GetOrCreateCert "devtools" (Some 1%nat) (calm T0) fresh
    = Some (NS_OK, after_first_call) /\
    callbacks (log after_first_call)
    = [HandleCert 1%nat (Some (cert_of "devtools" T0)) NS_OK] /\
    LocalCertService.GetOrCreateCert "devtools" (Some 2%nat)
      (calm (T0 + 400 * oneDay)) after_first_call = Some (NS_OK, st2) /\
    callbacks (log st2)
    = [HandleCert 2%nat (Some (cert_of "devtools" (T0 + 400 * oneDay))) NS_OK;
       HandleCert 1%nat (Some (cert_of "devtools" T0)) NS_OK] /\
    cert_of "devtools" (T0 + 400 * oneDay) <> cert_of "devtools" T0 /\
    generate_calls (log st2) = 2%nat.
Proof.
  eexists. split; [vm_compute; reflexivity |].
  split; [vm_compute; reflexivity |].
  split; [vm_compute; reflexivity |].
  split; [vm_compute; reflexivity |].
  split; [| vm_compute; reflexivity].
  intros H. apply (f_equal notBefore) in H. vm_compute in H. discriminate.
Qed.

(** ** Rejected arguments *)

(** C6.  An empty nickname or a null callback makes [GetOrCreateCert] and
    [RemoveCert] return at once with an invalid-argument failure
    (NS_ERROR_INVALID_ARG for the nickname, NS_ERROR_INVALID_POINTER for the
    callback), in the very state they were called in: nothing is logged, so
    no task is dispatched, no callback is invoked, no collaborator is called
    (no authentication, lookup, deletion or generation), and the store is
    untouched. *)
Theorem C6_invalid_arguments n cb env st :
  n = ""%string \/ cb = None ->
  exists rv,
    InvalidArgument rv /\
    NS_FAILED rv = true /\
    LocalCertService.GetOrCreateCert n cb env st = Some (rv, st) /\
    LocalCertService.RemoveCert n cb env st = Some (rv, st) /\
    (n = ""%string -> rv = NS_ERROR_INVALID_ARG) /\
    (n <> ""%string -> rv = NS_ERROR_INVALID_POINTER).
Proof.
  intros Hbad.
  unfold LocalCertService.GetOrCreateCert, LocalCertService.RemoveCert,
    InvalidArgument.
  destruct (LocalCertService.IsEmpty n) eqn:Hn.
  - apply String.eqb_eq in Hn.
    exists NS_ERROR_INVALID_ARG. repeat split; auto. congruence.
  - apply String.eqb_neq in Hn.
    destruct Hbad as [-> | ->]; [congruence |].
    exists NS_ERROR_INVALID_POINTER. repeat split; auto. congruence.
Qed.

Lemma C6_invalid_arguments_witness :
  (""%string = ""%string \/ Some 1%nat = None) /\
  exists rv,
    InvalidArgument rv /\
    NS_FAILED rv = true /\
    LocalCertService.GetOrCreateCert "" (Some 1%nat) (calm T0)
      (with_certs [cert_of "devtools" T0])
    = Some (rv, with_certs [cert_of "devtools" T0]) /\
    LocalCertService.RemoveCert "" (Some 1%nat) (calm T0)
      (with_certs [cert_of "devtools" T0])
    = Some (rv, with_certs [cert_of "devtools" T0]) /\
    (""%string = ""%string -> rv = NS_ERROR_INVALID_ARG) /\
    (""%string <> ""%string -> rv = NS_ERROR_INVALID_POINTER).
Proof.
  split; [left; reflexivity |].
  apply (C6_invalid_arguments "" (Some 1%nat) (calm T0)
           (with_certs [cert_of "devtools" T0])).
  left; reflexivity.
Defined.

(** ** A store that cannot be unlocked *)

Lemma unlock_failure_GetOrCreateCert n cb env st rv st0 :
  n <> ""%string ->
  LocalCertService.LoginToKeySlot env st = Some (rv, st0) ->
  NS_FAILED rv = true ->
  LocalCertService.GetOrCreateCert n (Some cb) env st
  = Some (NS_OK, with_event (HandleCert cb None rv) st0).
Proof.
  intros Hn Hlogin Hrv. apply String.eqb_neq in Hn.
  unfold LocalCertService.GetOrCreateCert, LocalCertService.IsEmpty.
  rewrite Hn. unfold bind at 1. rewrite Hlogin, Hrv. reflexivity.
Qed.

Lemma unlock_failure_RemoveCert n cb env st rv st0 :
  n <> ""%string ->
  LocalCertService.LoginToKeySlot env st = Some (rv, st0) ->
  NS_FAILED rv = true ->
  LocalCertService.RemoveCert n (Some cb) env st
  = Some (NS_OK, with_event (HandleResult cb rv) st0).
Proof.
  intros Hn Hlogin Hrv. apply String.eqb_neq in Hn.
  unfold LocalCertService.RemoveCert, LocalCertService.IsEmpty.
  rewrite Hn. unfold bind at 1. rewrite Hlogin, Hrv. reflexivity.
Qed.

(** C7.  When the unlock of the store fails, [GetOrCreateCert] and
    [RemoveCert] invoke the callback before they return, once, with a null
    certificate and the error of the unlock; the callback is the last thing
    that happens, no task is handed to the executor, [Generate] is not
    called and the store is as it was. *)
Theorem C7_unlock_failure_short_circuits n cb env st rv st0 :
  n <> ""%string ->
  LocalCertService.LoginToKeySlot env st = Some (rv, st0) ->
  NS_FAILED rv = true ->
  (exists sync st',
     LocalCertService.GetOrCreateCert n (Some cb) env st = Some (sync, st') /\
     log st' = HandleCert cb None rv :: log st0 /\
     callbacks (log st') = HandleCert cb None rv :: callbacks (log st) /\
     dispatches (log st') = dispatches (log st) /\
     generate_calls (log st') = generate_calls (log st) /\
     store st' = store st)
  /\
  (exists sync st',
     LocalCertService.RemoveCert n (Some cb) env st = Some (sync, st') /\
     log st' = HandleResult cb rv :: log st0 /\
     callbacks (log st') = HandleResult cb rv :: callbacks (log st) /\
     dispatches (log st') = dispatches (log st) /\
     generate_calls (log st') = generate_calls (log st) /\
     store st' = store st).
Proof.
  intros Hn Hlogin Hrv.
  pose proof (returns_run _ _ _ _ _ _ (LoginToKeySlot_returns env st) Hlogin)
    as (Hs0 & _ & Ht0 & _).
  unfold trace in Ht0. injection Ht0 as Hgc0 Hgr0 Hcb0 Hdi0.
  split.
  - exists NS_OK, (with_event (HandleCert cb None rv) st0).
    split; [apply unlock_failure_GetOrCreateCert; assumption |].
    st_simpl. repeat split; congruence.
  - exists NS_OK, (with_event (HandleResult cb rv) st0).
    split; [apply unlock_failure_RemoveCert; assumption |].
    st_simpl. repeat split; congruence.
Qed.

Lemma C7_unlock_failure_short_circuits_witness :
  "devtools"%string <> ""%string /\
  LocalCertService.LoginToKeySlot (login_declined T0) fresh
  = Some (NS_ERROR_FAILURE, after_declined_login) /\
  NS_FAILED NS_ERROR_FAILURE = true /\
  (exists sync st',
     LocalCertService.GetOrCreateCert "devtools" (Some 1%nat)
       (login_declined T0) fresh = Some (sync, st') /\
     log st' = HandleCert 1%nat None NS_ERROR_FAILURE
               :: log after_declined_login /\
     callbacks (log st')
     = HandleCert 1%nat None NS_ERROR_FAILURE :: callbacks (log fresh) /\
     dispatches (log st') = dispatches (log fresh) /\
     generate_calls (log st') = generate_calls (log fresh) /\
     store st' = store fresh)
  /\
  (exists sync st',
     LocalCertService.RemoveCert "devtools" (Some 1%nat)
       (login_declined T0) fresh = Some (sync, st') /\
     log st' = HandleResult 1%nat NS_ERROR_FAILURE
               :: log after_declined_login /\
     callbacks (log st')
     = HandleResult 1%nat NS_ERROR_FAILURE :: callbacks (log fresh) /\
     dispatches (log st') = dispatches (log fresh) /\
     generate_calls (log st') = generate_calls (log fresh) /\
     store st' = store fresh).
Proof.
  split; [discriminate |]. split; [reflexivity |]. split; [reflexivity |].
  apply (C7_unlock_failure_short_circuits "devtools" 1%nat
           (login_declined T0) fresh NS_ERROR_FAILURE after_declined_login);
    [discriminate | reflexivity | reflexivity].
Defined.

(** C10.  When the unlock of the store fails, the synchronous call of
    [GetOrCreateCert] and of [RemoveCert] itself returns NS_OK, after it has
    handed the failure to the callback: the value returned is a success and
    is not the error of the unlock, which only the callback sees. *)
Theorem C10_unlock_failure_returns_ok n cb env st rv st0 :
  n <> ""%string ->
  LocalCertService.LoginToKeySlot env st = Some (rv, st0) ->
  NS_FAILED rv = true ->
  LocalCertService.GetOrCreateCert n (Some cb) env st
  = Some (NS_OK, with_event (HandleCert cb None rv) st0) /\
  LocalCertService.RemoveCert n (Some cb) env st
  = Some (NS_OK, with_event (HandleResult cb rv) st0) /\
  NS_FAILED NS_OK = false /\
  NS_OK <> rv.
Proof.
  intros Hn Hlogin Hrv.
  split; [apply unlock_failure_GetOrCreateCert; assumption |].
  split; [apply unlock_failure_RemoveCert; assumption |].
  split; [reflexivity |].
  intros <-. discriminate.
Qed.

Lemma C10_unlock_failure_returns_ok_witness :
  "devtools"%string <> ""%string /\
  LocalCertService.LoginToKeySlot (no_slot T0) fresh
  = Some (NS_ERROR_NSS SEC_ERROR_IO,
          with_event (Ext Site.PK11_GetInternalKeySlot) fresh) /\
  NS_FAILED (NS_ERROR_NSS SEC_ERROR_IO) = true /\
  LocalCertService.GetOrCreateCert "devtools" (Some 1%nat) (no_slot T0) fresh
  = Some (NS_OK,
          with_event (HandleCert 1%nat None (NS_ERROR_NSS SEC_ERROR_IO))
            (with_event (Ext Site.PK11_GetInternalKeySlot) fresh)) /\
  LocalCertService.RemoveCert "devtools" (Some 1%nat) (no_slot T0) fresh
  = Some (NS_OK,
          with_event (HandleResult 1%nat (NS_ERROR_NSS SEC_ERROR_IO))
            (with_event (Ext Site.PK11_GetInternalKeySlot) fresh)) /\
  NS_FAILED NS_OK = false /\
  NS_OK <> NS_ERROR_NSS SEC_ERROR_IO.
Proof.
  split; [discriminate |]. split; [reflexivity |]. split; [reflexivity |].
  apply (C10_unlock_failure_returns_ok "devtools" 1%nat (no_slot T0) fresh
           (NS_ERROR_NSS SEC_ERROR_IO)
           (with_event (Ext Site.PK11_GetInternalKeySlot) fresh));
    [discriminate | reflexivity | reflexivity].
Defined.

(** * Further properties *)

(** ** The purge, exactly *)

Lemma remove_found_others n c l :
  find_nickname n l = Some c -> others n (remove_cert c l) = others n l.
Proof.
  unfold find_nickname, others.
  induction l as [| x l IH]; cbn [find remove_cert filter]; [discriminate |].
  destruct (has_nickname n x) eqn:Hx.
  - intros E. injection E as <-.
    assert (CERTCertificate_eqb x x = true) as ->
        by (apply CERTCertificate_eqb_eq; reflexivity).
    reflexivity.
  - intros Hfind. destruct (CERTCertificate_eqb c x) eqn:E.
    + apply CERTCertificate_eqb_eq in E. subst x.
      apply find_some in Hfind as [_ Hc]. congruence.
    + cbn [filter]. rewrite Hx. cbn [negb]. rewrite (IH Hfind). reflexivity.
Qed.

Lemma purged_others n l l' : purged n l l' -> others n l' = others n l.
Proof.
  induction 1 as [| l c l' Hf Ho Hp IH]; [reflexivity |].
  rewrite IH. apply remove_found_others. exact Hf.
Qed.

Lemma others_all n l : find_nickname n l = None -> others n l = l.
Proof.
  unfold find_nickname, others.
  induction l as [| x l IH]; cbn [find filter]; [reflexivity |].
  destruct (has_nickname n x); [discriminate |].
  intros H. cbn [negb]. rewrite (IH H). reflexivity.
Qed.

Lemma purged_all n l l' :
  purged n l l' -> find_nickname n l' = None -> l' = others n l.
Proof.
  intros Hp Hnone. rewrite <- (purged_others n l l' Hp).
  symmetry. apply others_all. exact Hnone.
Qed.

Lemma find_nickname_others n l : find_nickname n (others n l) = None.
Proof.
  unfold find_nickname, others.
  induction l as [| x l IH]; cbn [filter find]; [reflexivity |].
  destruct (has_nickname n x) eqn:Hx; cbn [negb]; [exact IH |].
  cbn [find]. rewrite Hx. exact IH.
Qed.

Lemma find_nickname_Some_nickname n l c :
  find_nickname n l = Some c -> has_nickname n c = true.
Proof. intros H. apply find_some in H as [_ H]. exact H. Qed.

Lemma find_nickname_None_In n l c :
  find_nickname n l = None -> In c l -> has_nickname n c = false.
Proof.
  intros Hnone Hin.
  pose proof (find_none _ _ Hnone c Hin) as H. exact H.
Qed.

(** A purge that comes to its end has deleted certificates of the service
    only. *)
Lemma purged_all_ours n l l' :
  purged n l l' -> find_nickname n l' = None -> all_ours n l.
Proof.
  intros Hp Hnone c Hin Hn.
  destruct (ours n c) eqn:Hc; [reflexivity |].
  pose proof (purged_keeps n l l' Hp c Hin Hc) as Hin'.
  rewrite (find_nickname_None_In n l' c Hnone Hin') in Hn. discriminate.
Qed.

Lemma RemoveExisting_loop_no_delete_failure n env :
  (forall k, fails env Site.PK11_DeleteTokenCertAndKey k = false) ->
  forall fuel st,
    (List.length (store st) < fuel)%nat ->
    returns (LocalCertTask.RemoveExisting_loop fuel n) env st
            (fun rv _ => rv = NS_OK \/ rv = NS_ERROR_UNEXPECTED).
Proof.
  intros Hdel. induction fuel as [| fuel IH]; intros st Hfuel; [lia |].
  cbn [LocalCertTask.RemoveExisting_loop].
  apply returns_bind, returns_PK11_FindCertFromNickname.
  destruct (find_nickname n (store st)) as [c |] eqn:Hfind;
    [| apply returns_ret; auto].
  destruct (negb (isRoot c)); [apply returns_ret; auto |].
  destruct (negb (String.eqb (commonNamePrefix ++ n) (subjectName c)));
    [apply returns_ret; auto |].
  destruct (negb (String.eqb (commonNamePrefix ++ n) (issuerName c)));
    [apply returns_ret; auto |].
  apply returns_bind, returns_PK11_DeleteTokenCertAndKey; intros Hd;
    [rewrite Hdel in Hd; discriminate |].
  apply returns_bind, returns_MapSECStatus. cbn [NS_FAILED].
  apply find_nickname_In in Hfind as [Hin _].
  pose proof (remove_cert_length c (store st) Hin) as Hlen.
  apply IH. st_simpl. lia.
Qed.

Lemma RemoveExisting_no_delete_failure n env st :
  (forall k, fails env Site.PK11_DeleteTokenCertAndKey k = false) ->
  returns (LocalCertTask.RemoveExisting n) env st
          (fun rv _ => rv = NS_OK \/ rv = NS_ERROR_UNEXPECTED).
Proof.
  intros Hdel. unfold LocalCertTask.RemoveExisting. apply returns_bind.
  eapply returns_intro; [reflexivity |].
  apply RemoveExisting_loop_no_delete_failure; [exact Hdel | lia].
Qed.

(** With every certificate under the nickname one of the service's and no
    deletion failing, the purge succeeds. *)
Lemma RemoveExisting_own n env st :
  all_ours n (store st) ->
  (forall k, fails env Site.PK11_DeleteTokenCertAndKey k = false) ->
  returns (LocalCertTask.RemoveExisting n) env st
          (fun rv st' =>
             rv = NS_OK /\ store st' = others n (store st) /\
             mCert st' = mCert st /\ trace st' = trace st).
Proof.
  intros Hall Hdel.
  eapply returns_weaken; [apply returns_run_eq, RemoveExisting_returns |].
  intros rv st' (Hrun & Hm & Ht & Hp & Hres).
  pose proof (returns_run _ _ _ _ _ _
                (RemoveExisting_no_delete_failure n env st Hdel) Hrun) as Hrv.
  destruct (find_nickname n (store st')) as [c |] eqn:Hfind.
  - exfalso.
    apply find_nickname_In in Hfind as Hin. destruct Hin as [Hin _].
    pose proof (purged_sub n _ _ Hp c Hin) as Hin0.
    pose proof (Hall c Hin0 (find_nickname_Some_nickname _ _ _ Hfind)) as Hc.
    rewrite Hc in Hres. destruct Hres as [e ->].
    destruct Hrv; discriminate.
  - subst rv. repeat split; auto. apply purged_all; assumption.
Qed.

(** X1.  [RemoveExisting] always returns, and its result tells what the
    lookup of the nickname returns afterwards: NS_OK exactly when nothing is
    left under the nickname, NS_ERROR_UNEXPECTED exactly when a certificate
    that fails the guard is, and an NSS error exactly when a certificate of
    the service is, the one whose deletion failed. *)
Theorem RemoveExisting_result_tells n env st :
  exists rv st',
    LocalCertTask.RemoveExisting n env st = Some (rv, st') /\
    (rv = NS_OK <-> find_nickname n (store st') = None) /\
    (rv = NS_ERROR_UNEXPECTED <->
     exists c, find_nickname n (store st') = Some c /\ ours n c = false) /\
    ((exists e, rv = NS_ERROR_NSS e) <->
     exists c, find_nickname n (store st') = Some c /\ ours n c = true).
Proof.
  destruct (RemoveExisting_returns n env st)
    as (rv & st' & Hrun & _ & _ & _ & Hres).
  exists rv, st'. split; [exact Hrun |].
  destruct (find_nickname n (store st')) as [c |].
  - destruct (ours n c) eqn:Hc.
    + destruct Hres as [e ->]. repeat split; try discriminate.
      * intros (c0 & E & Hc0). injection E as <-. congruence.
      * intros _. exists c. auto.
      * intros _. exists e. reflexivity.
    + subst rv. repeat split; try discriminate.
      * intros _. exists c. auto.
      * intros [e He]. discriminate.
      * intros (c0 & E & Hc0). injection E as <-. congruence.
  - subst rv. repeat split; try discriminate.
    + intros (c0 & E & _). discriminate.
    + intros [e He]. discriminate.
    + intros (c0 & E & _). discriminate.
Qed.

Lemma RemoveExisting_OK n env st st' :
  LocalCertTask.RemoveExisting n env st = Some (NS_OK, st') ->
  store st' = others n (store st) /\
  all_ours n (store st) /\
  find_nickname n (store st') = None /\
  mCert st' = mCert st.
Proof.
  intros Hrun.
  pose proof (returns_run _ _ _ _ _ _ (RemoveExisting_returns n env st) Hrun)
    as (Hm & _ & Hp & Hres).
  assert (find_nickname n (store st') = None) as Hnone.
  { destruct (find_nickname n (store st')) as [c |]; [| reflexivity].
    destruct (ours n c); [destruct Hres as [e He] |]; discriminate. }
  split; [apply purged_all; assumption |].
  split; [eapply purged_all_ours; eassumption |].
  split; [exact Hnone | exact Hm].
Qed.

(** X2.  When [RemoveExisting] returns NS_OK, the store is the old store
    without the certificates that were filed under the nickname, the others
    in their order, and every certificate it has deleted passed the guard. *)
Theorem RemoveExisting_success_exact n env st st' :
  LocalCertTask.RemoveExisting n env st = Some (NS_OK, st') ->
  store st' = others n (store st) /\
  all_ours n (store st) /\
  count_nickname n (store st') = O /\
  mCert st' = mCert st.
Proof.
  intros Hrun.
  destruct (RemoveExisting_OK n env st st' Hrun) as (Hs & Hall & Hnone & Hm).
  split; [exact Hs |]. split; [exact Hall |].
  split; [apply find_nickname_None_count; exact Hnone | exact Hm].
Qed.

Lemma RemoveExisting_success_exact_witness :
  LocalCertTask.RemoveExisting "devtools" (calm T0) two_nicknames
  = Some (NS_OK, after_purge) /\
  store after_purge = others "devtools" (store two_nicknames) /\
  all_ours "devtools" (store two_nicknames) /\
  count_nickname "devtools" (store after_purge) = O /\
  mCert after_purge = mCert two_nicknames.
Proof.
  split; [vm_compute; reflexivity |].
  apply (RemoveExisting_success_exact "devtools" (calm T0) two_nicknames
           after_purge).
  vm_compute; reflexivity.
Defined.

(** X4.  Removal is idempotent: once [RemoveExisting] has returned NS_OK, a
    second run, whatever the environment, returns NS_OK after a single
    lookup and changes nothing else. *)
Theorem RemoveExisting_idempotent n env st st1 env2 :
  LocalCertTask.RemoveExisting n env st = Some (NS_OK, st1) ->
  LocalCertTask.RemoveExisting n env2 st1
  = Some (NS_OK, with_event (Ext Site.PK11_FindCertFromNickname) st1).
Proof.
  intros Hrun.
  pose proof (returns_run _ _ _ _ _ _ (RemoveExisting_returns n env st) Hrun)
    as (_ & _ & _ & Hres).
  assert (find_nickname n (store st1) = None) as Hnone.
  { destruct (find_nickname n (store st1)) as [c |]; [| reflexivity].
    destruct (ours n c); [destruct Hres as [e He] |]; discriminate. }
  unfold LocalCertTask.RemoveExisting, bind at 1, get_store_size.
  cbn [LocalCertTask.RemoveExisting_loop].
  unfold bind, PK11_FindCertFromNickname. rewrite Hnone. reflexivity.
Qed.

Lemma RemoveExisting_idempotent_witness :
  LocalCertTask.RemoveExisting "devtools" (calm T0) two_nicknames
  = Some (NS_OK, after_purge) /\
  LocalCertTask.RemoveExisting "devtools" (no_slot T0) after_purge
  = Some (NS_OK, with_event (Ext Site.PK11_FindCertFromNickname) after_purge).
Proof.
  split; [vm_compute; reflexivity |].
  apply (RemoveExisting_idempotent "devtools" (calm T0) two_nicknames
           after_purge (no_slot T0)).
  vm_compute; reflexivity.
Defined.

(** X5.  The service can always remove its own certificates: when every
    certificate filed under the nickname passes the guard and no deletion
    fails, [RemoveExisting] returns NS_OK and leaves exactly the certificates
    of the other nicknames. *)
Theorem RemoveExisting_removes_own n env st :
  all_ours n (store st) ->
  (forall k, fails env Site.PK11_DeleteTokenCertAndKey k = false) ->
  exists st',
    LocalCertTask.RemoveExisting n env st = Some (NS_OK, st') /\
    store st' = others n (store st) /\
    find_nickname n (store st') = None.
Proof.
  intros Hall Hdel.
  destruct (RemoveExisting_own n env st Hall Hdel)
    as (rv & st' & Hrun & -> & Hs & _).
  exists st'. split; [exact Hrun |]. split; [exact Hs |].
  rewrite Hs. apply find_nickname_others.
Qed.

Lemma all_ours_two_nicknames : all_ours "devtools" (store two_nicknames).
Proof.
  intros c Hin Hn. cbn in Hin.
  destruct Hin as [<- | [<- | []]]; [reflexivity | discriminate].
Qed.

Lemma RemoveExisting_removes_own_witness :
  all_ours "devtools" (store two_nicknames) /\
  (forall k, fails (calm T0) Site.PK11_DeleteTokenCertAndKey k = false) /\
  exists st',
    LocalCertTask.RemoveExisting "devtools" (calm T0) two_nicknames
    = Some (NS_OK, st') /\
    store st' = others "devtools" (store two_nicknames) /\
    find_nickname "devtools" (store st') = None.
Proof.
  split; [apply all_ours_two_nicknames |]. split; [intros; reflexivity |].
  apply (RemoveExisting_removes_own "devtools" (calm T0) two_nicknames);
    [apply all_ours_two_nicknames | intros; reflexivity].
Defined.

(** ** Generate, step by step *)

Ltac late_failure Hrun Hmc :=
  repeat step;
  right; split; [assumption |];
  eexists _, _; split; [exact Hrun |];
  right; left; st_simpl;
  repeat split; first [reflexivity | assumption | congruence].

Lemma Generate_steps_returns n env st :
  returns (LocalCertGetTask.Generate n) env st (Generate_steps n env st).
Proof.
  unfold LocalCertGetTask.Generate, Generate_steps.
  step. apply returns_bind.
  step. split_fails.
  { repeat step. left. repeat split. exact Hfails. }
  apply returns_bind.
  eapply returns_weaken; [apply returns_run_eq, RemoveExisting_returns |].
  intros rv1 st1 (Hrun1 & Hm1 & _ & _ & _). st_simpl.
  destruct (NS_FAILED rv1) eqn:Hrv1.
  { repeat step. right. split; [assumption |].
    exists rv1, st1. split; [exact Hrun1 |]. left. repeat split; auto. }
  apply NS_FAILED_false in Hrv1. subst rv1.
  do 5 (step; split_fails; [late_failure Hrun1 Hm1 |]).
  step.
  step; split_fails; [late_failure Hrun1 Hm1 |].
  step; split_fails; [late_failure Hrun1 Hm1 |]. cbv iota. step.
  do 3 (step; split_fails; [late_failure Hrun1 Hm1 |]).
  step; split_fails; [late_failure Hrun1 Hm1 |]. step.
  step; split_fails; [late_failure Hrun1 Hm1 |].
  step; split_fails; [late_failure Hrun1 Hm1 |]. step.
  step; split_fails; [late_failure Hrun1 Hm1 |].
  apply returns_bind, returns_PK11_ImportCert; intros Himp;
    step; [late_failure Hrun1 Hm1 |].
  match goal with
  | |- returns _ _ ?s _ =>
      eapply returns_weaken; [apply (GetFromDB_returns n env s) |]
  end.
  intros rv2 st2 (Hs2 & _ & Hres2). st_simpl.
  repeat step.
  right. split; [assumption |].
  exists NS_OK, st1. split; [exact Hrun1 |]. right. right.
  split; [reflexivity |].
  eexists. split; [| split; [exact Hs2 |]].
  - eexists _, _. reflexivity.
  - unfold find_nickname in Hres2. cbn [find] in Hres2.
    unfold has_nickname at 1 in Hres2. cbn [nickname] in Hres2.
    rewrite String.eqb_refl in Hres2.
    destruct Hres2 as [(-> & c & Hc & Hm) | (-> & Hm)].
    + left. split; [reflexivity |]. congruence.
    + right. split; [reflexivity |]. congruence.
Qed.

Lemma count_nickname_others n l : count_nickname n (others n l) = O.
Proof. apply find_nickname_None_count, find_nickname_others. Qed.

Lemma issued_generated n env c : issued n env c -> generated n c.
Proof.
  intros (k & j & ->). unfold generated. cbn.
  repeat split. eexists. split; reflexivity.
Qed.

Lemma issued_nickname n env c : issued n env c -> has_nickname n c = true.
Proof.
  intros (k & j & ->). unfold has_nickname. cbn. apply String.eqb_refl.
Qed.

(** What a successful [Generate] leaves. *)
Lemma Generate_OK n env st st' :
  LocalCertGetTask.Generate n env st = Some (NS_OK, st') ->
  exists c,
    issued n env c /\
    store st' = c :: others n (store st) /\
    mCert st' = Some c /\
    all_ours n (store st).
Proof.
  intros Hrun.
  pose proof (returns_run _ _ _ _ _ _ (Generate_steps_returns n env st) Hrun)
    as [(_ & Hf & _) | (_ & rv1 & st1 & Hrun1 & Hcase)]; [discriminate |].
  destruct Hcase as [(Hf & <- & _) | [(_ & Hf & _) | (-> & c & Hc & Hs & Hres)]];
    try discriminate.
  destruct Hres as [(_ & Hm) | (E & _)]; [| discriminate].
  destruct (RemoveExisting_OK _ _ _ _ Hrun1) as (Hs1 & Hall & _ & _).
  st_simpl. exists c. rewrite Hs, Hs1. auto.
Qed.

(** X6.  When [Generate] returns NS_OK, the store is the new certificate on
    top of the certificates of the other nicknames: the new certificate is
    the only one under the nickname, it is the one a lookup returns and the
    one left in [mCert], it is self-signed with subject and issuer
    "CN=" + nickname, and every certificate that was deleted for it passed
    the guard. *)
Theorem Generate_success_exact n env st st' :
  LocalCertGetTask.Generate n env st = Some (NS_OK, st') ->
  exists c,
    store st' = c :: others n (store st) /\
    mCert st' = Some c /\
    find_nickname n (store st') = Some c /\
    count_nickname n (store st') = 1%nat /\
    nickname c = n /\ isRoot c = true /\
    subjectName c = (commonNamePrefix ++ n)%string /\
    issuerName c = (commonNamePrefix ++ n)%string /\
    all_ours n (store st).
Proof.
  intros Hrun. destruct (Generate_OK n env st st' Hrun) as (c & Hc & Hs & Hm & Hall).
  exists c. split; [exact Hs |]. split; [exact Hm |].
  pose proof (issued_nickname n env c Hc) as Hn.
  destruct (issued_generated n env c Hc) as (Hnick & Hr & Hsub & Hiss & _).
  split; [rewrite Hs; unfold find_nickname; cbn [find]; rewrite Hn; reflexivity |].
  split; [rewrite Hs, (count_nickname_cons n c _ Hnick), count_nickname_others;
          reflexivity |].
  auto.
Qed.

Lemma PRTime_add_year now :
  PRTime_MIN <= now <= PRTime_MAX - 365 * oneDay ->
  PRTime_add now (PRTime_mul 365 oneDay) = now + 365 * oneDay.
Proof.
  change (PRTime_mul 365 oneDay) with 31536000000000.
  change oneDay with 86400000000.
  unfold PRTime_MIN, PRTime_MAX, PRTime_add, PRTime_wrap. intros H.
  rewrite Z.mod_small; lia.
Qed.







Lemma Generate_success_exact_witness :
  LocalCertGetTask.Generate "devtools" (calm T0) two_nicknames
  = Some (NS_OK, after_generate) /\
  exists c,
    store after_generate = c :: others "devtools" (store two_nicknames) /\
    mCert after_generate = Some c /\
    find_nickname "devtools" (store after_generate) = Some c /\
    count_nickname "devtools" (store after_generate) = 1%nat /\
    nickname c = "devtools"%string /\ isRoot c = true /\
    subjectName c = (commonNamePrefix ++ "devtools")%string /\
    issuerName c = (commonNamePrefix ++ "devtools")%string /\
    all_ours "devtools" (store two_nicknames).
Proof.
  split; [vm_compute; reflexivity |].
  apply (Generate_success_exact "devtools" (calm T0) two_nicknames
           after_generate).
  vm_compute; reflexivity.
Defined.


(** X8.  [Generate] purges before it generates, and does not put back what
    it has purged: once it has the key slot, with every certificate under
    the nickname one of the service's and no deletion failing, those
    certificates are gone when it returns, whether it returns a failure,
    leaving nothing under the nickname or a certificate that could not be
    read back, or NS_OK. *)
Theorem Generate_purges_first n env st :
  (forall k, fails env Site.PK11_GetInternalKeySlot k = false) ->
  (forall k, fails env Site.PK11_DeleteTokenCertAndKey k = false) ->
  all_ours n (store st) ->
  exists rv st',
    LocalCertGetTask.Generate n env st = Some (rv, st') /\
    (NS_FAILED rv = true /\ store st' = others n (store st) /\
     find_nickname n (store st') = None
     \/
     exists c,
       issued n env c /\ store st' = c :: others n (store st) /\
       (rv = NS_OK \/ rv = NS_ERROR_FAILURE)).
Proof.
  intros Hslot Hdel Hall.
  destruct (Generate_steps_returns n env st) as (rv & st' & Hrun & Hsteps).
  exists rv, st'. split; [exact Hrun |].
  destruct Hsteps as [(Hf & _) | (_ & rv1 & st1 & Hrun1 & Hcase)];
    [rewrite Hslot in Hf; discriminate |].
  assert (rv1 = NS_OK /\ store st1 = others n (store st)) as [-> Hs1].
  { pose proof (returns_run _ _ _ _ _ _
                  (RemoveExisting_own n env
                     (with_event (Ext Site.PK11_GetInternalKeySlot)
                        (with_event GenerateBegin st)) Hall Hdel) Hrun1)
      as (? & ? & _). auto. }
  destruct Hcase as [(Hf & _) | [(_ & Hf & Hs & _) | (_ & c & Hc & Hs & Hres)]].
  - discriminate.
  - left. rewrite Hs, Hs1. repeat split; auto. apply find_nickname_others.
  - right. exists c. rewrite Hs, Hs1. repeat split; auto.
    destruct Hres as [(-> & _) | (-> & _)]; auto.
Qed.

Lemma Generate_purges_first_witness :
  (forall k, fails (no_key_pair T0) Site.PK11_GetInternalKeySlot k = false) /\
  (forall k,
      fails (no_key_pair T0) Site.PK11_DeleteTokenCertAndKey k = false) /\
  all_ours "devtools" (store two_nicknames) /\
  exists rv st',
    LocalCertGetTask.Generate "devtools" (no_key_pair T0) two_nicknames
    = Some (rv, st') /\
    (NS_FAILED rv = true /\
     store st' = others "devtools" (store two_nicknames) /\
     find_nickname "devtools" (store st') = None
     \/
     exists c,
       issued "devtools" (no_key_pair T0) c /\
       store st' = c :: others "devtools" (store two_nicknames) /\
       (rv = NS_OK \/ rv = NS_ERROR_FAILURE)).
Proof.
  split; [intros; reflexivity |]. split; [intros; reflexivity |].
  split; [apply all_ours_two_nicknames |].
  apply (Generate_purges_first "devtools" (no_key_pair T0) two_nicknames);
    [intros; reflexivity | intros; reflexivity | apply all_ours_two_nicknames].
Defined.

(** With nothing failing and only certificates of the service under the
    nickname, [Generate] succeeds. *)
Lemma Generate_calm n env st :
  (forall s k, fails env s k = false) ->
  all_ours n (store st) ->
  exists st' c,
    LocalCertGetTask.Generate n env st = Some (NS_OK, st') /\
    issued n env c /\
    store st' = c :: others n (store st) /\
    mCert st' = Some c.
Proof.
  intros Hfails Hall.
  destruct (Generate_steps_returns n env st) as (rv & st' & Hrun & _).
  assert (returns (LocalCertGetTask.Generate n) env st
            (fun rv _ => rv = NS_OK)) as Hspec.
  { unfold LocalCertGetTask.Generate.
    step. apply returns_bind.
    step. rewrite Hfails. cbn [negb].
    apply returns_bind.
    eapply returns_weaken;
      [apply RemoveExisting_own; [exact Hall | intros; apply Hfails] |].
    intros rv1 st1 (-> & Hs1 & _). st_simpl.
    do 5 (step; rewrite Hfails; cbn [negb]).
    step.
    step; rewrite Hfails; cbn [negb].
    step; rewrite Hfails; cbn [negb]. cbv iota. step.
    do 3 (step; rewrite Hfails; cbn [negb]).
    step; rewrite Hfails; cbn [negb]. step.
    step; rewrite Hfails; cbn [negb].
    step; rewrite Hfails; cbn [negb]. step.
    step; rewrite Hfails; cbn [negb].
    apply returns_bind, returns_PK11_ImportCert; intros Himp;
      [rewrite Hfails in Himp; discriminate |].
    step.
    unfold LocalCertGetTask.GetFromDB.
    step. rewrite Hfails. cbn [negb]. step.
    unfold find_nickname. cbn [find]. unfold has_nickname at 1.
    cbn [nickname]. rewrite String.eqb_refl. cbv iota. st_simpl.
    repeat step. reflexivity. }
  pose proof (returns_run _ _ _ _ _ _ Hspec Hrun) as ->.
  destruct (Generate_OK n env st st' Hrun) as (c & Hc & Hs & Hm & _).
  exists st', c. auto.
Qed.

(** ** Other nicknames *)

Lemma Generate_post_others n st rv st' :
  Generate_post n st rv st' -> others n (store st') = others n (store st).
Proof.
  intros (_ & _ & _ & _ & l1 & Hp & Hcase).
  rewrite <- (purged_others n _ _ Hp).
  destruct Hcase as [(_ & -> & _) | (_ & c & Hg & -> & _)]; [reflexivity |].
  destruct Hg as (Hn & _). unfold others. cbn [filter].
  unfold has_nickname at 1. rewrite Hn, String.eqb_refl. reflexivity.
Qed.

(** Whatever relation between stores [Generate] keeps, the whole task
    keeps. *)
Lemma CalculateResult_stores (R : list CERTCertificate ->
                                  list CERTCertificate -> Prop) n env st :
  (forall l, R l l) ->
  (forall l1 l2 l3, R l1 l2 -> R l2 l3 -> R l1 l3) ->
  (forall st0 rv st1, Generate_post n st0 rv st1 ->
                      R (store st0) (store st1)) ->
  returns (LocalCertGetTask.CalculateResult n) env st
          (fun _ st' => R (store st) (store st')).
Proof.
  intros Hrefl Htrans Hgen.
  assert (forall c st0,
             mCert st0 = Some c ->
             returns
               (rv <- LocalCertGetTask.Validate n ;;
                rv <- (if NS_FAILED rv then LocalCertGetTask.Generate n
                       else ret rv) ;;
                if NS_FAILED rv then ret rv else ret NS_OK)
               env st0 (fun _ st' => R (store st0) (store st'))) as Hrest.
  { intros c st0 Hm. apply returns_bind.
    eapply returns_weaken; [apply (Validate_returns n c); exact Hm |].
    intros rv2 st2 (Hs2 & _ & _ & _ & Hrv2).
    destruct Hrv2 as [-> | Hf].
    - cbn [NS_FAILED]. repeat step. rewrite Hs2. apply Hrefl.
    - rewrite Hf. apply returns_bind.
      eapply returns_weaken; [apply Generate_returns |].
      intros rv3 st3 Hpost. apply Hgen in Hpost. rewrite Hs2 in Hpost.
      destruct (NS_FAILED rv3); apply returns_ret; exact Hpost. }
  unfold LocalCertGetTask.CalculateResult.
  apply returns_bind.
  eapply returns_weaken; [apply GetFromDB_returns |].
  intros rv0 st0 (Hs0 & _ & Hres0).
  destruct Hres0 as [(-> & c & _ & Hm) | (-> & _)]; cbn [NS_FAILED].
  - step. rewrite <- Hs0. apply (Hrest c). exact Hm.
  - apply returns_bind.
    eapply returns_weaken; [apply Generate_returns |].
    intros rv1 st1 Hpost.
    assert (rv1 = NS_OK -> holds_filed n st1) as Hok
        by (intros ->; eapply Generate_post_OK; eauto).
    apply Hgen in Hpost. rewrite Hs0 in Hpost.
    destruct (NS_FAILED rv1) eqn:Hrv1; [apply returns_ret; exact Hpost |].
    apply NS_FAILED_false in Hrv1.
    destruct (Hok Hrv1) as (c & Hm1 & _).
    eapply returns_weaken; [apply (Hrest c); exact Hm1 |].
    intros rv st' HR. eapply Htrans; eauto.
Qed.

(** X3.  The purge, the generation and the whole get-or-create task for one
    nickname leave the certificates filed under every other nickname exactly
    as they were, in their order, whatever fails. *)
Theorem other_nicknames_untouched n env st :
  (exists rv st',
      LocalCertTask.RemoveExisting n env st = Some (rv, st') /\
      others n (store st') = others n (store st)) /\
  (exists rv st',
      LocalCertGetTask.Generate n env st = Some (rv, st') /\
      others n (store st') = others n (store st)) /\
  (exists rv st',
      LocalCertGetTask.CalculateResult n env st = Some (rv, st') /\
      others n (store st') = others n (store st)).
Proof.
  split; [| split].
  - destruct (RemoveExisting_returns n env st)
      as (rv & st' & Hrun & _ & _ & Hp & _).
    exists rv, st'. split; [exact Hrun |]. apply purged_others. exact Hp.
  - destruct (Generate_returns n env st) as (rv & st' & Hrun & Hpost).
    exists rv, st'. split; [exact Hrun |].
    eapply Generate_post_others; eauto.
  - destruct (CalculateResult_stores
                (fun l l' => others n l' = others n l) n env st)
      as (rv & st' & Hrun & HR).
    + reflexivity.
    + intros l1 l2 l3 H12 H23. congruence.
    + intros st0 rv st1. apply Generate_post_others.
    + exists rv, st'. auto.
Qed.

(** ** What the task hands to its callback *)

(** X9.  When the get-or-create task returns NS_OK, the certificate in
    [mCert], which [CallCallback] hands to the callback, is not null: it is
    the certificate a lookup of the nickname returns from the store, filed
    under the nickname, self-signed, with subject and issuer
    "CN=" + nickname. *)
Theorem CalculateResult_success_certificate n env st st' :
  LocalCertGetTask.CalculateResult n env st = Some (NS_OK, st') ->
  exists c,
    mCert st' = Some c /\
    find_nickname n (store st') = Some c /\
    nickname c = n /\ isRoot c = true /\
    subjectName c = (commonNamePrefix ++ n)%string /\
    issuerName c = (commonNamePrefix ++ n)%string /\
    forall cb env2,
      LocalCertGetTask.CallCallback cb NS_OK env2 st'
      = Some (tt, with_event (HandleCert cb (Some c) NS_OK) st').
Proof.
  intros Hrun.
  pose proof (returns_run _ _ _ _ _ _ (CalculateResult_returns n env st) Hrun)
    as (_ & _ & _ & _ & Hok).
  destruct (Hok eq_refl) as (c & Hm & Hfind & Hours).
  exists c. split; [exact Hm |]. split; [exact Hfind |].
  apply find_nickname_In in Hfind as [_ Hn].
  destruct (ours_checks n c Hours) as (Hr & Hsi & Hsn).
  apply String.eqb_eq in Hsi, Hsn.
  repeat split; try congruence.
  intros cb env2. unfold LocalCertGetTask.CallCallback, bind, get_mCert, emit.
  rewrite Hm. reflexivity.
Qed.

(** The second half of [CalculateResult] leaves [mCert] alone when it
    fails. *)
Lemma rejected_is_kept n c env st0 :
  mCert st0 = Some c ->
  returns
    (rv <- LocalCertGetTask.Validate n ;;
     rv <- (if NS_FAILED rv then LocalCertGetTask.Generate n else ret rv) ;;
     if NS_FAILED rv then ret rv else ret NS_OK)
    env st0
    (fun rv st' => NS_FAILED rv = true -> mCert st' = mCert st0).
Proof.
  intros Hm. apply returns_bind.
  eapply returns_weaken; [apply (Validate_returns n c); exact Hm |].
  intros rv2 st2 (_ & Hm2 & _ & _ & Hrv2).
  destruct Hrv2 as [-> | Hf].
  - cbn [NS_FAILED]. repeat step. discriminate.
  - rewrite Hf. apply returns_bind.
    eapply returns_weaken; [apply Generate_returns |].
    intros rv3 st3 (_ & _ & _ & _ & l1 & _ & Hcase).
    destruct (NS_FAILED rv3) eqn:Hrv3; apply returns_ret;
      [| discriminate].
    intros _.
    destruct Hcase as [(_ & _ & Hm3) | (_ & c3 & _ & _ & Hres)];
      [congruence |].
    destruct Hres as [(-> & _) | (_ & Hm3)]; [discriminate | congruence].
Qed.

(** X10.  When the lookup finds a certificate and the task nevertheless
    fails (the certificate is rejected and the generation of a new one
    fails), [mCert] still holds the certificate that was found, so
    [CallCallback] hands the callback the rejected certificate together
    with the error. *)
Theorem CalculateResult_failure_keeps_rejected n env st st0 rv st' :
  LocalCertGetTask.GetFromDB n env st = Some (NS_OK, st0) ->
  LocalCertGetTask.CalculateResult n env st = Some (rv, st') ->
  NS_FAILED rv = true ->
  exists c,
    find_nickname n (store st) = Some c /\
    mCert st' = Some c /\
    forall cb env2,
      LocalCertGetTask.CallCallback cb rv env2 st'
      = Some (tt, with_event (HandleCert cb (Some c) rv) st').
Proof.
  intros H0 Hrun Hrv.
  destruct (GetFromDB_OK n env st st0 H0) as (c & Hfind & Hst0).
  assert (mCert st0 = Some c) as Hm0 by (subst st0; reflexivity).
  unfold LocalCertGetTask.CalculateResult, bind at 1 in Hrun.
  rewrite H0 in Hrun. unfold bind at 1, ret at 1 in Hrun.
  cbn [NS_FAILED] in Hrun.
  pose proof (returns_run _ _ _ _ _ _ (rejected_is_kept n c env st0 Hm0)
                Hrun Hrv) as Hm.
  exists c. split; [exact Hfind |]. split; [congruence |].
  intros cb env2. unfold LocalCertGetTask.CallCallback, bind, get_mCert, emit.
  rewrite Hm, Hm0. reflexivity.
Qed.

Lemma CalculateResult_success_certificate_witness :
  LocalCertGetTask.CalculateResult "devtools" (calm T0) fresh
  = Some (NS_OK, after_task) /\
  exists c,
    mCert after_task = Some c /\
    find_nickname "devtools" (store after_task) = Some c /\
    nickname c = "devtools"%string /\ isRoot c = true /\
    subjectName c = (commonNamePrefix ++ "devtools")%string /\
    issuerName c = (commonNamePrefix ++ "devtools")%string /\
    forall cb env2,
      LocalCertGetTask.CallCallback cb NS_OK env2 after_task
      = Some (tt, with_event (HandleCert cb (Some c) NS_OK) after_task).
Proof.
  split; [vm_compute; reflexivity |].
  apply (CalculateResult_success_certificate "devtools" (calm T0) fresh
           after_task).
  vm_compute; reflexivity.
Defined.

Lemma CalculateResult_failure_keeps_rejected_witness :
  LocalCertGetTask.GetFromDB "devtools" (no_slot (T0 + 400 * oneDay))
    (with_certs [cert_of "devtools" T0]) = Some (NS_OK, expired_found) /\
  LocalCertGetTask.CalculateResult "devtools" (no_slot (T0 + 400 * oneDay))
    (with_certs [cert_of "devtools" T0])
  = Some (NS_ERROR_NSS SEC_ERROR_IO, expired_failed) /\
  NS_FAILED (NS_ERROR_NSS SEC_ERROR_IO) = true /\
  exists c,
    find_nickname "devtools" (store (with_certs [cert_of "devtools" T0]))
    = Some c /\
    mCert expired_failed = Some c /\
    forall cb env2,
      LocalCertGetTask.CallCallback cb (NS_ERROR_NSS SEC_ERROR_IO) env2
        expired_failed
      = Some (tt, with_event
                    (HandleCert cb (Some c) (NS_ERROR_NSS SEC_ERROR_IO))
                    expired_failed).
Proof.
  split; [vm_compute; reflexivity |]. split; [vm_compute; reflexivity |].
  split; [reflexivity |].
  apply (CalculateResult_failure_keeps_rejected "devtools"
           (no_slot (T0 + 400 * oneDay))
           (with_certs [cert_of "devtools" T0]) expired_found
           (NS_ERROR_NSS SEC_ERROR_IO) expired_failed);
    [vm_compute; reflexivity | vm_compute; reflexivity | reflexivity].
Defined.

(** ** Valid when handed out *)

Lemma issued_valid_now n env c now :
  (forall k, clock env k = now) ->
  PRTime_MIN + oneDay <= now <= PRTime_MAX - 365 * oneDay ->
  issued n env c ->
  failing_condition n c now = None.
Proof.
  intros Hclock Hrange Hc.
  pose proof (generated_ours n c (issued_generated n env c Hc)) as Hours.
  destruct (ours_checks n c Hours) as (Hr & Hsi & Hsn).
  destruct Hc as (k & j & ->). cbn [isRoot subjectName issuerName] in *.
  unfold failing_condition. cbn [isRoot subjectName issuerName notBefore notAfter].
  rewrite Hsi, Hclock. cbn [negb].
  assert (0 < oneDay) as Hday by reflexivity.
  rewrite PRTime_sub_oneDay by lia. rewrite PRTime_add_year by lia.
  assert ((now - oneDay >? now) = false) as ->
      by (rewrite Z.gtb_ltb; apply Z.ltb_ge; lia).
  assert ((now + 365 * oneDay <? now - oneDay) = false) as ->
      by (apply Z.ltb_ge; lia).
  reflexivity.
Qed.

Lemma validated_or_generated_valid n c env st0 now :
  (forall k, clock env k = now) ->
  PRTime_MIN + oneDay <= now <= PRTime_MAX - 365 * oneDay ->
  mCert st0 = Some c ->
  returns
    (rv <- LocalCertGetTask.Validate n ;;
     rv <- (if NS_FAILED rv then LocalCertGetTask.Generate n else ret rv) ;;
     if NS_FAILED rv then ret rv else ret NS_OK)
    env st0
    (fun rv st' =>
       rv = NS_OK ->
       exists c', mCert st' = Some c' /\ failing_condition n c' now = None).
Proof.
  intros Hclock Hrange Hm.
  assert (0 < oneDay) as Hday by reflexivity.
  assert (PRTime_MIN + oneDay <= Validate_clock env st0 <= PRTime_MAX)
    as Hr0 by (unfold Validate_clock; rewrite Hclock; lia).
  apply returns_bind.
  eapply returns_weaken;
    [apply returns_run_eq, (Validate_returns n c); exact Hm |].
  intros rv2 st2 (Hrun2 & _ & Hm2 & _ & _ & Hrv2).
  pose proof (returns_run _ _ _ _ _ _ (Validate_result n c env st0 Hm Hr0)
                Hrun2) as (_ & Hres).
  unfold Validate_clock in Hres. rewrite Hclock in Hres.
  destruct Hrv2 as [-> | Hf].
  - cbn [NS_FAILED]. repeat step. intros _. exists c.
    split; [congruence |].
    destruct (NS_FAILED (xpcom_rv env Site.GetIsSelfSigned (tick st0)))
      eqn:Hq; [rewrite <- Hres in Hq; discriminate |].
    destruct (failing_condition n c now); [discriminate | reflexivity].
  - rewrite Hf. apply returns_bind.
    eapply returns_weaken; [apply returns_run_eq, Generate_returns |].
    intros rv3 st3 (Hrun3 & _).
    destruct (NS_FAILED rv3) eqn:Hrv3; apply returns_ret;
      [intros ->; discriminate |].
    intros _. apply NS_FAILED_false in Hrv3. subst rv3.
    destruct (Generate_OK n env st2 st3 Hrun3) as (c' & Hc' & _ & Hm3 & _).
    exists c'. split; [exact Hm3 |].
    eapply issued_valid_now; eauto.
Qed.

(** X11.  While the clock stands at [now] (far enough from the ends of
    PRTime), a certificate the get-or-create task hands out with NS_OK
    passes every condition of the validity predicate at [now], whether it
    was found or generated. *)
Theorem CalculateResult_success_valid n env st st' now :
  (forall k, clock env k = now) ->
  PRTime_MIN + oneDay <= now <= PRTime_MAX - 365 * oneDay ->
  LocalCertGetTask.CalculateResult n env st = Some (NS_OK, st') ->
  exists c,
    mCert st' = Some c /\
    failing_condition n c now = None /\
    notBefore c <= now /\ now - oneDay <= notAfter c.
Proof.
  intros Hclock Hrange Hrun.
  assert (returns (LocalCertGetTask.CalculateResult n) env st
            (fun rv st' =>
               rv = NS_OK ->
               exists c', mCert st' = Some c' /\
                          failing_condition n c' now = None)) as Hspec.
  { unfold LocalCertGetTask.CalculateResult.
    apply returns_bind.
    eapply returns_weaken; [apply GetFromDB_returns |].
    intros rv0 st0 (_ & _ & Hres0).
    destruct Hres0 as [(-> & c & _ & Hm) | (-> & _)]; cbn [NS_FAILED].
    - step. apply (validated_or_generated_valid n c); assumption.
    - apply returns_bind.
      eapply returns_weaken; [apply returns_run_eq, Generate_returns |].
      intros rv1 st1 (Hrun1 & _).
      destruct (NS_FAILED rv1) eqn:Hrv1;
        [apply returns_ret; intros ->; discriminate |].
      apply NS_FAILED_false in Hrv1. subst rv1.
      destruct (Generate_OK n env st0 st1 Hrun1) as (c & _ & _ & Hm1 & _).
      apply (validated_or_generated_valid n c); assumption. }
  destruct (returns_run _ _ _ _ _ _ Hspec Hrun eq_refl) as (c & Hm & Hvalid).
  exists c. split; [exact Hm |]. split; [exact Hvalid |].
  unfold failing_condition in Hvalid.
  destruct (negb (isRoot c)); [discriminate |].
  destruct (negb (String.eqb (subjectName c) (issuerName c)));
    [discriminate |].
  destruct (negb (String.eqb (subjectName c) (commonNamePrefix ++ n)));
    [discriminate |].
  destruct ((notBefore c >? now) || (notAfter c <? now - oneDay)) eqn:Hwin;
    [discriminate |].
  apply orb_false_iff in Hwin. rewrite Z.gtb_ltb, !Z.ltb_ge in Hwin. lia.
Qed.

Lemma CalculateResult_success_valid_witness :
  (forall k, clock (calm T0) k = T0) /\
  PRTime_MIN + oneDay <= T0 <= PRTime_MAX - 365 * oneDay /\
  LocalCertGetTask.CalculateResult "devtools" (calm T0) fresh
  = Some (NS_OK, after_task) /\
  exists c,
    mCert after_task = Some c /\
    failing_condition "devtools" c T0 = None /\
    notBefore c <= T0 /\ T0 - oneDay <= notAfter c.
Proof.
  split; [intros; reflexivity |].
  split; [vm_compute; split; discriminate |].
  split; [vm_compute; reflexivity |].
  apply (CalculateResult_success_valid "devtools" (calm T0) fresh
           after_task T0);
    [intros; reflexivity | vm_compute; split; discriminate
     | vm_compute; reflexivity].
Defined.

(** X12.  Regeneration on expiry.  When the certificate filed under the
    nickname is one of the service's but is outside its window at the time
    of the call (not yet valid, or expired by more than a day), and nothing
    fails, the get-or-create task returns NS_OK with a new certificate: the
    old certificates of the nickname are gone, the new one is the only one
    under the nickname, it differs from the old one and it is valid now. *)
Theorem regeneration_on_expiry n c env st now :
  find_nickname n (store st) = Some c ->
  all_ours n (store st) ->
  (forall s k, fails env s k = false) ->
  (forall s k, xpcom_rv env s k = NS_OK) ->
  (forall k, clock env k = now) ->
  PRTime_MIN + oneDay <= now <= PRTime_MAX - 365 * oneDay ->
  notBefore c > now \/ notAfter c < now - oneDay ->
  exists st' c',
    LocalCertGetTask.CalculateResult n env st = Some (NS_OK, st') /\
    store st' = c' :: others n (store st) /\
    mCert st' = Some c' /\
    c' <> c /\
    failing_condition n c' now = None /\
    generate_calls (log st') = S (generate_calls (log st)).
Proof.
  intros Hfind Hall Hfails Hrv Hclock Hrange Hout.
  assert (0 < oneDay) as Hday by reflexivity.
  pose (st0 := with_mCert (Some c)
                 (with_event (Ext Site.FindCertByNickname)
                    (with_event (Ext Site.do_GetService_X509CertDB) st))).
  assert (LocalCertGetTask.GetFromDB n env st = Some (NS_OK, st0)) as H0.
  { unfold LocalCertGetTask.GetFromDB, bind, call, FindCertByNickname,
      set_mCert, ret.
    rewrite Hfails. cbn [negb store with_event]. rewrite Hfind.
    reflexivity. }
  assert (failing_condition n c now = Some OutsideValidityWindow) as Hfc.
  { apply find_nickname_In in Hfind as Hin. destruct Hin as [Hin _].
    pose proof (Hall c Hin (find_nickname_Some_nickname _ _ _ Hfind)) as Hc.
    destruct (ours_checks n c Hc) as (Hr & Hsi & Hsn).
    unfold failing_condition. rewrite Hr, Hsi, Hsn. cbn [negb].
    assert ((notBefore c >? now) || (notAfter c <? now - oneDay) = true) as ->;
      [| reflexivity].
    apply orb_true_iff. rewrite Z.gtb_lt, Z.ltb_lt. lia. }
  (* the certificate is rejected *)
  assert (PRTime_MIN + oneDay <= Validate_clock env st0 <= PRTime_MAX) as Hr0
      by (unfold Validate_clock; rewrite Hclock; lia).
  destruct (returns_run_eq _ _ _ _ (Validate_returns n c env st0 eq_refl))
    as (rv2 & st2 & _ & Hrun2 & Hs2 & _ & Ht2 & _).
  pose proof (returns_run _ _ _ _ _ _
                (Validate_result n c env st0 eq_refl Hr0) Hrun2)
    as (_ & Hres).
  rewrite Hrv in Hres. cbn [NS_FAILED] in Hres.
  unfold Validate_clock in Hres. rewrite Hclock, Hfc in Hres. subst rv2.
  (* and a new one is generated *)
  assert (all_ours n (store st2)) as Hall2 by (rewrite Hs2; exact Hall).
  destruct (Generate_calm n env st2 Hfails Hall2)
    as (st' & c' & Hgen & Hc' & Hs' & Hm').
  pose proof (returns_run _ _ _ _ _ _ (Generate_returns n env st2) Hgen)
    as (Hgc & _).
  exists st', c'.
  split.
  { unfold LocalCertGetTask.CalculateResult, bind at 1. rewrite H0.
    unfold bind at 1. unfold ret at 1. cbn [NS_FAILED].
    unfold bind at 1. rewrite Hrun2. cbn [NS_FAILED].
    unfold bind at 1. rewrite Hgen. reflexivity. }
  split; [rewrite Hs', Hs2; reflexivity |].
  split; [exact Hm' |].
  pose proof (issued_valid_now n env c' now Hclock Hrange Hc') as Hvalid.
  split; [intros ->; congruence |].
  split; [exact Hvalid |].
  rewrite Hgc. unfold trace in Ht2. injection Ht2 as -> _ _ _. reflexivity.
Qed.

Lemma regeneration_on_expiry_witness :
  find_nickname "devtools" (store expired_store)
  = Some (cert_of "devtools" T0) /\
  all_ours "devtools" (store expired_store) /\
  (forall s k, fails (calm (T0 + 400 * oneDay)) s k = false) /\
  (forall s k, xpcom_rv (calm (T0 + 400 * oneDay)) s k = NS_OK) /\
  (forall k, clock (calm (T0 + 400 * oneDay)) k = T0 + 400 * oneDay) /\
  PRTime_MIN + oneDay <= T0 + 400 * oneDay <= PRTime_MAX - 365 * oneDay /\
  (notBefore (cert_of "devtools" T0) > T0 + 400 * oneDay \/
   notAfter (cert_of "devtools" T0) < T0 + 400 * oneDay - oneDay) /\
  exists st' c',
    LocalCertGetTask.CalculateResult "devtools" (calm (T0 + 400 * oneDay))
      expired_store = Some (NS_OK, st') /\
    store st' = c' :: others "devtools" (store expired_store) /\
    mCert st' = Some c' /\
    c' <> cert_of "devtools" T0 /\
    failing_condition "devtools" c' (T0 + 400 * oneDay) = None /\
    generate_calls (log st') = S (generate_calls (log expired_store)).
Proof.
  assert (all_ours "devtools" (store expired_store)) as Hall.
  { intros c Hin Hn. cbn in Hin. destruct Hin as [<- | []]. reflexivity. }
  split; [reflexivity |]. split; [exact Hall |].
  split; [intros; reflexivity |]. split; [intros; reflexivity |].
  split; [intros; reflexivity |].
  split; [vm_compute; split; discriminate |].
  split; [right; vm_compute; reflexivity |].
  apply (regeneration_on_expiry "devtools" (cert_of "devtools" T0)
           (calm (T0 + 400 * oneDay)) expired_store (T0 + 400 * oneDay));
    try (intros; reflexivity); try exact Hall.
  - vm_compute; split; discriminate.
  - right; vm_compute; reflexivity.
Defined.

(** ** Unlocking the key slot *)

(** X13.  [GetLoginPromptRequired] and [LoginToKeySlot], started in the same
    state, go the same way up to the prompt: when the former fails, the
    latter fails with the same error after the same calls; when the former
    reports that no prompt is required, the latter returns NS_OK after the
    same calls, without asking for the token database or a login; when the
    former reports that a prompt is required, the latter goes on to prompt.
    Neither touches the certificate store. *)
Theorem LoginToKeySlot_follows_prompt_check env st :
  exists r st1,
    LocalCertService.GetLoginPromptRequired env st = Some (r, st1) /\
    store st1 = store st /\
    match r with
    | (rv, None) =>
        NS_FAILED rv = true /\
        LocalCertService.LoginToKeySlot env st = Some (rv, st1)
    | (rv, Some false) =>
        rv = NS_OK /\
        LocalCertService.LoginToKeySlot env st = Some (NS_OK, st1)
    | (rv, Some true) =>
        rv = NS_OK /\
        LocalCertService.LoginToKeySlot env st = prompt_login env st1
    end.
Proof.
  unfold LocalCertService.GetLoginPromptRequired,
    LocalCertService.LoginToKeySlot, prompt_login,
    bind, call, query, xpcom, NSSError, MapSECStatus, PR_GetError, ret,
    GetXPCOMFromNSSError.
  destruct (fails env Site.PK11_GetInternalKeySlot (tick st)); cbn [negb];
    [eexists _, _; repeat split |].
  destruct (answer env Site.PK11_NeedUserInit
              (tick (with_event (Ext Site.PK11_GetInternalKeySlot) st))).
  - destruct (fails env Site.PK11_InitPin _); cbn [negb NS_FAILED];
      [eexists _, _; repeat split |].
    destruct (answer env Site.PK11_NeedLogin _); cbn [andb negb];
      [| eexists _, _; repeat split].
    destruct (answer env Site.PK11_IsLoggedIn _); cbn [andb negb];
      eexists _, _; repeat split.
  - cbn [NS_FAILED].
    destruct (answer env Site.PK11_NeedLogin _); cbn [andb negb];
      [| eexists _, _; repeat split].
    destruct (answer env Site.PK11_IsLoggedIn _); cbn [andb negb];
      eexists _, _; repeat split.
Qed.

(** ** One answer per request *)

(** X14.  A request is answered in exactly one way.  Either
    [GetOrCreateCert] (or [RemoveCert]) returns NS_OK and has invoked the
    callback exactly once, or it returns a failure and has not invoked the
    callback at all: a caller never gets both an error return and a
    callback, and never neither.  (The executor runs an accepted task to
    completion before the call returns.) *)
Theorem one_answer_per_request n cb env st :
  (exists rv st',
      LocalCertService.GetOrCreateCert n cb env st = Some (rv, st') /\
      (rv = NS_OK /\
       (exists aCallback cert r,
           cb = Some aCallback /\
           callbacks (log st')
           = HandleCert aCallback cert r :: callbacks (log st))
       \/
       NS_FAILED rv = true /\ callbacks (log st') = callbacks (log st)))
  /\
  (exists rv st',
      LocalCertService.RemoveCert n cb env st = Some (rv, st') /\
      (rv = NS_OK /\
       (exists aCallback r,
           cb = Some aCallback /\
           callbacks (log st')
           = HandleResult aCallback r :: callbacks (log st))
       \/
       NS_FAILED rv = true /\ callbacks (log st') = callbacks (log st))).
Proof.
  destruct (LocalCertService.IsEmpty n) eqn:Hn.
  { unfold LocalCertService.GetOrCreateCert, LocalCertService.RemoveCert.
    rewrite Hn. split; eexists _, _; (split; [reflexivity |]); right; auto. }
  destruct cb as [aCallback |].
  2: { unfold LocalCertService.GetOrCreateCert, LocalCertService.RemoveCert.
       rewrite Hn.
       split; eexists _, _; (split; [reflexivity |]); right; auto. }
  split.
  - destruct (GetOrCreateCert_returns n aCallback env st Hn)
      as (rv & st' & Hrun & _ & Hcase).
    exists rv, st'. split; [exact Hrun |].
    destruct Hcase as [(r & _ & -> & Hcb & _)
                      | [(Hf & Hcb & _) | (-> & _ & cert & r & Hcb & _)]].
    + left. split; [reflexivity |]. exists aCallback, None, r. auto.
    + right. auto.
    + left. split; [reflexivity |]. exists aCallback, cert, r. auto.
  - destruct (RemoveCert_returns n aCallback env st Hn)
      as (rv & st' & Hrun & _ & Hcase).
    exists rv, st'. split; [exact Hrun |].
    destruct Hcase as [(r & _ & -> & Hcb & _)
                      | [(Hf & Hcb & _) | (-> & _ & r & Hcb & _)]].
    + left. split; [reflexivity |]. exists aCallback, r. auto.
    + right. auto.
    + left. split; [reflexivity |]. exists aCallback, r. auto.
Qed.

(** ** Foreign certificates *)

(** With a certificate under the nickname that fails the guard, the purge
    cannot come to its end. *)
Lemma RemoveExisting_with_foreign n c env st :
  In c (store st) ->
  has_nickname n c = true ->
  ours n c = false ->
  returns (LocalCertTask.RemoveExisting n) env st
          (fun rv st' =>
             NS_FAILED rv = true /\ In c (store st') /\
             ((forall k,
                  fails env Site.PK11_DeleteTokenCertAndKey k = false) ->
              rv = NS_ERROR_UNEXPECTED)).
Proof.
  intros Hin Hn Hc.
  eapply returns_weaken; [apply returns_run_eq, RemoveExisting_returns |].
  intros rv st' (Hrun & _ & _ & Hp & Hres).
  pose proof (purged_keeps n _ _ Hp c Hin Hc) as Hin'.
  assert (NS_FAILED rv = true) as Hf.
  { destruct (find_nickname n (store st')) as [x |] eqn:Hfind.
    - destruct (ours n x); [destruct Hres as [e ->] | subst rv]; reflexivity.
    - rewrite (find_nickname_None_In n _ c Hfind Hin') in Hn. discriminate. }
  split; [exact Hf |]. split; [exact Hin' |].
  intros Hdel.
  pose proof (returns_run _ _ _ _ _ _
                (RemoveExisting_no_delete_failure n env st Hdel) Hrun)
    as [-> | ->]; [discriminate | reflexivity].
Qed.

Lemma Generate_with_foreign n c env st :
  In c (store st) ->
  has_nickname n c = true ->
  ours n c = false ->
  returns (LocalCertGetTask.Generate n) env st
          (fun rv st' =>
             NS_FAILED rv = true /\ In c (store st') /\
             ((forall k, fails env Site.PK11_GetInternalKeySlot k = false) ->
              (forall k,
                  fails env Site.PK11_DeleteTokenCertAndKey k = false) ->
              rv = NS_ERROR_UNEXPECTED)).
Proof.
  intros Hin Hn Hc.
  eapply returns_weaken; [apply Generate_steps_returns |].
  intros rv st' [(Hslot & Hf & Hs & _) | (_ & rv1 & st1 & Hrun1 & Hcase)].
  - split; [exact Hf |]. split; [rewrite Hs; exact Hin |].
    intros Hok _. rewrite Hok in Hslot. discriminate.
  - pose proof (returns_run _ _ _ _ _ _
                  (RemoveExisting_with_foreign n c env
                     (with_event (Ext Site.PK11_GetInternalKeySlot)
                        (with_event GenerateBegin st)) Hin Hn Hc) Hrun1)
      as (Hf1 & Hin1 & Hu1).
    destruct Hcase as [(_ & -> & Hs & _) | [(-> & _) | (-> & _)]];
      try discriminate.
    split; [exact Hf1 |]. split; [rewrite Hs; exact Hin1 |].
    intros _ Hdel. apply Hu1. exact Hdel.
Qed.

(** With a certificate under the nickname that fails the guard, the
    get-or-create task either accepts a certificate of the service that the
    lookup finds, touching nothing, or fails. *)
Lemma CalculateResult_with_foreign n c env st :
  In c (store st) ->
  has_nickname n c = true ->
  ours n c = false ->
  returns (LocalCertGetTask.CalculateResult n) env st
          (fun rv st' =>
             (rv = NS_OK /\ store st' = store st /\
              generate_calls (log st') = generate_calls (log st) /\
              exists c0,
                find_nickname n (store st) = Some c0 /\
                ours n c0 = true /\ mCert st' = Some c0)
             \/
             (NS_FAILED rv = true /\
              ((forall k,
                   fails env Site.PK11_GetInternalKeySlot k = false) ->
               (forall k,
                   fails env Site.PK11_DeleteTokenCertAndKey k = false) ->
               rv = NS_ERROR_UNEXPECTED))).
Proof.
  intros Hin Hn Hc.
  assert (forall st0 : State,
             store st0 = store st ->
             returns
               (rv <- LocalCertGetTask.Generate n ;;
                if NS_FAILED rv then ret rv else ret NS_OK)
               env st0
               (fun rv _ =>
                  NS_FAILED rv = true /\
                  ((forall k,
                       fails env Site.PK11_GetInternalKeySlot k = false) ->
                   (forall k,
                       fails env Site.PK11_DeleteTokenCertAndKey k = false) ->
                   rv = NS_ERROR_UNEXPECTED))) as Hgen.
  { intros st0 Hs0. apply returns_bind.
    eapply returns_weaken;
      [apply (Generate_with_foreign n c); [rewrite Hs0 | |]; assumption |].
    intros rv1 st1 (Hf1 & _ & Hu1). rewrite Hf1. step. auto. }
  unfold LocalCertGetTask.CalculateResult.
  apply returns_bind.
  eapply returns_weaken; [apply GetFromDB_returns |].
  intros rv0 st0 (Hs0 & Ht0 & Hres0).
  unfold trace in Ht0. injection Ht0 as Hgc0 _ _ _.
  destruct Hres0 as [(-> & c0 & Hfind0 & Hm0) | (-> & Hm0)];
    cbn [NS_FAILED].
  - step. apply returns_bind.
    eapply returns_weaken; [apply (Validate_returns n c0); exact Hm0 |].
    intros rv1 st1 (Hs1 & Hm1 & Ht1 & Hours1 & Hrv1).
    unfold trace in Ht1. injection Ht1 as Hgc1 _ _ _.
    destruct Hrv1 as [-> | Hf1].
    + cbn [NS_FAILED]. repeat step. left.
      split; [reflexivity |]. split; [congruence |]. split; [congruence |].
      exists c0. split; [exact Hfind0 |]. split; [auto | congruence].
    + rewrite Hf1.
      eapply returns_weaken; [apply Hgen; congruence |].
      intros rv st' H. right. exact H.
  - apply returns_bind.
    eapply returns_weaken;
      [apply (Generate_with_foreign n c); [rewrite Hs0 | |]; assumption |].
    intros rv1 st1 (Hf1 & _ & Hu1). rewrite Hf1. step. right. auto.
Qed.

(** C2 (amended).  A certificate in the store that is not self-signed, or
    whose subject or issuer is not "CN=" + n, is never deleted: it is still
    in the store after [RemoveExisting] and after the get-or-create task,
    whatever else happens.  When it is filed under the nickname, the purge
    always fails, with NS_ERROR_UNEXPECTED unless a deletion fails; and the
    get-or-create task either returns a certificate of the service that the
    lookup finds and the validation accepts, without calling [Generate] and
    leaving the store as it was, or fails, with NS_ERROR_UNEXPECTED unless
    the key slot cannot be acquired or a deletion fails.  When it is the
    certificate the lookup returns, the purge fails with NS_ERROR_UNEXPECTED
    and the task fails, both leaving the store as it was, and the task's
    error is NS_ERROR_UNEXPECTED whenever the key slot can be acquired. *)
Theorem C2_foreign_certificate_kept n c env st :
  In c (store st) ->
  (isRoot c = false \/
   subjectName c <> (commonNamePrefix ++ n)%string \/
   issuerName c <> (commonNamePrefix ++ n)%string) ->
  (exists rv st',
     LocalCertTask.RemoveExisting n env st = Some (rv, st') /\
     In c (store st') /\
     (nickname c = n ->
      NS_FAILED rv = true /\
      ((forall k, fails env Site.PK11_DeleteTokenCertAndKey k = false) ->
       rv = NS_ERROR_UNEXPECTED)) /\
     (find_nickname n (store st) = Some c ->
      rv = NS_ERROR_UNEXPECTED /\ store st' = store st))
  /\
  (exists rv st',
     LocalCertGetTask.CalculateResult n env st = Some (rv, st') /\
     In c (store st') /\
     (nickname c = n ->
      (rv = NS_OK /\ store st' = store st /\
       generate_calls (log st') = generate_calls (log st) /\
       exists c0,
         find_nickname n (store st) = Some c0 /\
         ours n c0 = true /\ mCert st' = Some c0)
      \/
      (NS_FAILED rv = true /\
       ((forall k, fails env Site.PK11_GetInternalKeySlot k = false) ->
        (forall k, fails env Site.PK11_DeleteTokenCertAndKey k = false) ->
        rv = NS_ERROR_UNEXPECTED))) /\
     (find_nickname n (store st) = Some c ->
      NS_FAILED rv = true /\ store st' = store st /\
      ((forall k, fails env Site.PK11_GetInternalKeySlot k = false) ->
       rv = NS_ERROR_UNEXPECTED))).
Proof.
  intros Hin Hforeign. apply not_ours in Hforeign as Hc. split.
  - destruct (RemoveExisting_returns n env st)
      as (rv & st' & Hrun & _ & _ & Hp & Hres).
    exists rv, st'. split; [exact Hrun |].
    split; [eapply purged_keeps; eauto |]. split.
    + intros Hn. apply String.eqb_eq in Hn.
      pose proof (returns_run _ _ _ _ _ _
                    (RemoveExisting_with_foreign n c env st Hin Hn Hc) Hrun)
        as (Hf & _ & Hu). auto.
    + intros Hfind.
      pose proof (purged_foreign n _ _ c Hp Hfind Hc) as Hs.
      rewrite Hs, Hfind, Hc in Hres. auto.
  - destruct (CalculateResult_returns n env st)
      as (rv & st' & Hrun & _ & _ & _ & [Hkeep _] & _).
    exists rv, st'. split; [exact Hrun |]. split; [auto |]. split.
    + intros Hn. apply String.eqb_eq in Hn.
      exact (returns_run _ _ _ _ _ _
               (CalculateResult_with_foreign n c env st Hin Hn Hc) Hrun).
    + intros Hfind.
      exact (returns_run _ _ _ _ _ _
               (CalculateResult_foreign_first n c env st Hfind Hc) Hrun).
Qed.

Lemma C2_foreign_certificate_kept_witness :
  In (foreign_cert "devtools") (store own_then_foreign) /\
  (isRoot (foreign_cert "devtools") = false \/
   subjectName (foreign_cert "devtools")
   <> (commonNamePrefix ++ "devtools")%string \/
   issuerName (foreign_cert "devtools")
   <> (commonNamePrefix ++ "devtools")%string) /\
  ((exists rv st',
      LocalCertTask.RemoveExisting "devtools" (calm T0) own_then_foreign
      = Some (rv, st') /\
      In (foreign_cert "devtools") (store st') /\
      (nickname (foreign_cert "devtools") = "devtools"%string ->
       NS_FAILED rv = true /\
       ((forall k,
            fails (calm T0) Site.PK11_DeleteTokenCertAndKey k = false) ->
        rv = NS_ERROR_UNEXPECTED)) /\
      (find_nickname "devtools" (store own_then_foreign)
       = Some (foreign_cert "devtools") ->
       rv = NS_ERROR_UNEXPECTED /\ store st' = store own_then_foreign))
   /\
   (exists rv st',
      LocalCertGetTask.CalculateResult "devtools" (calm T0) own_then_foreign
      = Some (rv, st') /\
      In (foreign_cert "devtools") (store st') /\
      (nickname (foreign_cert "devtools") = "devtools"%string ->
       (rv = NS_OK /\ store st' = store own_then_foreign /\
        generate_calls (log st') = generate_calls (log own_then_foreign) /\
        exists c0,
          find_nickname "devtools" (store own_then_foreign) = Some c0 /\
          ours "devtools" c0 = true /\ mCert st' = Some c0)
       \/
       (NS_FAILED rv = true /\
        ((forall k,
             fails (calm T0) Site.PK11_GetInternalKeySlot k = false) ->
         (forall k,
             fails (calm T0) Site.PK11_DeleteTokenCertAndKey k = false) ->
         rv = NS_ERROR_UNEXPECTED))) /\
      (find_nickname "devtools" (store own_then_foreign)
       = Some (foreign_cert "devtools") ->
       NS_FAILED rv = true /\ store st' = store own_then_foreign /\
       ((forall k,
            fails (calm T0) Site.PK11_GetInternalKeySlot k = false) ->
        rv = NS_ERROR_UNEXPECTED)))).
Proof.
  split; [right; left; reflexivity |]. split; [left; reflexivity |].
  apply (C2_foreign_certificate_kept "devtools" (foreign_cert "devtools")
           (calm T0) own_then_foreign);
    [right; left; reflexivity | left; reflexivity].
Defined.

(** C2, as stated, fails, in the three ways the amended statement allows
    for.  With a valid certificate of the service filed in front of the
    foreign one, the get-or-create task succeeds.  With the foreign
    certificate alone and no key slot, the task fails with the slot's error.
    And when the deletion of a certificate of the service filed in front of
    the foreign one fails, the purge, and the task that has to regenerate,
    fail with the error of the deletion.  None of them is
    NS_ERROR_UNEXPECTED. *)
Lemma C2_not_always_unexpected :
  (In (foreign_cert "devtools") (store own_then_foreign) /\
   isRoot (foreign_cert "devtools") = false /\
   exists st',
     LocalCertGetTask.CalculateResult "devtools" (calm T0) own_then_foreign
     = Some (NS_OK, st'))
  /\
  (exists st',
     LocalCertGetTask.CalculateResult "devtools" (no_slot T0)
       (with_certs [foreign_cert "devtools"])
     = Some (NS_ERROR_NSS SEC_ERROR_IO, st'))
  /\
  (exists st',
     LocalCertTask.RemoveExisting "devtools" (no_delete T0) own_then_foreign
     = Some (NS_ERROR_NSS SEC_ERROR_IO, st'))
  /\
  (exists st',
     LocalCertGetTask.CalculateResult "devtools"
       (no_delete (T0 + 400 * oneDay)) own_then_foreign
     = Some (NS_ERROR_NSS SEC_ERROR_IO, st'))
  /\
  NS_ERROR_NSS SEC_ERROR_IO <> NS_ERROR_UNEXPECTED /\
  NS_OK <> NS_ERROR_UNEXPECTED.
Proof.
  split.
  { split; [right; left; reflexivity |]. split; [reflexivity |].
    eexists. vm_compute. reflexivity. }
  split; [eexists; vm_compute; reflexivity |].
  split; [eexists; vm_compute; reflexivity |].
  split; [eexists; vm_compute; reflexivity |].
  split; discriminate.
Qed.
